(** * Inventory ledger: a shallow embedding of [inventory.py] and of the
    reconciliation pull, the history edit and the activity log of
    [inventory_gui.py]

    The program keeps one JSON document (a Python [dict]) holding the live
    stock, the monthly opening stocks, the transaction history and the item
    metadata.  Every operation mutates that document in place and may raise.

    - JSON values are the inductive [json]; a Python [dict] is an association
      list in insertion order ([pydict]), because an exception raised in the
      middle of a loop leaves the entries visited so far mutated, so the
      iteration order is observable.  JSON objects have unique keys.
    - JSON numbers with a fraction or an exponent (Python [float]) are outside
      the model: the program never writes one.
    - Strings are byte strings (UTF-8).  Comparison by bytes agrees with
      Python's comparison by code point; [strip] and [lower] are the ASCII
      ones (they agree with Python's on ASCII text).
    - Mutation is explicit state passing: a computation [M A] takes the
      document and returns either a value or an exception, in both cases
      together with the document as it has been left. *)

From Stdlib Require Import ZArith List String Ascii Bool Lia Arith.
From Stdlib Require Import DecimalString.
Import ListNotations.

Set Warnings "-register-all".
Local Open Scope string_scope.
Local Open Scope Z_scope.
Local Open Scope list_scope.

(* ================================================================== *)
(** ** Python values and dictionaries *)
(* ================================================================== *)

Module Py.

Inductive json : Type :=
| JNull
| JBool (b : bool)
| JInt (n : Z)
| JStr (s : string)
| JList (l : list json)
| JDict (d : list (string * json)).

Definition pydict : Type := list (string * json).

(** Exceptions.  The two [ValueError]s of [record_transaction] carry the
    fields their message is formatted from. *)
Inductive message : Type :=
| ArtistMismatch (item : string) (existing_artist : json)
| InsufficientStock (item location : string) (available : json) (requested : Z).

Inductive exn : Type :=
| AttributeError
| TypeError
| KeyError (key : string)
| ValueError (msg : message)
| OutOfModel.  (* a value the model has no constructor for (a non-string
                  dictionary key, a non-string Transaction field) *)

(** [bool(v)] *)
Definition truthy (v : json) : bool :=
  match v with
  | JNull => false
  | JBool b => b
  | JInt n => negb (n =? 0)
  | JStr s => negb (s =? "")%string
  | JList l => match l with [] => false | _ => true end
  | JDict d => match d with [] => false | _ => true end
  end.

(** [isinstance(v, int)]: [bool] is a subclass of [int]. *)
Definition isinstance_int (v : json) : bool :=
  match v with JInt _ | JBool _ => true | _ => false end.

Definition isinstance_dict (v : json) : bool :=
  match v with JDict _ => true | _ => false end.

(** [v == s] and [v != s] for a string [s]: only an equal string is equal. *)
Definition eq_str (v : json) (s : string) : bool :=
  match v with JStr s' => (s' =? s)%string | _ => false end.

(** The integer value of an [int] or a [bool]. *)
Definition int_value (v : json) : option Z :=
  match v with
  | JInt n => Some n
  | JBool b => Some (if b then 1 else 0)
  | _ => None
  end.

(** [d.get(k)] as an option, [d.get(k, default)], [k in d]. *)
Fixpoint dict_get (d : pydict) (k : string) : option json :=
  match d with
  | [] => None
  | (k', v) :: rest => if (k' =? k)%string then Some v else dict_get rest k
  end.

Definition dict_get_default (d : pydict) (k : string) (default : json) : json :=
  match dict_get d k with Some v => v | None => default end.

Definition dict_mem (d : pydict) (k : string) : bool :=
  match dict_get d k with Some _ => true | None => false end.

(** [d[k] = v]: an existing key keeps its position, a new one goes last. *)
Fixpoint dict_set (d : pydict) (k : string) (v : json) : pydict :=
  match d with
  | [] => [(k, v)]
  | (k', v') :: rest =>
      if (k' =? k)%string then (k', v) :: rest else (k', v') :: dict_set rest k v
  end.

(** [d.setdefault(k, default)]: the dictionary afterwards. The value returned
    by Python is [dict_get_default d k default]. *)
Definition dict_setdefault (d : pydict) (k : string) (default : json) : pydict :=
  match dict_get d k with Some _ => d | None => dict_set d k default end.

Definition dict_keys (d : pydict) : list string := map fst d.
Definition dict_values (d : pydict) : list json := map snd d.

(** [for k, v in list(d.items()): d[k] = f(v)] for a total [f]. *)
Definition map_values (f : json -> json) (d : pydict) : pydict :=
  map (fun kv => (fst kv, f (snd kv))) d.

(** The same loop when the body can raise: the body returns the value as it
    leaves it and the exception, if any; the loop stops there, the entries
    before it stay rewritten. *)
Fixpoint for_values (f : json -> json * option exn) (d : pydict)
  : pydict * option exn :=
  match d with
  | [] => ([], None)
  | (k, v) :: rest =>
      match f v with
      | (v', None) =>
          let (rest', e) := for_values f rest in ((k, v') :: rest', e)
      | (v', Some e) => ((k, v') :: rest, Some e)
      end
  end.

Fixpoint for_items (f : json -> json * option exn) (l : list json)
  : list json * option exn :=
  match l with
  | [] => ([], None)
  | v :: rest =>
      match f v with
      | (v', None) =>
          let (rest', e) := for_items f rest in (v' :: rest', e)
      | (v', Some e) => (v' :: rest, Some e)
      end
  end.

(** [copy.deepcopy]: values have no identity here. *)
Definition deepcopy (v : json) : json := v.

(** [sub in s] for strings. *)
Fixpoint str_contains (sub s : string) : bool :=
  String.prefix sub s ||
  match s with
  | EmptyString => false
  | String _ rest => str_contains sub rest
  end.

(** [s.strip()] and [s.lower()], ASCII. *)
Definition is_space (c : ascii) : bool :=
  let n := nat_of_ascii c in
  ((9 <=? n) && (n <=? 13) || (28 <=? n) && (n <=? 32))%nat.

Fixpoint lstrip (s : string) : string :=
  match s with
  | String c rest => if is_space c then lstrip rest else s
  | EmptyString => EmptyString
  end.

Fixpoint rstrip (s : string) : string :=
  match s with
  | EmptyString => EmptyString
  | String c rest =>
      match rstrip rest with
      | EmptyString => if is_space c then EmptyString else String c EmptyString
      | r => String c r
      end
  end.

Definition strip (s : string) : string := rstrip (lstrip s).

Definition lower_char (c : ascii) : ascii :=
  let n := nat_of_ascii c in
  if ((65 <=? n) && (n <=? 90))%nat then ascii_of_nat (n + 32) else c.

Fixpoint lower (s : string) : string :=
  match s with
  | EmptyString => EmptyString
  | String c rest => String (lower_char c) (lower rest)
  end.

(** Decimal rendering, zero-padded to [width] digits ([%02d], [%04d]). *)
Definition decimal (n : nat) : string := NilZero.string_of_uint (Nat.to_uint n).

Fixpoint zeros (n : nat) : string :=
  match n with O => EmptyString | S m => String "0"%char (zeros m) end.

Definition zfill (width n : nat) : string :=
  let s := decimal n in (zeros (width - String.length s) ++ s)%string.

(** *** Computations on the document *)

Inductive result (A : Type) : Type :=
| Ok (a : A) (data : pydict)
| Raise (e : exn) (data : pydict).
Arguments Ok {A} a data.
Arguments Raise {A} e data.

Definition M (A : Type) : Type := pydict -> result A.

(** The outcome of a function that mutates nothing the caller can see. *)
Inductive outcome (A : Type) : Type :=
| Return (a : A)
| Throw (e : exn).
Arguments Return {A} a.
Arguments Throw {A} e.

Definition ret {A} (a : A) : M A := fun data => Ok a data.
Definition bind {A B} (m : M A) (f : A -> M B) : M B :=
  fun data =>
    match m data with
    | Ok a data' => f a data'
    | Raise e data' => Raise e data'
    end.
Definition raise {A} (e : exn) : M A := fun data => Raise e data.

(** The document left behind, whatever the outcome. *)
Definition final {A} (r : result A) : pydict :=
  match r with Ok _ d => d | Raise _ d => d end.

Definition get_data : M pydict := fun data => Ok data data.
(** [data[k] = v] *)
Definition data_set (k : string) (v : json) : M unit :=
  fun data => Ok tt (dict_set data k v).
(** [data.setdefault(k, default)] *)
Definition data_setdefault (k : string) (default : json) : M json :=
  fun data => Ok (dict_get_default data k default) (dict_setdefault data k default).
(** [data.get(k, default)] *)
Definition data_get (k : string) (default : json) : M json :=
  fun data => Ok (dict_get_default data k default) data.
(** [data[k]] *)
Definition data_item (k : string) : M json :=
  fun data =>
    match dict_get data k with
    | Some v => Ok v data
    | None => Raise (KeyError k) data
    end.

(** [x.values()], [x.get(...)], [x.setdefault(...)] of something expected
    to be a dictionary. *)
Definition as_dict (v : json) : M pydict :=
  match v with
  | JDict d => ret d
  | _ => raise AttributeError
  end.

(** Store a sub-object back under [k], then re-raise what its loop raised. *)
Definition store (k : string) (r : json * option exn) : M unit :=
  fun data =>
    match r with
    | (v, None) => Ok tt (dict_set data k v)
    | (v, Some e) => Raise e (dict_set data k v)
    end.

End Py.

Import Py.

Declare Scope py_scope.
Delimit Scope py_scope with py.
Notation "x <- c1 ;; c2" := (bind c1 (fun x => c2))
  (at level 100, c1 at next level, right associativity) : py_scope.
Notation "c1 ;; c2" := (bind c1 (fun _ => c2))
  (at level 100, right associativity) : py_scope.
Local Open Scope py_scope.

(* ================================================================== *)
(** ** inventory.py *)
(* ================================================================== *)

Module Inventory.

(** [datetime], naive, with a four-digit year. *)
Record datetime : Type := mk_datetime {
  dt_year : nat; dt_month : nat; dt_day : nat;
  dt_hour : nat; dt_minute : nat; dt_second : nat; dt_microsecond : nat
}.

(** [ts.strftime("%Y")], [ts.strftime("%Y-%m")], [ts.date().isoformat()],
    [ts.isoformat()] *)
Definition strftime_Y (ts : datetime) : string := zfill 4 (dt_year ts).
Definition strftime_Ym (ts : datetime) : string :=
  (strftime_Y ts ++ "-" ++ zfill 2 (dt_month ts))%string.
Definition date_isoformat (ts : datetime) : string :=
  (strftime_Ym ts ++ "-" ++ zfill 2 (dt_day ts))%string.
Definition isoformat (ts : datetime) : string :=
  (date_isoformat ts ++ "T" ++ zfill 2 (dt_hour ts) ++ ":"
     ++ zfill 2 (dt_minute ts) ++ ":" ++ zfill 2 (dt_second ts)
     ++ (if (dt_microsecond ts =? 0)%nat then ""
         else "." ++ zfill 6 (dt_microsecond ts)))%string.

(** The dataclass [Transaction]; [type] is ["in"] or ["out"]. *)
Record Transaction : Type := mk_Transaction {
  type : string;
  artist : string;
  item : string;
  option : string;
  location : string;
  quantity : Z;
  timestamp : datetime;
  category : string;
  actor : string;
  description : string;
  event : bool;
  event_id : string;
  event_open : bool
}.

Definition period (t : Transaction) : string := strftime_Ym (timestamp t).
Definition day (t : Transaction) : string := date_isoformat (timestamp t).
Definition year (t : Transaction) : string := strftime_Y (timestamp t).

Definition to_dict (t : Transaction) : pydict :=
  [ ("type", JStr (type t));
    ("artist", JStr (artist t));
    ("item", JStr (item t));
    ("category", JStr (category t));
    ("option", JStr (option t));
    ("location", JStr (location t));
    ("quantity", JInt (quantity t));
    ("timestamp", JStr (isoformat (timestamp t)));
    ("actor", JStr (actor t));
    ("period", JStr (period t));
    ("day", JStr (day t));
    ("year", JStr (year t));
    ("description", JStr (description t));
    ("event", JBool (event t));
    ("event_id", JStr (event_id t));
    ("event_open", JBool (event_open t)) ].

(** [_empty()] of [load_data] *)
Definition empty_document : pydict :=
  [ ("current_period", JNull);
    ("periods", JDict []);
    ("stock", JDict []);
    ("history", JList []);
    ("item_metadata", JDict []);
    ("last_updated", JNull);
    ("activity_log", JList []) ].

Definition mem_str (s : string) (l : list string) : bool :=
  existsb (String.eqb s) l.

Definition normalize_category (value : string) : string :=
  if negb (truthy (JStr value)) then "album"
  else
    let cleaned := lower (strip value) in
    if mem_str cleaned ["md"; "md/굿즈"; "merch"; "굿즈"] then "md"
    else if mem_str cleaned ["album"; "앨범"] then "album"
    else if truthy (JStr cleaned) then cleaned else "album".

Definition _option_key (option : string) : string :=
  if truthy (JStr option) then option else "".

(** *** [_ensure_new_schema] *)

(** The body of the loop over [stock.items()]. *)
Definition upgrade_stock_item (value : json) : json :=
  match value with
  | JDict v =>
      if truthy value && forallb isinstance_int (dict_values v)
      then JDict [("", value)]
      else value
  | _ => JDict [("", JDict [])]
  end.

(** The body of the first loop over [metadata.values()]. *)
Definition upgrade_last_audit (info : json) : json :=
  match info with
  | JDict i =>
      if negb (isinstance_dict (dict_get_default i "last_audit" JNull))
      then JDict (dict_set i "last_audit" (JDict []))
      else info
  | _ => info
  end.

(** The body of the loop over [opening.items()]: [value.values()] raises
    on a truthy value that is not a dictionary. *)
Definition upgrade_opening_item (value : json) : json * Datatypes.option exn :=
  if truthy value then
    match value with
    | JDict v =>
        if forallb isinstance_int (dict_values v)
        then (JDict [("", value)], None)
        else (value, None)
    | _ => (value, Some AttributeError)
    end
  else (value, None).

(** The body of the loop over the periods. *)
Definition upgrade_period_info (period_info : json)
  : json * Datatypes.option exn :=
  match period_info with
  | JDict pi =>
      match dict_get pi "opening_stock" with
      | Some (JDict opening) =>
          let (opening', e) := for_values upgrade_opening_item opening in
          (JDict (dict_set pi "opening_stock" (JDict opening')), e)
      | _ => (JDict (dict_set pi "opening_stock" (JDict [])), None)
      end
  | _ => (period_info, Some AttributeError)
  end.

(** The body of the loop over the history. *)
Definition upgrade_entry (entry : json) : json * Datatypes.option exn :=
  match entry with
  | JDict e =>
      let e := dict_setdefault e "event" (JBool false) in
      let e := dict_setdefault e "event_id" (JStr "") in
      let e := dict_setdefault e "event_open" (JBool false) in
      let e := dict_setdefault e "category" (JStr "album") in
      (JDict e, None)
  | _ => (entry, Some AttributeError)
  end.

(** [for entry in history: ...] for whatever [history] is: a list is walked,
    a string or dictionary yields strings (which have no [setdefault]),
    anything else is not iterable. *)
Definition upgrade_history (history : json) : json * Datatypes.option exn :=
  match history with
  | JList l => let (l', e) := for_items upgrade_entry l in (JList l', e)
  | JStr _ | JDict _ =>
      if truthy history then (history, Some AttributeError) else (history, None)
  | _ => (history, Some TypeError)
  end.

(** The body of the last loop over the item metadata. *)
Definition default_category (info : json) : json :=
  match info with
  | JDict i =>
      if negb (truthy (dict_get_default i "category" JNull))
      then JDict (dict_set i "category" (JStr "album"))
      else info
  | _ => info
  end.

Definition _ensure_new_schema : M unit :=
  data <- get_data ;;
  match dict_get data "stock" with
  | Some (JDict stock) =>
      data_set "stock" (JDict (map_values upgrade_stock_item stock)) ;;
      metadata <- data_setdefault "item_metadata" (JDict []) ;;
      metadata <- as_dict metadata ;;
      data_set "item_metadata" (JDict (map_values upgrade_last_audit metadata)) ;;
      data <- get_data ;;
      match dict_get data "periods" with
      | None => ret tt
      | Some periods =>
          periods <- as_dict periods ;;
          let (periods', e) := for_values upgrade_period_info periods in
          store "periods" (JDict periods', e)
      end ;;
      data <- get_data ;;
      match dict_get data "history" with
      | None => ret tt
      | Some history => store "history" (upgrade_history history)
      end ;;
      metadata <- data_get "item_metadata" (JDict []) ;;
      metadata <- as_dict metadata ;;
      data_set "item_metadata" (JDict (map_values default_category metadata))
  | _ =>
      data_set "stock" (JDict []) (* and return *)
  end.

(** *** [ensure_period] *)

(** [period in periods] *)
Definition contains (periods : json) (period : string) : M bool :=
  match periods with
  | JDict p => ret (dict_mem p period)
  | JList l => ret (existsb (fun v => eq_str v period) l)
  | JStr s => ret (str_contains period s)
  | _ => raise TypeError
  end.

(** [period < current] *)
Definition str_lt (period : string) (current : json) : M bool :=
  match current with
  | JStr c => ret (String.ltb period c)
  | _ => raise TypeError
  end.

(** [now] is [datetime.now().isoformat()]. *)
Definition ensure_period (now : string) (period : string) : M unit :=
  _ensure_new_schema ;;
  current <- data_get "current_period" JNull ;;
  periods <- data_setdefault "periods" (JDict []) ;;
  known <- contains periods period ;;
  if known then ret tt else
  earlier <- (if truthy current then str_lt period current else ret false) ;;
  if earlier then ret tt else
  if eq_str current period then ret tt else
  stock <- data_get "stock" (JDict []) ;;
  let stock_snapshot := deepcopy stock in
  match periods with
  | JDict p =>
      data_set "periods"
        (JDict (dict_set p period
                  (JDict [ ("opening_stock", stock_snapshot);
                           ("created_at", JStr now) ])))
  | _ => raise TypeError
  end ;;
  data_set "current_period" (JStr period).

(** *** [update_stock] *)

(** Nothing is inserted when a later line raises: a line raises only on a
    value that was already there. *)
Definition update_stock (item option location : string) (quantity : Z) : M unit :=
  data_setdefault "stock" (JDict []) ;;
  _ensure_new_schema ;;
  stock <- data_item "stock" ;;
  stock <- as_dict stock ;;
  option_map <- as_dict (dict_get_default stock item (JDict [])) ;;
  locations <- as_dict (dict_get_default option_map (_option_key option) (JDict [])) ;;
  match int_value (dict_get_default locations location (JInt 0)) with
  | Some n =>
      let locations := dict_set locations location (JInt (n + quantity)) in
      let option_map := dict_set option_map (_option_key option) (JDict locations) in
      data_set "stock" (JDict (dict_set stock item (JDict option_map)))
  | None => raise TypeError
  end.

(** *** [record_transaction] *)

Definition record_transaction (now : string) (transaction : Transaction)
    (allow_negative : bool) : M unit :=
  ensure_period now (period transaction) ;;
  _ensure_new_schema ;;
  metadata <- data_setdefault "item_metadata" (JDict []) ;;
  metadata <- as_dict metadata ;;
  data_set "item_metadata"
    (JDict (dict_setdefault metadata (item transaction) (JDict []))) ;;
  info <- as_dict (dict_get_default metadata (item transaction) (JDict [])) ;;
  let existing_artist := dict_get_default info "artist" JNull in
  if truthy existing_artist && negb (eq_str existing_artist (artist transaction))
  then raise (ValueError (ArtistMismatch (item transaction) existing_artist))
  else
    let info := dict_set info "artist" (JStr (artist transaction)) in
    let info :=
      dict_set info "category" (JStr (normalize_category (category transaction))) in
    let info :=
      if truthy (JStr (option transaction))
      then dict_set info "option" (JStr (option transaction))
      else info in
    data_set "item_metadata"
      (JDict (dict_set metadata (item transaction) (JDict info))) ;;
    (if (type transaction =? "out")%string then
       let option_key := _option_key (option transaction) in
       stock <- data_get "stock" (JDict []) ;;
       stock <- as_dict stock ;;
       option_map <- as_dict (dict_get_default stock (item transaction) (JDict [])) ;;
       locations <- as_dict (dict_get_default option_map option_key (JDict [])) ;;
       let available := dict_get_default locations (location transaction) (JInt 0) in
       match int_value available with
       | Some a =>
           if (a <? quantity transaction) && negb allow_negative
           then raise (ValueError (InsufficientStock (item transaction)
                                     (location transaction) available
                                     (quantity transaction)))
           else update_stock (item transaction) (option transaction)
                  (location transaction) (- quantity transaction)
       | None => raise TypeError
       end
     else
       update_stock (item transaction) (option transaction)
         (location transaction) (quantity transaction)) ;;
    history <- data_setdefault "history" (JList []) ;;
    match history with
    | JList h => data_set "history" (JList (h ++ [JDict (to_dict transaction)]))
    | _ => raise AttributeError
    end.

(** *** [summarize] *)

(** [entry[k]] *)
Definition entry_item (entry : json) (k : string) : outcome json :=
  match entry with
  | JDict e =>
      match dict_get e k with
      | Some v => Return v
      | None => Throw (KeyError k)
      end
  | _ => Throw TypeError
  end.

(** A value used as a dictionary key: lists and dictionaries are unhashable,
    the model has string keys only. *)
Definition as_key (v : json) : outcome string :=
  match v with
  | JStr s => Return s
  | JList _ | JDict _ => Throw TypeError
  | _ => Throw OutOfModel
  end.

Definition obind {A B} (o : outcome A) (f : A -> outcome B) : outcome B :=
  match o with
  | Return a => f a
  | Throw e => Throw e
  end.

(** The body of the loop of [summarize]. *)
Definition summarize_entry (summary : pydict) (entry : json) : outcome pydict :=
  obind (entry_item entry "item") (fun item =>
  obind (match entry with
         | JDict e =>
             let o := dict_get_default e "option" (JStr "") in
             Return (if truthy o then o else JStr "")
         | _ => Throw AttributeError
         end) (fun option =>
  obind (entry_item entry "location") (fun location =>
  obind (entry_item entry "type") (fun type =>
  let sign := if eq_str type "in" then 1 else -1 in
  obind (as_key item) (fun item =>
  (* [summary] is built here: its values are dictionaries of dictionaries *)
  let option_map :=
    match dict_get_default summary item (JDict []) with
    | JDict m => m
    | _ => []
    end in
  obind (as_key option) (fun option =>
  let locations :=
    match dict_get_default option_map option (JDict []) with
    | JDict m => m
    | _ => []
    end in
  obind (as_key location) (fun location =>
  obind (entry_item entry "quantity") (fun quantity =>
  match int_value quantity,
        int_value (dict_get_default locations location (JInt 0)) with
  | Some q, Some n =>
      let locations := dict_set locations location (JInt (n + sign * q)) in
      let option_map := dict_set option_map option (JDict locations) in
      Return (dict_set summary item (JDict option_map))
  | _, _ => Throw TypeError
  end)))))))).

Fixpoint summarize_from (summary : pydict) (entries : list json)
  : outcome pydict :=
  match entries with
  | [] => Return summary
  | entry :: rest =>
      obind (summarize_entry summary entry) (fun summary =>
      summarize_from summary rest)
  end.

Definition summarize (entries : list json) : outcome pydict :=
  summarize_from [] entries.

End Inventory.

(* ================================================================== *)
(** ** inventory_gui.py: the pull of [sync_google_drive] *)
(* ================================================================== *)

Module Gui.

Import Inventory.

(** A snapshot maps (category, item, option, location) to the dictionary
    [{"qty": .., "artist": .., "category": ..}], a record here. *)
Definition key : Type := (string * string * string * string)%type.

Record info : Type := mk_info {
  snap_qty : Z;
  snap_artist : json;
  snap_category : string
}.

Definition snapshot : Type := list (key * info).

Definition key_eqb (a b : key) : bool :=
  let '(c1, i1, o1, l1) := a in
  let '(c2, i2, o2, l2) := b in
  (c1 =? c2)%string && (i1 =? i2)%string && (o1 =? o2)%string
  && (l1 =? l2)%string.

Fixpoint snap_get (s : snapshot) (k : key) : Datatypes.option info :=
  match s with
  | [] => None
  | (k', v) :: rest => if key_eqb k' k then Some v else snap_get rest k
  end.

Fixpoint snap_set (s : snapshot) (k : key) (v : info) : snapshot :=
  match s with
  | [] => [(k, v)]
  | (k', v') :: rest =>
      if key_eqb k' k then (k', v) :: rest else (k', v') :: snap_set rest k v
  end.

(** [{"qty": 0, "artist": "", "category": "album"}] *)
Definition default_info : info := mk_info 0 (JStr "") "album".

Definition snap_get_default (s : snapshot) (k : key) : info :=
  match snap_get s k with Some v => v | None => default_info end.

(** [int(v)]; the numerals in strings are not modelled. *)
Definition int_of (v : json) : outcome Z :=
  match v with
  | JInt n => Return n
  | JBool b => Return (if b then 1 else 0)
  | JStr _ => Throw OutOfModel
  | _ => Throw TypeError
  end.

(** [normalize_category(v)] for whatever the metadata holds. *)
Definition normalize_category_value (v : json) : outcome string :=
  if negb (truthy v) then Return "album"
  else
    match v with
    | JStr s => Return (normalize_category s)
    | _ => Throw AttributeError
    end.

Definition dict_of (v : json) : outcome pydict :=
  match v with
  | JDict d => Return d
  | _ => Throw AttributeError
  end.

(** [s or ""] *)
Definition or_empty (s : string) : string :=
  if truthy (JStr s) then s else "".

(** [for x in l: acc = f(acc, x)], stopping at the first exception. *)
Fixpoint ofold {A B} (f : B -> A -> outcome B) (l : list A) (acc : B)
  : outcome B :=
  match l with
  | [] => Return acc
  | x :: rest => obind (f acc x) (ofold f rest)
  end.

(** The three nested loops of [_build_stock_snapshot], innermost first. *)
Definition snapshot_locations (category item option : string) (artist : json)
    (snapshot : snapshot) (locations : pydict) : outcome Gui.snapshot :=
  ofold (fun snapshot location_qty =>
           let '(location, qty) := location_qty in
           let key := (category, item, or_empty option, or_empty location) in
           obind (int_of qty) (fun q =>
           Return (snap_set snapshot key (mk_info q artist category))))
    locations snapshot.

Definition snapshot_options (category item : string) (artist : json)
    (snapshot : snapshot) (options : pydict) : outcome Gui.snapshot :=
  ofold (fun snapshot option_locations =>
           let '(option, locations) := option_locations in
           obind (dict_of locations)
             (snapshot_locations category item option artist snapshot))
    options snapshot.

Definition snapshot_item (metadata : json) (snapshot : snapshot)
    (item_options : string * json) : outcome Gui.snapshot :=
  let '(item, options) := item_options in
  obind (dict_of metadata) (fun m =>
  obind (dict_of (dict_get_default m item (JDict []))) (fun i =>
  let artist := dict_get_default i "artist" (JStr "") in
  obind (normalize_category_value (dict_get_default i "category" (JStr "album")))
    (fun category =>
  obind (dict_of options) (snapshot_options category item artist snapshot)))).

Definition _build_stock_snapshot (data : pydict) : outcome snapshot :=
  let metadata := dict_get_default data "item_metadata" (JDict []) in
  let stock := dict_get_default data "stock" JNull in
  obind (if truthy stock then dict_of stock else Return []) (fun stock =>
  ofold (snapshot_item metadata) stock []).

(** The loop that copies the artists of the sheet into the local metadata. *)
Fixpoint merge_artists (google_metadata : pydict) : M unit :=
  match google_metadata with
  | [] => ret tt
  | (item, meta) :: rest =>
      meta <- as_dict meta ;;
      (if truthy (dict_get_default meta "artist" JNull) then
         metadata <- data_setdefault "item_metadata" (JDict []) ;;
         metadata <- as_dict metadata ;;
         data_set "item_metadata"
           (JDict (dict_setdefault metadata item (JDict []))) ;;
         match dict_get_default metadata item (JDict []) with
         | JDict i =>
             data_set "item_metadata"
               (JDict (dict_set metadata item
                         (JDict (dict_set i "artist"
                                   (dict_get_default meta "artist" JNull)))))
         | _ => raise TypeError
         end
       else ret tt) ;;
      merge_artists rest
  end.

(** [sorted(set(local_snapshot) | set(google_snapshot))]: tuples compare
    lexicographically; the sorted list of a set is determined by the set. *)
Definition key_compare (a b : key) : comparison :=
  let '(c1, i1, o1, l1) := a in
  let '(c2, i2, o2, l2) := b in
  match String.compare c1 c2 with
  | Eq =>
      match String.compare i1 i2 with
      | Eq =>
          match String.compare o1 o2 with
          | Eq => String.compare l1 l2
          | r => r
          end
      | r => r
      end
  | r => r
  end.

Definition key_leb (a b : key) : bool :=
  match key_compare a b with Gt => false | _ => true end.

Fixpoint insert_key (k : key) (l : list key) : list key :=
  match l with
  | [] => [k]
  | k' :: rest => if key_leb k k' then k :: l else k' :: insert_key k rest
  end.

Fixpoint sorted (l : list key) : list key :=
  match l with
  | [] => []
  | k :: rest => insert_key k (sorted rest)
  end.

Fixpoint set_of (l : list key) : list key :=
  match l with
  | [] => []
  | k :: rest => if existsb (key_eqb k) rest then set_of rest else k :: set_of rest
  end.

Definition all_keys (local_snapshot google_snapshot : snapshot) : list key :=
  sorted (set_of (map fst local_snapshot ++ map fst google_snapshot)).

(** [a or b or determine_artist(self.data, item) or ""]: the call passes two
    arguments to a function of three, a [TypeError]. *)
Definition choose_artist (google_info local_info : info) : M string :=
  let chosen :=
    if truthy (snap_artist google_info) then snap_artist google_info
    else snap_artist local_info in
  if truthy chosen then
    match chosen with
    | JStr s => ret s
    | _ => raise OutOfModel
    end
  else raise TypeError.

Definition choose_category (google_info local_info : info) : string :=
  normalize_category
    (if truthy (JStr (snap_category google_info)) then snap_category google_info
     else if truthy (JStr (snap_category local_info)) then snap_category local_info
     else "album").

Definition correction (now : datetime) (actor : string) (k : key)
    (artist category_value : string) (diff : Z) : Transaction :=
  let '(_, item, option, location) := k in
  mk_Transaction (if 0 <? diff then "in" else "out") artist item option location
    (Z.abs diff) now category_value actor "Google Drive 수정" false "" false.

(** How the pull ends: all keys done, or stopped by the exception that
    [record_transaction] raised and the handler swallowed. *)
Inductive pull_result : Type :=
| Pulled (changes : nat)
| Stopped (e : exn) (changes : nat).

(** The loop over [all_keys]. [clock n] is what [datetime.now().isoformat()]
    returns inside the call for the [n]-th correction. *)
Fixpoint pull_keys (clock : nat -> string) (now : datetime) (actor : string)
    (local_snapshot google_snapshot : snapshot) (keys : list key)
    (changes : nat) : M pull_result :=
  match keys with
  | [] => ret (Pulled changes)
  | k :: rest =>
      let local_info := snap_get_default local_snapshot k in
      let google_info := snap_get_default google_snapshot k in
      let diff := snap_qty google_info - snap_qty local_info in
      if diff =? 0 then
        pull_keys clock now actor local_snapshot google_snapshot rest changes
      else
        artist <- choose_artist google_info local_info ;;
        let transaction :=
          correction now actor k artist
            (choose_category google_info local_info) diff in
        fun data =>
          match record_transaction (clock changes) transaction true data with
          | Ok _ data' =>
              pull_keys clock now actor local_snapshot google_snapshot rest
                (S changes) data'
          | Raise e data' => Ok (Stopped e changes) data'
          end
  end.

Definition lift {A} (o : outcome A) : M A :=
  match o with
  | Return a => ret a
  | Throw e => raise e
  end.

(** [sync_google_drive] from the two snapshots on: the dialogs, the backup
    and the save are left out. *)
Definition sync_google_drive (clock : nat -> string) (now : datetime)
    (actor : string) (google_data : pydict) : M pull_result :=
  data <- get_data ;;
  local_snapshot <- lift (_build_stock_snapshot data) ;;
  google_snapshot <- lift (_build_stock_snapshot google_data) ;;
  google_metadata <- lift (dict_of (dict_get_default google_data "item_metadata"
                                      (JDict []))) ;;
  merge_artists google_metadata ;;
  pull_keys clock now actor local_snapshot google_snapshot
    (all_keys local_snapshot google_snapshot) 0.

End Gui.

Import Inventory.
Import Gui.

(* ================================================================== *)
(** ** Documents of the current schema *)
(* ================================================================== *)

(** The shape of a Document: [stock] and every opening stock map
    item -> option -> location -> integer, the metadata of an item is a
    dictionary, a history entry is a dictionary that has the event fields
    and the category. *)

Definition is_quantity (v : json) : bool :=
  match v with JInt _ => true | _ => false end.

Definition all_values (p : json -> bool) (d : pydict) : bool :=
  forallb (fun kv => p (snd kv)) d.

Definition is_location_map (v : json) : bool :=
  match v with JDict m => all_values is_quantity m | _ => false end.

Definition is_option_map (v : json) : bool :=
  match v with JDict m => all_values is_location_map m | _ => false end.

Definition is_stock_map (v : json) : bool :=
  match v with JDict m => all_values is_option_map m | _ => false end.

Definition is_period_info (v : json) : bool :=
  match v with
  | JDict pi =>
      match dict_get pi "opening_stock" with
      | Some opening => is_stock_map opening
      | None => false
      end
  | _ => false
  end.

Definition is_entry (v : json) : bool :=
  match v with
  | JDict e =>
      dict_mem e "event" && dict_mem e "event_id" && dict_mem e "event_open"
      && dict_mem e "category"
  | _ => false
  end.

Definition is_period_key (v : json) : bool :=
  match v with JNull | JStr _ => true | _ => false end.

Definition is_document (data : pydict) : bool :=
  match dict_get data "stock", dict_get data "item_metadata",
        dict_get data "periods", dict_get data "history",
        dict_get data "current_period" with
  | Some stock, Some (JDict metadata), Some (JDict periods),
    Some (JList history), Some current =>
      is_stock_map stock
      && all_values isinstance_dict metadata
      && all_values is_period_info periods
      && forallb is_entry history
      && is_period_key current
  | _, _, _, _, _ => false
  end.

(** The metadata of an item after a schema upgrade has its audit map and a
    category. *)
Definition is_current_info (v : json) : bool :=
  match v with
  | JDict i =>
      isinstance_dict (dict_get_default i "last_audit" JNull)
      && truthy (dict_get_default i "category" JNull)
  | _ => false
  end.

Definition is_upgraded (data : pydict) : bool :=
  is_document data
  && match dict_get data "item_metadata" with
     | Some (JDict metadata) => all_values is_current_info metadata
     | _ => false
     end.

(** What the two metadata loops of the upgrader make of the metadata. *)
Definition upgrade_metadata (metadata : pydict) : pydict :=
  map_values default_category (map_values upgrade_last_audit metadata).

(** Views of a document, with the defaults the code reads them with. *)
Definition stock_of (data : pydict) : json :=
  dict_get_default data "stock" (JDict []).

Definition metadata_of (data : pydict) : pydict :=
  match dict_get data "item_metadata" with
  | Some (JDict m) => m
  | _ => []
  end.

Definition sub_dict (d : pydict) (k : string) : pydict :=
  match dict_get d k with
  | Some (JDict m) => m
  | _ => []
  end.

(** [stock[item][option][location]], if the three keys are there. *)
Definition stock_lookup (stock : json) (item option location : string)
  : Datatypes.option json :=
  match stock with
  | JDict s => dict_get (sub_dict (sub_dict s item) option) location
  | _ => None
  end.

(** The quantity on hand, 0 for an absent key. *)
Definition stock_qty (stock : json) (item option location : string) : Z :=
  match stock_lookup stock item option location with
  | Some (JInt n) => n
  | _ => 0
  end.

(** The artist the metadata records for an item ([None] in Python when the
    item or the field is absent). *)
Definition existing_artist (data : pydict) (item : string) : json :=
  dict_get_default (sub_dict (metadata_of data) item) "artist" JNull.

Definition valid_type (t : Transaction) : bool :=
  (type t =? "in")%string || (type t =? "out")%string.

(** [is_document] spelled out. *)
Inductive document_shape (data : pydict) : Prop :=
| Shape (stock metadata periods : pydict) (history : list json) (current : json)
    (Hstock : dict_get data "stock" = Some (JDict stock))
    (Hstock_ok : all_values is_option_map stock = true)
    (Hmeta : dict_get data "item_metadata" = Some (JDict metadata))
    (Hmeta_ok : all_values isinstance_dict metadata = true)
    (Hperiods : dict_get data "periods" = Some (JDict periods))
    (Hperiods_ok : all_values is_period_info periods = true)
    (Hhistory : dict_get data "history" = Some (JList history))
    (Hhistory_ok : forallb is_entry history = true)
    (Hcurrent : dict_get data "current_period" = Some current)
    (Hcurrent_ok : is_period_key current = true).

(** *** What the operations do to a document of the current schema *)

(** The schema upgrade only completes the item metadata. *)
Definition upgrade (data : pydict) : pydict :=
  dict_set data "item_metadata" (JDict (upgrade_metadata (metadata_of data))).

(** The three cases in which [ensure_period] returns early. *)
Definition period_is_noop (data : pydict) (period : string) : bool :=
  let current := dict_get_default data "current_period" JNull in
  dict_mem (sub_dict data "periods") period
  || match current with
     | JStr c => truthy current && String.ltb period c
     | _ => false
     end
  || eq_str current period.

Definition start_period (now period : string) (data : pydict) : pydict :=
  dict_set
    (dict_set data "periods"
       (JDict (dict_set (sub_dict data "periods") period
                 (JDict [ ("opening_stock", stock_of data);
                          ("created_at", JStr now) ]))))
    "current_period" (JStr period).

Definition after_ensure_period (now period : string) (data : pydict) : pydict :=
  if period_is_noop data period then upgrade data
  else start_period now period (upgrade data).

(** [stock[item][option][location] += quantity] on a stock map. *)
Definition stock_add (stock : pydict) (item option location : string)
    (quantity : Z) : pydict :=
  let option_map := sub_dict stock item in
  let locations := sub_dict option_map option in
  dict_set stock item
    (JDict (dict_set option_map option
              (JDict (dict_set locations location
                        (JInt (stock_qty (JDict stock) item option location
                               + quantity)))))).

Definition after_update_stock (item option location : string) (quantity : Z)
    (data : pydict) : pydict :=
  dict_set (upgrade data) "stock"
    (JDict (stock_add (sub_dict data "stock") item option location quantity)).

(** The metadata of the item as [record_transaction] rewrites it. *)
Definition bound_info (t : Transaction) (info : pydict) : pydict :=
  let info := dict_set info "artist" (JStr (artist t)) in
  let info := dict_set info "category" (JStr (normalize_category (category t))) in
  if truthy (JStr (option t)) then dict_set info "option" (JStr (option t))
  else info.

Definition bind_artist (t : Transaction) (data : pydict) : pydict :=
  let metadata := metadata_of data in
  dict_set data "item_metadata"
    (JDict (dict_set metadata (item t)
              (JDict (bound_info t (sub_dict metadata (item t)))))).

Definition signed_quantity (t : Transaction) : Z :=
  if (type t =? "out")%string then - quantity t else quantity t.

Definition history_of (data : pydict) : list json :=
  match dict_get data "history" with
  | Some (JList h) => h
  | _ => []
  end.

Definition append_history (t : Transaction) (data : pydict) : pydict :=
  dict_set data "history" (JList (history_of data ++ [JDict (to_dict t)])).

Definition artist_mismatch (t : Transaction) (data : pydict) : bool :=
  truthy (existing_artist data (item t))
  && negb (eq_str (existing_artist data (item t)) (artist t)).

Definition insufficient (t : Transaction) (allow_negative : bool)
    (data : pydict) : bool :=
  (type t =? "out")%string
  && (stock_qty (stock_of data) (item t) (option t) (location t) <? quantity t)
  && negb allow_negative.

(** The outcome of [record_transaction] on a document, in closed form. *)
Definition after_record_transaction (now : string) (t : Transaction)
    (allow_negative : bool) (data : pydict) : result unit :=
  let d2 := upgrade (after_ensure_period now (period t) data) in
  if artist_mismatch t d2
  then Raise (ValueError (ArtistMismatch (item t) (existing_artist d2 (item t)))) d2
  else
    let d3 := bind_artist t d2 in
    if insufficient t allow_negative d3
    then Raise (ValueError
                  (InsufficientStock (item t) (location t)
                     (JInt (stock_qty (stock_of d3) (item t) (option t) (location t)))
                     (quantity t))) d3
    else Ok tt (append_history t
                  (after_update_stock (item t) (option t) (location t)
                     (signed_quantity t) d3)).

(** *** Stock consistency *)

(** The documents reachable from the empty document by successful calls of
    [record_transaction] with movements of type "in" or "out". *)
Inductive reachable : pydict -> Prop :=
| reachable_empty : reachable empty_document
| reachable_record now t allow_negative data data' :
    reachable data ->
    valid_type t = true ->
    record_transaction now t allow_negative data = Ok tt data' ->
    reachable data'.

(** The net signed quantity of the history entries of one
    item/option/location, in the words of the specification: [+quantity] for
    every "in" entry of the key, [-quantity] for every "out" entry. *)
Definition entry_matches (entry : json) (item option location : string) : bool :=
  match entry with
  | JDict e =>
      eq_str (dict_get_default e "item" JNull) item
      && eq_str (dict_get_default e "option" (JStr "")) option
      && eq_str (dict_get_default e "location" JNull) location
  | _ => false
  end.

Definition entry_signed_quantity (entry : json) : Z :=
  match entry with
  | JDict e =>
      match dict_get e "quantity" with
      | Some (JInt q) =>
          if eq_str (dict_get_default e "type" JNull) "in" then q
          else if eq_str (dict_get_default e "type" JNull) "out" then - q
          else 0
      | _ => 0
      end
  | _ => 0
  end.

Fixpoint net_quantity (history : list json) (item option location : string) : Z :=
  match history with
  | [] => 0
  | entry :: rest =>
      (if entry_matches entry item option location
       then entry_signed_quantity entry else 0)
      + net_quantity rest item option location
  end.

(** Every stored quantity is the net quantity of its key, and a key that is
    not stored has net quantity 0. *)
Definition replays_to (history : list json) (stock : pydict) : Prop :=
  forall item option location,
    match stock_lookup (JDict stock) item option location with
    | Some q => q = JInt (net_quantity history item option location)
    | None => net_quantity history item option location = 0
    end.

(** What holds of every reachable document. *)
Definition consistent (data : pydict) : Prop :=
  is_document data = true
  /\ summarize (history_of data) = Return (sub_dict data "stock")
  /\ replays_to (history_of data) (sub_dict data "stock").

(** *** Documents the upgrader mishandles *)

(** A document written before [stock] existed: one history entry without the
    event fields, no [stock] key. *)
Definition document_without_stock : pydict :=
  [ ("history",
     JList [ JDict [ ("type", JStr "in"); ("artist", JStr "ArtistA");
                     ("item", JStr "Album X"); ("location", JStr "Seoul");
                     ("quantity", JInt 10) ] ]) ].

(** A document whose history holds something that is not an entry. *)
Definition document_with_stray_entry : pydict :=
  [ ("stock", JDict []); ("history", JList [JInt 5]) ].

(** *** The pull *)

(** Dictionary keys are unique; the snapshots need it of the stock maps. *)
Fixpoint unique (keys : list string) : bool :=
  match keys with
  | [] => true
  | k :: rest => negb (existsb (String.eqb k) rest) && unique rest
  end.

Definition well_keyed_locations (v : json) : bool :=
  match v with JDict m => unique (dict_keys m) | _ => true end.

Definition well_keyed_options (v : json) : bool :=
  match v with
  | JDict m => unique (dict_keys m) && all_values well_keyed_locations m
  | _ => true
  end.

Definition well_keyed (stock : json) : bool :=
  match stock with
  | JDict m => unique (dict_keys m) && all_values well_keyed_options m
  | _ => true
  end.

(** The difference the pull sees at a key, and the stock address of a key. *)
Definition difference (local_snapshot google_snapshot : Gui.snapshot)
    (k : Gui.key) : Z :=
  Gui.snap_qty (Gui.snap_get_default google_snapshot k)
  - Gui.snap_qty (Gui.snap_get_default local_snapshot k).

Definition address (k : Gui.key) : string * string * string :=
  let '(_, item, option, location) := k in (item, option, location).

Definition differs (local_snapshot google_snapshot : Gui.snapshot)
    (k : Gui.key) : bool :=
  negb (difference local_snapshot google_snapshot k =? 0).

(** What the correction recorded for a key must be. *)
Definition corrects (local_snapshot google_snapshot : Gui.snapshot)
    (k : Gui.key) (t : Transaction) : Prop :=
  type t = (if 0 <? difference local_snapshot google_snapshot k
            then "in" else "out")
  /\ quantity t = Z.abs (difference local_snapshot google_snapshot k)
  /\ (item t, option t, location t) = address k.

(** The sum of [f] over the keys with a given stock address. *)
Definition at_address (a : string * string * string) (k : Gui.key) : bool :=
  let '(_, item, option, location) := k in
  let '(item', option', location') := a in
  (item =? item')%string && (option =? option')%string
  && (location =? location')%string.

Fixpoint sum_at (f : Gui.key -> Z) (a : string * string * string)
    (keys : list Gui.key) : Z :=
  match keys with
  | [] => 0
  | k :: rest => (if at_address a k then f k else 0) + sum_at f a rest
  end.

(** *** The snapshot of a document, key by key *)

(** What a location, an option and an item contribute to the snapshot. *)
Definition location_payload (category item option : string) (artist : json)
    (location : string) (qty : json) (k : key) : Datatypes.option info :=
  if key_eqb (category, item, option, location) k then
    match int_of qty with
    | Return q => Some (mk_info q artist category)
    | Throw _ => None
    end
  else None.

Definition locations_payload (category item option : string) (artist : json)
    (locations : pydict) (k : key) : Datatypes.option info :=
  let '(c, i, o, l) := k in
  match dict_get locations l with
  | Some qty => location_payload category item option artist l qty k
  | None => None
  end.

Definition options_payload (category item : string) (artist : json)
    (options : pydict) (k : key) : Datatypes.option info :=
  let '(c, i, o, l) := k in
  match dict_get options o with
  | Some (JDict locations) => locations_payload category item o artist locations k
  | _ => None
  end.

Definition item_payload (metadata : json) (item : string) (options : json)
    (k : key) : Datatypes.option info :=
  match metadata with
  | JDict m =>
      match dict_get_default m item (JDict []) with
      | JDict i =>
          match normalize_category_value
                  (dict_get_default i "category" (JStr "album")) with
          | Return category =>
              match options with
              | JDict om =>
                  options_payload category item
                    (dict_get_default i "artist" (JStr "")) om k
              | _ => None
              end
          | Throw _ => None
          end
      | _ => None
      end
  | _ => None
  end.

Definition snapshot_category (data : pydict) (item : string) : outcome string :=
  normalize_category_value
    (dict_get_default (sub_dict (metadata_of data) item) "category" (JStr "album")).

Definition snapshot_artist (data : pydict) (item : string) : json :=
  dict_get_default (sub_dict (metadata_of data) item) "artist" (JStr "").

Definition has_category (data : pydict) (item category : string) : bool :=
  match snapshot_category data item with
  | Return c => (c =? category)%string
  | Throw _ => false
  end.

(** *** When the pull runs to its end *)

(** [v], the artist some metadata records for [item], is empty or the
    artist [A item]. *)
Definition bound_to (A : string -> string) (item : string) (v : json) : Prop :=
  truthy v = true -> v = JStr (A item).

(** Every key of the snapshot carries the non-empty artist of its item. *)
Definition snapshot_bound (A : string -> string) (s : Gui.snapshot) : Prop :=
  forall c i o l inf,
    Gui.snap_get s (c, i, o, l) = Some inf ->
    Gui.snap_artist inf = JStr (A i) /\ A i <> "".

(** *** The scenarios of the specification *)

Definition march_5 : datetime := mk_datetime 2024 3 5 9 0 0 0.
Definition april_2 : datetime := mk_datetime 2024 4 2 14 30 0 0.
Definition clock : string := "2024-03-05T09:00:01".

(** A movement of "Album X" (no option) at "Seoul". *)
Definition movement (type artist : string) (quantity : Z) (ts : datetime)
  : Transaction :=
  mk_Transaction type artist "Album X" "" "Seoul" quantity ts "album"
    "" "" false "" false.

(** Scenario A: 10 units received into the empty document; scenario B: 4 of
    them sent out. *)
Definition scenario_A : pydict :=
  final (record_transaction clock (movement "in" "ArtistA" 10 march_5) false
           empty_document).

Definition scenario_B : pydict :=
  final (record_transaction clock (movement "out" "ArtistA" 4 march_5) false
           scenario_A).

(** A sheet that holds "Album X" only, under [artist], with [quantity]
    units at [location]. *)
Definition sheet (artist location : string) (quantity : Z) : pydict :=
  [ ("current_period", JNull);
    ("periods", JDict []);
    ("stock", JDict [("Album X", JDict [("", JDict [(location, JInt quantity)])])]);
    ("history", JList []);
    ("item_metadata",
     JDict [("Album X", JDict [("artist", JStr artist);
                               ("category", JStr "album")])]);
    ("last_updated", JNull) ].

Definition sync_clock (n : nat) : string := clock.

(* ================================================================== *)
(** ** More of the ledger: what the remaining theorems are about *)
(* ================================================================== *)

(** *** The schema upgrade on any document whose stock is a dictionary *)

(** The document a run that returns normally leaves: the four fields
    rewritten one after the other. *)
Definition upgraded_periods (data d : pydict) : pydict :=
  match dict_get data "periods" with
  | Some (JDict p) =>
      dict_set d "periods" (JDict (fst (for_values upgrade_period_info p)))
  | _ => d
  end.

Definition upgraded_history (data d : pydict) : pydict :=
  match dict_get data "history" with
  | Some h => dict_set d "history" (fst (upgrade_history h))
  | None => d
  end.

Definition full_upgrade (data stock : pydict) : pydict :=
  let m := sub_dict data "item_metadata" in
  let d := dict_set data "stock" (JDict (map_values upgrade_stock_item stock)) in
  let d := dict_set d "item_metadata" (JDict (map_values upgrade_last_audit m)) in
  let d := upgraded_periods data d in
  let d := upgraded_history data d in
  dict_set d "item_metadata" (JDict (upgrade_metadata m)).

(** What the upgrader puts in a history entry for a field that is missing. *)
Definition entry_default (k : string) : Datatypes.option json :=
  if (k =? "event")%string then Some (JBool false)
  else if (k =? "event_id")%string then Some (JStr "")
  else if (k =? "event_open")%string then Some (JBool false)
  else if (k =? "category")%string then Some (JStr "album")
  else None.

(** [v'] is the entry [v] with its missing fields defaulted and nothing else
    changed. *)
Definition completes (v v' : json) : Prop :=
  exists e e',
    v = JDict e /\ v' = JDict e'
    /\ forall k, dict_get e' k
                 = match dict_get e k with
                   | Some x => Some x
                   | None => entry_default k
                   end.

(** A flat legacy map: not empty, integers only. *)
Definition is_legacy_map (flat : pydict) : bool :=
  truthy (JDict flat) && forallb isinstance_int (dict_values flat).

(** A computation that writes no top-level field outside [ks], whatever its
    outcome. *)
Definition writes_only {A} (ks : list string) (m : M A) : Prop :=
  forall data k, ~ In k ks -> dict_get (final (m data)) k = dict_get data k.

(** The fields the ledger operations write. *)
Definition ledger_fields : list string :=
  ["stock"; "item_metadata"; "periods"; "history"; "current_period"].

(** No quantity on hand is negative. *)
Definition nonnegative_stock (data : pydict) : Prop :=
  forall item option location,
    0 <= stock_qty (stock_of data) item option location.

(** *** [determine_artist] and [determine_category]

    The two functions of [inventory.py] that the command line calls before
    [record_transaction]. Their own [ValueError]s are kept apart from what
    the interpreter raises on a value of another shape. *)

Inductive refusal : Type :=
| ArtistRequired
| ArtistTaken (item : string) (existing : json)
| ArtistUnknown
| Interpreter (e : exn).

Inductive answer (A : Type) : Type :=
| Answer (a : A) (data : pydict)
| Refuse (e : refusal) (data : pydict).
Arguments Answer {A} a data.
Arguments Refuse {A} e data.

(** The document left behind, whatever the answer. *)
Definition left_behind {A} (r : answer A) : pydict :=
  match r with Answer _ d => d | Refuse _ d => d end.

(** [if provided:] for an optional string. *)
Definition given (provided : Datatypes.option string) : Datatypes.option string :=
  match provided with
  | Some p => if truthy (JStr p) then Some p else None
  | None => None
  end.

(** [v not in (None, artist)] *)
Definition not_in_none_or (v : json) (artist : string) : bool :=
  match v with
  | JNull => false
  | _ => negb (eq_str v artist)
  end.

(** [metadata[item] = info] where [item] is a key of [metadata]: the
    dictionary that was read is the one stored, a dictionary made up by
    [metadata.get(item, {})] is not. *)
Definition write_back (metadata : pydict) (item : string) (info : pydict)
    (data : pydict) : pydict :=
  if dict_mem metadata item
  then dict_set data "item_metadata" (JDict (dict_set metadata item (JDict info)))
  else data.

Definition determine_artist (item : string) (provided : Datatypes.option string)
    (data : pydict) : answer json :=
  let metadata := dict_get_default data "item_metadata" (JDict []) in
  let data := dict_setdefault data "item_metadata" (JDict []) in
  match metadata with
  | JDict metadata =>
      let info := dict_get_default metadata item JNull in
      match given provided with
      | Some provided =>
          let artist := strip provided in
          if negb (truthy (JStr artist)) then Refuse ArtistRequired data
          else if truthy info then
            match info with
            | JDict i =>
                let existing := dict_get_default i "artist" JNull in
                if not_in_none_or existing artist
                then Refuse (ArtistTaken item existing) data
                else
                  Answer (JStr artist)
                    (dict_set data "item_metadata"
                       (JDict (dict_set metadata item
                                 (JDict (dict_set i "artist" (JStr artist))))))
            | _ => Refuse (Interpreter AttributeError) data
            end
          else
            match dict_get_default metadata item (JDict []) with
            | JDict i =>
                Answer (JStr artist)
                  (dict_set data "item_metadata"
                     (JDict (dict_set metadata item
                               (JDict (dict_set i "artist" (JStr artist))))))
            | _ => Refuse (Interpreter TypeError) data
            end
      | None =>
          if truthy info then
            match info with
            | JDict i =>
                let existing := dict_get_default i "artist" JNull in
                if truthy existing then Answer existing data
                else Refuse ArtistUnknown data
            | _ => Refuse (Interpreter AttributeError) data
            end
          else Refuse ArtistUnknown data
      end
  | _ => Refuse (Interpreter AttributeError) data
  end.

Definition determine_category (item : string)
    (provided : Datatypes.option string) (data : pydict) : answer string :=
  let metadata := dict_get_default data "item_metadata" (JDict []) in
  let data := dict_setdefault data "item_metadata" (JDict []) in
  match metadata with
  | JDict metadata =>
      let info := dict_get_default metadata item (JDict []) in
      match given provided with
      | Some provided =>
          let category := normalize_category provided in
          match info with
          | JDict i =>
              Answer category
                (write_back metadata item
                   (dict_setdefault i "category" (JStr category)) data)
          | _ => Refuse (Interpreter AttributeError) data
          end
      | None =>
          match info with
          | JDict i =>
              let stored := dict_get_default i "category" JNull in
              if truthy stored then
                match normalize_category_value stored with
                | Return category => Answer category data
                | Throw e => Refuse (Interpreter e) data
                end
              else
                Answer "album"
                  (write_back metadata item (dict_set i "category" (JStr "album"))
                     data)
          | _ => Refuse (Interpreter AttributeError) data
          end
      end
  | _ => Refuse (Interpreter AttributeError) data
  end.

(** [determine_artist] on a document, in closed form. *)
Definition set_artist (item artist : string) (data : pydict) : pydict :=
  let metadata := metadata_of data in
  dict_set data "item_metadata"
    (JDict (dict_set metadata item
              (JDict (dict_set (sub_dict metadata item) "artist" (JStr artist))))).

Definition after_determine_artist (item : string)
    (provided : Datatypes.option string) (data : pydict) : answer json :=
  let existing := existing_artist data item in
  match given provided with
  | Some provided =>
      if negb (truthy (JStr (strip provided))) then Refuse ArtistRequired data
      else if not_in_none_or existing (strip provided)
      then Refuse (ArtistTaken item existing) data
      else Answer (JStr (strip provided)) (set_artist item (strip provided) data)
  | None =>
      if truthy existing then Answer existing data
      else Refuse ArtistUnknown data
  end.

(** *** [filter_stock_by_artist] and [summarize_stock_by_artist] *)

(** [metadata.get(item, {}).get("artist", default)] *)
Definition artist_field (metadata : pydict) (item : string) (default : json)
  : outcome json :=
  obind (dict_of (dict_get_default metadata item (JDict [])))
    (fun info => Return (dict_get_default info "artist" default)).

Definition filter_stock_by_artist (stock metadata : pydict) (artist : string)
  : outcome pydict :=
  ofold (fun filtered item_options =>
           let '(item, options) := item_options in
           obind (artist_field metadata item JNull) (fun a =>
           Return (if negb (eq_str a artist) then filtered
                   else dict_set filtered item options)))
    stock [].

(** [sum(locations.values())] *)
Definition sum_values (locations : pydict) : outcome Z :=
  ofold (fun total v =>
           match int_value v with
           | Some n => Return (total + n)
           | None => Throw TypeError
           end)
    (dict_values locations) 0.

(** The artist as a key of the summary: a list or a dictionary cannot be
    hashed; keys that are not strings are not modelled. *)
Definition summary_key (artist : json) : outcome string :=
  match artist with
  | JStr a => Return a
  | JList _ | JDict _ => Throw TypeError
  | _ => Throw OutOfModel
  end.

(** [summary[artist] += total] *)
Definition summary_add (summary : pydict) (artist : string) (total : Z)
  : outcome pydict :=
  match dict_get summary artist with
  | Some v =>
      match int_value v with
      | Some n => Return (dict_set summary artist (JInt (n + total)))
      | None => Throw TypeError
      end
  | None => Throw (KeyError artist)
  end.

Definition summarize_stock_by_artist (stock metadata : pydict) : outcome pydict :=
  ofold (fun summary item_options =>
           let '(item, options) := item_options in
           obind (artist_field metadata item (JStr "미분류")) (fun artist =>
           obind (summary_key artist) (fun artist =>
           let summary := dict_setdefault summary artist (JInt 0) in
           obind (dict_of options) (fun options =>
           ofold (fun summary locations =>
                    obind (dict_of locations) (fun locations =>
                    obind (sum_values locations) (fun total =>
                    summary_add summary artist total)))
             (dict_values options) summary))))
    stock [].

(** The artist an item is listed under, and the quantities listed under an
    artist. *)
Definition artist_label (metadata : pydict) (item : string) : string :=
  match dict_get (sub_dict metadata item) "artist" with
  | Some (JStr a) => a
  | _ => "미분류"
  end.

Definition locations_total (locations : json) : Z :=
  match locations with
  | JDict m =>
      fold_right (fun kv total =>
                    match snd kv with JInt n => n | _ => 0 end + total) 0 m
  | _ => 0
  end.

Definition options_total (options : json) : Z :=
  match options with
  | JDict m => fold_right (fun kv total => locations_total (snd kv) + total) 0 m
  | _ => 0
  end.

Fixpoint artist_total (stock metadata : pydict) (artist : string) : Z :=
  match stock with
  | [] => 0
  | (item, options) :: rest =>
      (if (artist_label metadata item =? artist)%string
       then options_total options else 0)
      + artist_total rest metadata artist
  end.

Definition has_artist (stock metadata : pydict) (artist : string) : bool :=
  existsb (fun kv => (artist_label metadata (fst kv) =? artist)%string) stock.

(** Every item's metadata is a dictionary whose artist, if any, is a
    string. *)
Definition names_artists (metadata : pydict) : bool :=
  all_values (fun v =>
                match v with
                | JDict info =>
                    match dict_get info "artist" with
                    | None | Some (JStr _) => true
                    | _ => false
                    end
                | _ => false
                end)
    metadata.

(** The quantity a summary lists under an artist, 0 when it lists none. *)
Definition listed (summary : pydict) (artist : string) : Z :=
  match dict_get summary artist with
  | Some (JInt n) => n
  | _ => 0
  end.

(** *** [restore_backup]

    What [restore_backup] does to the object it has loaded; reading the
    backup and writing the data file are left out. *)
Definition restore_backup : M unit :=
  data_setdefault "current_period" JNull ;;
  data_setdefault "periods" (JDict []) ;;
  data_setdefault "stock" (JDict []) ;;
  data_setdefault "history" (JList []) ;;
  data_setdefault "item_metadata" (JDict []) ;;
  data_setdefault "last_updated" JNull ;;
  _ensure_new_schema.

(** A backup that may lack top-level keys: what it has is of the shape of a
    document. *)
Definition is_backup (data : pydict) : bool :=
  match dict_get data "stock" with
  | Some stock => is_stock_map stock
  | None => true
  end
  && match dict_get data "item_metadata" with
     | Some (JDict metadata) => all_values isinstance_dict metadata
     | Some _ => false
     | None => true
     end
  && match dict_get data "periods" with
     | Some (JDict periods) => all_values is_period_info periods
     | Some _ => false
     | None => true
     end
  && match dict_get data "history" with
     | Some (JList history) => forallb is_entry history
     | Some _ => false
     | None => true
     end
  && match dict_get data "current_period" with
     | Some current => is_period_key current
     | None => true
     end.

(** The keys [restore_backup] initialises. *)
Definition restored (data : pydict) : pydict :=
  dict_setdefault
    (dict_setdefault
       (dict_setdefault
          (dict_setdefault
             (dict_setdefault
                (dict_setdefault data "current_period" JNull)
                "periods" (JDict []))
             "stock" (JDict []))
          "history" (JList []))
       "item_metadata" (JDict []))
    "last_updated" JNull.

(** A backup of the time before options and events: whatever top-level keys
    it has are containers of the right kind, a period is a dictionary whose
    opening stock, if it is a dictionary, maps items to dictionaries or to
    something empty, and the history is a list of dictionaries. *)
Definition is_legacy_period (v : json) : bool :=
  match v with
  | JDict period_info =>
      match dict_get period_info "opening_stock" with
      | Some (JDict opening) =>
          all_values (fun x => negb (truthy x) || isinstance_dict x) opening
      | _ => true
      end
  | _ => false
  end.

Definition is_legacy_backup (data : pydict) : bool :=
  match dict_get data "stock" with
  | Some stock => isinstance_dict stock
  | None => true
  end
  && match dict_get data "item_metadata" with
     | Some metadata => isinstance_dict metadata
     | None => true
     end
  && match dict_get data "periods" with
     | Some (JDict periods) => all_values is_legacy_period periods
     | Some _ => false
     | None => true
     end
  && match dict_get data "history" with
     | Some (JList history) => forallb isinstance_dict history
     | Some _ => false
     | None => true
     end.

(** *** [_apply_history_edit] (inventory_gui.py)

    Editing a history entry in place: the dialog's answer is the parameter
    [proceed], the three time stamps are those of [ensure_period], of
    [_mark_last_updated] and of [_log_user_action], [actor] is what
    [_current_actor] returns; the save queue is left out. The index is an
    index of the history view and not negative. *)

Inductive edit_error : Type :=
| BadIndex
| DescriptionRequired
| Python (e : exn).

Inductive edit_result : Type :=
| Edited (data : pydict)
| EditFailed (e : edit_error) (data : pydict).

(** The document left behind, whatever the outcome. *)
Definition edited (r : edit_result) : pydict :=
  match r with Edited d => d | EditFailed _ d => d end.

(** [s.upper()], ASCII. *)
Definition upper_char (c : ascii) : ascii :=
  let n := nat_of_ascii c in
  if ((97 <=? n) && (n <=? 122))%nat then ascii_of_nat (n - 32) else c.

Fixpoint upper (s : string) : string :=
  match s with
  | EmptyString => EmptyString
  | String c rest => String (upper_char c) (upper rest)
  end.

(** [str(n)] for an integer. *)
Definition decimal_int (n : Z) : string := NilZero.string_of_int (Z.to_int n).

(** [l[n] = v] for an index within the list. *)
Fixpoint list_set (l : list json) (n : nat) (v : json) : list json :=
  match l, n with
  | [], _ => []
  | _ :: rest, O => v :: rest
  | x :: rest, S n => x :: list_set rest n v
  end.

(** A value of the entry used as a key of the stock: only strings are
    modelled. *)
Definition key_of (v : json) : M string :=
  match v with
  | JStr s => ret s
  | _ => raise OutOfModel
  end.

(** The option handed to [update_stock], which reads [option or ""]. *)
Definition option_of (v : json) : M string :=
  if truthy v then key_of v else ret "".

(** The two calls of [update_stock] on the old entry: the one that takes its
    effect back, and the one that restores it when the dialog is declined. *)
Definition move_old (old : json) (back : bool) : M unit :=
  old <- as_dict old ;;
  quantity <- lift (int_of (dict_get_default old "quantity" (JInt 0))) ;;
  item <- key_of (dict_get_default old "item" JNull) ;;
  option <- option_of (dict_get_default old "option" (JStr "")) ;;
  location <- key_of (dict_get_default old "location" JNull) ;;
  let effect :=
    if eq_str (dict_get_default old "type" JNull) "in"
    then quantity else - quantity in
  update_stock item option location (if back then - effect else effect).

(** [self.data.get("stock", {}).get(item, {}).get(option or "", {})
    .get(location, 0)] *)
Definition available (t : Transaction) : M json :=
  stock <- data_get "stock" (JDict []) ;;
  stock <- as_dict stock ;;
  option_map <- as_dict (dict_get_default stock (item t) (JDict [])) ;;
  locations <-
    as_dict (dict_get_default option_map (or_empty (option t)) (JDict [])) ;;
  ret (dict_get_default locations (location t) (JInt 0)).

Definition _log_user_action (actor action timestamp : string) : M unit :=
  log <- data_setdefault "activity_log" (JList []) ;;
  match log with
  | JList l =>
      let l := l ++ [JDict [ ("actor", JStr actor);
                             ("action", JStr action);
                             ("timestamp", JStr timestamp) ]] in
      data_set "activity_log"
        (JList (if (5000 <? List.length l)%nat
                then skipn (List.length l - 5000) l else l))
  | _ => raise AttributeError
  end.

Definition edit_action (t : Transaction) : string :=
  ("입/출고 기록 수정 - " ++ upper (type t) ++ " " ++ item t ++ " "
     ++ (if truthy (JStr (option t)) then option t else "-")
     ++ " @" ++ location t ++ " " ++ decimal_int (quantity t) ++ "개")%string.

(** The body of [_apply_history_edit] after its two checks. *)
Definition edit_entry (created_at saved_at logged_at actor : string)
    (proceed : bool) (entry_index : nat) (old : json) (new_tx : Transaction)
  : M unit :=
  move_old old true ;;
  available <- available new_tx ;;
  short <- (if (type new_tx =? "out")%string then
              match int_value available with
              | Some a => ret (a <? quantity new_tx)
              | None => raise TypeError
              end
            else ret false) ;;
  if short && negb proceed then move_old old false
  else
    ensure_period created_at (period new_tx) ;;
    metadata <- data_setdefault "item_metadata" (JDict []) ;;
    metadata <- as_dict metadata ;;
    data_set "item_metadata"
      (JDict (dict_setdefault metadata (item new_tx) (JDict []))) ;;
    match dict_get_default metadata (item new_tx) (JDict []) with
    | JDict meta_entry =>
        let meta_entry := dict_set meta_entry "artist" (JStr (artist new_tx)) in
        let meta_entry :=
          dict_set meta_entry "category" (JStr (category new_tx)) in
        let meta_entry :=
          if truthy (JStr (option new_tx))
          then dict_set meta_entry "option" (JStr (option new_tx))
          else meta_entry in
        data_set "item_metadata"
          (JDict (dict_set metadata (item new_tx) (JDict meta_entry)))
    | _ => raise TypeError
    end ;;
    update_stock (item new_tx) (option new_tx) (location new_tx)
      (if (type new_tx =? "out")%string
       then - quantity new_tx else quantity new_tx) ;;
    history <- data_get "history" (JList []) ;;
    match history with
    | JList h =>
        data_set "history" (JList (list_set h entry_index (JDict (to_dict new_tx))))
    | _ => raise OutOfModel
    end ;;
    data_set "last_updated" (JStr saved_at) ;;
    _log_user_action actor (edit_action new_tx) logged_at.

Definition _apply_history_edit (created_at saved_at logged_at actor : string)
    (proceed : bool) (entry_index : nat) (new_tx : Transaction)
    (data : pydict) : edit_result :=
  match dict_get_default data "history" (JList []) with
  | JList history =>
      match nth_error history entry_index with
      | None => EditFailed BadIndex data
      | Some old =>
          if (type new_tx =? "out")%string
             && negb (truthy (JStr (description new_tx)))
          then EditFailed DescriptionRequired data
          else
            match edit_entry created_at saved_at logged_at actor proceed
                    entry_index old new_tx data with
            | Ok _ data' => Edited data'
            | Raise e data' => EditFailed (Python e) data'
            end
      end
  | JStr _ | JDict _ => EditFailed (Python OutOfModel) data
  | _ => EditFailed (Python TypeError) data
  end.

(** [_apply_history_edit] on a document, in closed form. *)

(** What the old entry had added to the stock: an entry that is not inbound
    counts as outbound. *)
Definition old_effect (t : Transaction) : Z :=
  if (type t =? "in")%string then quantity t else - quantity t.

(** The metadata of the item as the edit rewrites it: the category is stored
    as it is given. *)
Definition edit_info (t : Transaction) (info : pydict) : pydict :=
  let info := dict_set info "artist" (JStr (artist t)) in
  let info := dict_set info "category" (JStr (category t)) in
  if truthy (JStr (option t)) then dict_set info "option" (JStr (option t))
  else info.

Definition rebind (t : Transaction) (data : pydict) : pydict :=
  let metadata := metadata_of data in
  dict_set data "item_metadata"
    (JDict (dict_set metadata (item t)
              (JDict (edit_info t (sub_dict metadata (item t)))))).

Definition taken_back (old : Transaction) (data : pydict) : pydict :=
  after_update_stock (item old) (option old) (location old) (- old_effect old) data.

Definition put_back (old : Transaction) (data : pydict) : pydict :=
  after_update_stock (item old) (option old) (location old) (old_effect old) data.

(** The condition under which the dialog is shown. *)
Definition edit_short (t : Transaction) (data : pydict) : bool :=
  (type t =? "out")%string
  && (stock_qty (stock_of data) (item t) (option t) (location t) <? quantity t).

Definition edit_applied (created_at : string) (entry_index : nat)
    (t : Transaction) (data : pydict) : pydict :=
  let d :=
    after_update_stock (item t) (option t) (location t) (signed_quantity t)
      (rebind t (after_ensure_period created_at (period t) data)) in
  dict_set d "history"
    (JList (list_set (history_of d) entry_index (JDict (to_dict t)))).

Definition after_edit (created_at : string) (proceed : bool) (entry_index : nat)
    (old new_tx : Transaction) (data : pydict) : pydict :=
  if (type new_tx =? "out")%string && negb (truthy (JStr (description new_tx)))
  then data
  else if edit_short new_tx (taken_back old data) && negb proceed
  then put_back old (taken_back old data)
  else edit_applied created_at entry_index new_tx (taken_back old data).

(** A stock map that holds, key by key, the quantities [net]. *)
Definition replays (net : string -> string -> string -> Z) (stock : pydict)
  : Prop :=
  forall item option location,
    match stock_lookup (JDict stock) item option location with
    | Some q => q = JInt (net item option location)
    | None => net item option location = 0
    end.

(** What an entry contributes to the net quantity of a key. *)
Definition contribution (entry : json) (item option location : string) : Z :=
  if entry_matches entry item option location
  then entry_signed_quantity entry else 0.


(** Text on which [strip] and [lower] are Python's [str.strip] and
    [str.lower]: every byte is below 128. *)
Fixpoint is_ascii (s : string) : bool :=
  match s with
  | EmptyString => true
  | String c rest => (nat_of_ascii c <? 128)%nat && is_ascii rest
  end.

(** The category of every item's metadata is a string, or empty, or
    absent. *)
Definition names_categories (metadata : pydict) : bool :=
  all_values (fun v =>
                match v with
                | JDict info =>
                    match dict_get info "category" with
                    | None | Some (JStr _) => true
                    | Some c => negb (truthy c)
                    end
                | _ => false
                end)
    metadata.

(* ================================================================== *)
(** ** Dictionaries: lookup after update *)
(* ================================================================== *)

Section DictFacts.

Lemma dict_get_set_same (d : pydict) k v :
  dict_get (dict_set d k v) k = Some v.
Proof.
  induction d as [|[k' v'] d IH]; simpl.
  - now rewrite String.eqb_refl.
  - destruct (String.eqb k' k) eqn:E; simpl; rewrite E; auto.
Qed.

Lemma dict_get_set_other (d : pydict) k k' v :
  k <> k' -> dict_get (dict_set d k v) k' = dict_get d k'.
Proof.
  intros Hne. induction d as [|[k0 v0] d IH]; simpl.
  - destruct (String.eqb_spec k k'); congruence.
  - destruct (String.eqb_spec k0 k) as [->|]; simpl.
    + destruct (String.eqb_spec k k'); congruence.
    + now rewrite IH.
Qed.

Lemma dict_set_get_id (d : pydict) k v :
  dict_get d k = Some v -> dict_set d k v = d.
Proof.
  induction d as [|[k0 v0] d IH]; simpl; [discriminate|].
  destruct (String.eqb_spec k0 k) as [->|]; intros H.
  - now inversion H.
  - now rewrite IH.
Qed.

Lemma dict_set_set (d : pydict) k a b :
  dict_set (dict_set d k a) k b = dict_set d k b.
Proof.
  induction d as [|[k0 v0] d IH]; simpl.
  - now rewrite String.eqb_refl.
  - destruct (String.eqb k0 k) eqn:E; simpl; rewrite E; congruence.
Qed.

Lemma dict_setdefault_present (d : pydict) k v default :
  dict_get d k = Some v -> dict_setdefault d k default = d.
Proof. unfold dict_setdefault. now intros ->. Qed.

Lemma dict_get_In (d : pydict) k v : dict_get d k = Some v -> In (k, v) d.
Proof.
  induction d as [|[k0 v0] d IH]; simpl; [discriminate|].
  destruct (String.eqb_spec k0 k) as [->|]; intros H.
  - inversion H. now left.
  - right. auto.
Qed.

Lemma all_values_get p (d : pydict) k v :
  all_values p d = true -> dict_get d k = Some v -> p v = true.
Proof.
  unfold all_values. rewrite forallb_forall. intros H G.
  apply (H (k, v)). now apply dict_get_In.
Qed.

Lemma all_values_set p (d : pydict) k v :
  all_values p d = true -> p v = true -> all_values p (dict_set d k v) = true.
Proof.
  unfold all_values. intros H Hv.
  induction d as [|[k0 v0] d IH]; simpl in *.
  - now rewrite Hv.
  - apply andb_true_iff in H as [H1 H2].
    destruct (String.eqb k0 k); simpl; rewrite ?Hv, ?H1, ?H2; auto.
Qed.

Lemma all_values_map_values p f (d : pydict) :
  (forall v, p (f v) = true) -> all_values p (map_values f d) = true.
Proof.
  intros H. unfold all_values, map_values.
  induction d as [|[k v] d IH]; simpl; auto.
  now rewrite H, IH.
Qed.

Lemma map_values_id f (d : pydict) :
  (forall k v, In (k, v) d -> f v = v) -> map_values f d = d.
Proof.
  unfold map_values. induction d as [|[k v] d IH]; simpl; intros H; auto.
  rewrite (H k v) by now left. f_equal. apply IH. intros; eapply H; right; eauto.
Qed.

Lemma for_values_id f (d : pydict) :
  (forall k v, In (k, v) d -> f v = (v, None)) -> for_values f d = (d, None).
Proof.
  induction d as [|[k v] d IH]; simpl; intros H; auto.
  rewrite (H k v) by now left.
  rewrite IH; [reflexivity | intros; eapply H; right; eauto].
Qed.

Lemma for_items_id f (l : list json) :
  (forall v, In v l -> f v = (v, None)) -> for_items f l = (l, None).
Proof.
  induction l as [|v l IH]; simpl; intros H; auto.
  rewrite (H v) by now left.
  rewrite IH; [reflexivity | intros; apply H; now right].
Qed.

Lemma dict_get_map_values f (d : pydict) k :
  dict_get (map_values f d) k = option_map f (dict_get d k).
Proof.
  unfold map_values. induction d as [|[k0 v0] d IH]; simpl; auto.
  destruct (String.eqb k0 k); auto.
Qed.

Lemma all_values_In p (d : pydict) k v :
  all_values p d = true -> In (k, v) d -> p v = true.
Proof.
  unfold all_values. rewrite forallb_forall. intros H G. apply (H (k, v) G).
Qed.

End DictFacts.

(* ================================================================== *)
(** ** The schema upgrade on a document of the current schema *)
(* ================================================================== *)

Section SchemaFacts.

Lemma is_document_shape data : is_document data = true <-> document_shape data.
Proof.
  unfold is_document. split.
  - destruct (dict_get data "stock") as [stock|] eqn:E1; [|discriminate].
    destruct (dict_get data "item_metadata") as [[| | | | |metadata]|] eqn:E2;
      try discriminate.
    destruct (dict_get data "periods") as [[| | | | |periods]|] eqn:E3;
      try discriminate.
    destruct (dict_get data "history") as [[| | | |history|]|] eqn:E4;
      try discriminate.
    destruct (dict_get data "current_period") as [current|] eqn:E5;
      [|discriminate].
    rewrite !andb_true_iff. intros [[[[H1 H2] H3] H4] H5].
    destruct stock as [| | | | |stock]; try discriminate.
    econstructor; eauto.
  - intros [stock metadata periods history current -> H1 -> H2 -> H3 -> H4 -> H5].
    simpl. now rewrite H1, H2, H3, H4, H5.
Qed.

Lemma upgrade_stock_item_id v : is_option_map v = true -> upgrade_stock_item v = v.
Proof.
  destruct v as [| | | | |m]; try discriminate. simpl.
  destruct m as [|[k [| | | | |lm]] m]; simpl; auto; discriminate.
Qed.

Lemma upgrade_opening_item_id v :
  is_option_map v = true -> upgrade_opening_item v = (v, None).
Proof.
  destruct v as [| | | | |m]; try discriminate. unfold upgrade_opening_item. simpl.
  destruct m as [|[k [| | | | |lm]] m]; simpl; auto; discriminate.
Qed.

Lemma upgrade_period_info_id v :
  is_period_info v = true -> upgrade_period_info v = (v, None).
Proof.
  destruct v as [| | | | |pi]; try discriminate. simpl.
  destruct (dict_get pi "opening_stock") as [[| | | | |opening]|] eqn:E;
    try discriminate.
  simpl. intros H.
  rewrite for_values_id.
  - now rewrite dict_set_get_id.
  - intros k v Hin. apply upgrade_opening_item_id. eapply all_values_In; eauto.
Qed.

Lemma upgrade_entry_id v : is_entry v = true -> upgrade_entry v = (v, None).
Proof.
  destruct v as [| | | | |e]; try discriminate. simpl.
  rewrite !andb_true_iff. unfold dict_mem, dict_setdefault.
  intros [[[H1 H2] H3] H4].
  destruct (dict_get e "event"); [|discriminate].
  destruct (dict_get e "event_id"); [|discriminate].
  destruct (dict_get e "event_open"); [|discriminate].
  destruct (dict_get e "category"); [|discriminate].
  reflexivity.
Qed.

Lemma metadata_of_get data m :
  dict_get data "item_metadata" = Some (JDict m) -> metadata_of data = m.
Proof. unfold metadata_of. now intros ->. Qed.

Lemma ensure_new_schema_document data :
  is_document data = true ->
  _ensure_new_schema data =
    Ok tt (dict_set data "item_metadata"
             (JDict (upgrade_metadata (metadata_of data)))).
Proof.
  intros H. apply is_document_shape in H.
  destruct H as [stock metadata periods history current Hs Hs' Hm Hm' Hp Hp' Hh Hh' Hc Hc'].
  rewrite (metadata_of_get _ _ Hm).
  unfold _ensure_new_schema. unfold bind at 1. unfold get_data. rewrite Hs.
  unfold bind at 1. unfold data_set at 1.
  rewrite map_values_id, (dict_set_get_id _ _ _ Hs)
    by (intros; apply upgrade_stock_item_id; eapply all_values_In; eauto).
  unfold bind at 1. unfold data_setdefault at 1, dict_get_default, dict_setdefault.
  rewrite Hm. unfold bind at 1. simpl as_dict. unfold ret at 1.
  unfold bind at 1. unfold data_set at 1.
  unfold bind at 1. rewrite dict_get_set_other, Hp by discriminate.
  unfold bind at 1. unfold bind at 1. simpl as_dict. unfold ret at 1.
  rewrite for_values_id
    by (intros; apply upgrade_period_info_id; eapply all_values_In; eauto).
  unfold store at 1.
  rewrite (dict_set_get_id _ "periods")
    by (now rewrite dict_get_set_other by discriminate).
  unfold bind at 1. rewrite dict_get_set_other, Hh by discriminate.
  unfold bind at 1. unfold upgrade_history.
  rewrite for_items_id
    by (intros; apply upgrade_entry_id; rewrite forallb_forall in Hh'; auto).
  unfold store at 1.
  rewrite (dict_set_get_id _ "history")
    by (now rewrite dict_get_set_other by discriminate).
  unfold bind at 1. unfold data_get at 1, dict_get_default.
  rewrite dict_get_set_same.
  unfold bind at 1. simpl as_dict. unfold ret at 1.
  unfold data_set. now rewrite dict_set_set.
Qed.
End SchemaFacts.

(* ================================================================== *)
(** ** The ledger operations on a document of the current schema *)
(* ================================================================== *)

Section LedgerFacts.

Ltac lookup :=
  repeat (rewrite dict_get_set_same || rewrite dict_get_set_other by discriminate).

Lemma upgrade_get_other data k :
  k <> "item_metadata" -> dict_get (upgrade data) k = dict_get data k.
Proof. intros H. unfold upgrade. now rewrite dict_get_set_other by congruence. Qed.

Lemma metadata_of_set data m :
  metadata_of (dict_set data "item_metadata" (JDict m)) = m.
Proof. unfold metadata_of. now rewrite dict_get_set_same. Qed.

Lemma metadata_of_upgrade data :
  metadata_of (upgrade data) = upgrade_metadata (metadata_of data).
Proof. apply metadata_of_set. Qed.

Lemma upgrade_metadata_dicts m :
  all_values isinstance_dict m = true ->
  all_values isinstance_dict (upgrade_metadata m) = true.
Proof.
  unfold upgrade_metadata, all_values, map_values. rewrite !forallb_forall.
  intros H kv Hin. apply in_map_iff in Hin as [[k v] [<- Hin]].
  apply in_map_iff in Hin as [[k' v'] [E Hin]]. inversion E; subst.
  specialize (H _ Hin). simpl in *.
  destruct v' as [| | | | |i]; try discriminate. simpl.
  destruct (negb _); simpl; destruct (negb _); reflexivity.
Qed.

Lemma is_document_set_metadata data m :
  is_document data = true -> all_values isinstance_dict m = true ->
  is_document (dict_set data "item_metadata" (JDict m)) = true.
Proof.
  rewrite !is_document_shape. intros [] Hm.
  econstructor; lookup; eauto.
Qed.

Lemma is_document_set_stock data s :
  is_document data = true -> all_values is_option_map s = true ->
  is_document (dict_set data "stock" (JDict s)) = true.
Proof.
  rewrite !is_document_shape. intros [] Hm.
  econstructor; lookup; eauto.
Qed.

Lemma is_document_set_history data h :
  is_document data = true -> forallb is_entry h = true ->
  is_document (dict_set data "history" (JList h)) = true.
Proof.
  rewrite !is_document_shape. intros [] Hm.
  econstructor; lookup; eauto.
Qed.

Lemma is_document_set_periods data p :
  is_document data = true -> all_values is_period_info p = true ->
  is_document (dict_set data "periods" (JDict p)) = true.
Proof.
  rewrite !is_document_shape. intros [] Hm.
  econstructor; lookup; eauto.
Qed.

Lemma is_document_set_current data c :
  is_document data = true -> is_period_key c = true ->
  is_document (dict_set data "current_period" c) = true.
Proof.
  rewrite !is_document_shape. intros [] Hm.
  econstructor; lookup; eauto.
Qed.

Lemma is_document_metadata data :
  is_document data = true -> all_values isinstance_dict (metadata_of data) = true.
Proof.
  rewrite is_document_shape. intros []. now rewrite (metadata_of_get _ _ Hmeta).
Qed.

Lemma is_document_upgrade data :
  is_document data = true -> is_document (upgrade data) = true.
Proof.
  intros H. apply is_document_set_metadata; auto.
  apply upgrade_metadata_dicts. now apply is_document_metadata.
Qed.

Lemma ensure_period_document now period data :
  is_document data = true ->
  ensure_period now period data = Ok tt (after_ensure_period now period data).
Proof.
  intros H. pose proof (is_document_upgrade _ H) as Hu.
  apply is_document_shape in Hu.
  destruct Hu as [stock metadata periods history current Hs Hs' Hm Hm' Hp Hp' Hh Hh' Hc Hc'].
  assert (Hc0 : dict_get data "current_period" = Some current)
    by (now rewrite <- Hc, upgrade_get_other by discriminate).
  assert (Hp0 : dict_get data "periods" = Some (JDict periods))
    by (now rewrite <- Hp, upgrade_get_other by discriminate).
  unfold ensure_period. unfold bind at 1.
  rewrite (ensure_new_schema_document _ H). fold (upgrade data).
  unfold bind at 1. unfold data_get at 1, dict_get_default. rewrite Hc.
  unfold bind at 1. unfold data_setdefault at 1, dict_get_default, dict_setdefault.
  rewrite Hp. unfold bind at 1. simpl contains. unfold ret at 1.
  unfold after_ensure_period, period_is_noop, sub_dict, dict_get_default.
  rewrite Hc0, Hp0.
  destruct (dict_mem periods period); [reflexivity|]. simpl orb.
  destruct current as [| | |c| |]; try discriminate.
  - simpl. unfold bind, data_get, dict_get_default, data_set, start_period, stock_of,
      sub_dict, dict_get_default, deepcopy. now rewrite Hp.
  - unfold bind at 1. simpl str_lt.
    destruct (truthy (JStr c)) eqn:Et.
    + simpl. unfold ret at 1. destruct (String.ltb period c); [reflexivity|].
      simpl. destruct (String.eqb c period); [reflexivity|].
      unfold bind, data_get, dict_get_default, data_set, start_period, stock_of,
        sub_dict, dict_get_default, deepcopy. now rewrite Hp.
    + simpl. unfold ret at 1.
      destruct (String.eqb c period); [reflexivity|].
      unfold bind, data_get, dict_get_default, data_set, start_period, stock_of,
        sub_dict, dict_get_default, deepcopy. now rewrite Hp.
Qed.

Lemma is_document_after_ensure_period now period data :
  is_document data = true ->
  is_document (after_ensure_period now period data) = true.
Proof.
  intros H. pose proof (is_document_upgrade _ H) as Hu.
  unfold after_ensure_period. destruct (period_is_noop data period); auto.
  unfold start_period. apply is_document_set_current; auto.
  apply is_document_set_periods; auto.
  apply is_document_shape in Hu. destruct Hu.
  unfold sub_dict, stock_of, dict_get_default. rewrite Hperiods, Hstock.
  apply all_values_set; auto.
Qed.

Lemma option_key_id o : _option_key o = o.
Proof. unfold _option_key. now destruct o. Qed.

Lemma option_map_shape stock item :
  all_values is_option_map stock = true ->
  dict_get_default stock item (JDict []) = JDict (sub_dict stock item)
  /\ all_values is_location_map (sub_dict stock item) = true.
Proof.
  intros H. unfold dict_get_default, sub_dict.
  destruct (dict_get stock item) as [v|] eqn:E; [|now split].
  pose proof (all_values_get _ _ _ _ H E) as Hv.
  destruct v; try discriminate. now split.
Qed.

Lemma location_map_shape option_map option :
  all_values is_location_map option_map = true ->
  dict_get_default option_map option (JDict []) = JDict (sub_dict option_map option)
  /\ all_values is_quantity (sub_dict option_map option) = true.
Proof.
  intros H. unfold dict_get_default, sub_dict.
  destruct (dict_get option_map option) as [v|] eqn:E; [|now split].
  pose proof (all_values_get _ _ _ _ H E) as Hv.
  destruct v; try discriminate. now split.
Qed.

Lemma quantity_shape stock item option location :
  all_values is_option_map stock = true ->
  dict_get_default (sub_dict (sub_dict stock item) option) location (JInt 0)
  = JInt (stock_qty (JDict stock) item option location).
Proof.
  intros H. destruct (option_map_shape stock item H) as [_ H1].
  destruct (location_map_shape _ option H1) as [_ H2].
  unfold stock_qty, stock_lookup, dict_get_default.
  destruct (dict_get _ location) as [v|] eqn:E; [|reflexivity].
  pose proof (all_values_get _ _ _ _ H2 E) as Hv.
  now destruct v.
Qed.

Lemma stock_add_shape stock item option location quantity :
  all_values is_option_map stock = true ->
  all_values is_option_map (stock_add stock item option location quantity) = true.
Proof.
  intros H. destruct (option_map_shape stock item H) as [_ H1].
  destruct (location_map_shape _ option H1) as [_ H2].
  unfold stock_add. apply all_values_set; auto. simpl.
  apply all_values_set; auto. simpl.
  apply all_values_set; auto.
Qed.

Lemma sub_dict_get d k m : dict_get d k = Some (JDict m) -> sub_dict d k = m.
Proof. unfold sub_dict. now intros ->. Qed.

Lemma update_stock_document item option location quantity data :
  is_document data = true ->
  update_stock item option location quantity data
  = Ok tt (after_update_stock item option location quantity data).
Proof.
  intros H. pose proof H as Hd. apply is_document_shape in Hd.
  destruct Hd as [stock metadata periods history current Hs Hs' Hm Hm' Hp Hp' Hh Hh' Hc Hc'].
  unfold update_stock. unfold bind at 1.
  unfold data_setdefault at 1, dict_setdefault. rewrite Hs.
  unfold bind at 1. rewrite (ensure_new_schema_document _ H). fold (upgrade data).
  unfold bind at 1. unfold data_item at 1.
  rewrite upgrade_get_other, Hs by discriminate.
  unfold bind at 1. simpl as_dict. unfold ret at 1.
  destruct (option_map_shape stock item Hs') as [-> H1].
  unfold bind at 1. simpl as_dict. unfold ret at 1.
  rewrite option_key_id.
  destruct (location_map_shape _ option H1) as [-> H2].
  unfold bind at 1. simpl as_dict. unfold ret at 1.
  rewrite quantity_shape by auto. simpl int_value.
  unfold data_set, after_update_stock, stock_add.
  now rewrite (sub_dict_get _ _ _ Hs).
Qed.

Lemma is_document_after_update_stock item option location quantity data :
  is_document data = true ->
  is_document (after_update_stock item option location quantity data) = true.
Proof.
  intros H. unfold after_update_stock.
  apply is_document_set_stock; [now apply is_document_upgrade|].
  apply stock_add_shape. apply is_document_shape in H. destruct H.
  now rewrite (sub_dict_get _ _ _ Hstock).
Qed.

Lemma is_document_bind_artist t data :
  is_document data = true -> is_document (bind_artist t data) = true.
Proof.
  intros H. unfold bind_artist. apply is_document_set_metadata; auto.
  apply all_values_set; auto. now apply is_document_metadata.
Qed.

Lemma is_document_append_history t data :
  is_document data = true -> is_document (append_history t data) = true.
Proof.
  intros H. unfold append_history. apply is_document_set_history; auto.
  rewrite forallb_app. apply andb_true_iff. split; [|reflexivity].
  apply is_document_shape in H. destruct H. unfold history_of. now rewrite Hhistory.
Qed.

Lemma info_shape metadata item :
  all_values isinstance_dict metadata = true ->
  dict_get_default metadata item (JDict []) = JDict (sub_dict metadata item).
Proof.
  intros H. unfold dict_get_default, sub_dict.
  destruct (dict_get metadata item) as [v|] eqn:E; [|reflexivity].
  pose proof (all_values_get _ _ _ _ H E) as Hv. now destruct v.
Qed.

Lemma get_default_some (d : pydict) k v x :
  dict_get d k = Some v -> dict_get_default d k x = v.
Proof. unfold dict_get_default. now intros ->. Qed.

Lemma record_transaction_document now t allow_negative data :
  is_document data = true ->
  record_transaction now t allow_negative data
  = after_record_transaction now t allow_negative data.
Proof.
  intros H.
  pose proof (is_document_after_ensure_period now (period t) _ H) as H1.
  pose proof (is_document_upgrade _ H1) as H2.
  unfold record_transaction, after_record_transaction.
  unfold bind at 1. rewrite (ensure_period_document _ _ _ H).
  unfold bind at 1. rewrite (ensure_new_schema_document _ H1).
  fold (upgrade (after_ensure_period now (period t) data)).
  set (d2 := upgrade (after_ensure_period now (period t) data)) in *.
  pose proof H2 as Hd. apply is_document_shape in Hd.
  destruct Hd as [stock metadata periods history current Hs Hs' Hm Hm' Hp Hp' Hh Hh' Hc Hc'].
  unfold bind at 1. unfold data_setdefault at 1.
  rewrite (get_default_some _ _ _ _ Hm), (dict_setdefault_present _ _ _ _ Hm).
  unfold bind at 1. simpl as_dict. unfold ret at 1.
  unfold bind at 1. unfold data_set at 1.
  rewrite (info_shape _ (item t) Hm').
  unfold bind at 1. simpl as_dict. unfold ret at 1.
  unfold artist_mismatch, existing_artist. rewrite (metadata_of_get _ _ Hm).
  destruct (truthy (dict_get_default (sub_dict metadata (item t)) "artist" JNull)
            && negb (eq_str (dict_get_default (sub_dict metadata (item t)) "artist" JNull)
                       (artist t))) eqn:Emis.
  - (* artist mismatch: the item was there, nothing has been inserted *)
    unfold raise. f_equal.
    unfold dict_setdefault, sub_dict in *.
    destruct (dict_get metadata (item t)) as [v|] eqn:E; [|discriminate Emis].
    now apply dict_set_get_id.
  - unfold bind at 1. unfold data_set at 1. rewrite dict_set_set.
    fold (bound_info t (sub_dict metadata (item t))).
    assert (Hb : dict_set d2 "item_metadata"
                   (JDict (dict_set metadata (item t)
                             (JDict (bound_info t (sub_dict metadata (item t))))))
                 = bind_artist t d2)
      by (unfold bind_artist; now rewrite (metadata_of_get _ _ Hm)).
    rewrite Hb. clear Hb.
    pose proof (is_document_bind_artist t _ H2) as H3.
    set (d3 := bind_artist t d2) in *.
    assert (Hs3 : dict_get d3 "stock" = Some (JDict stock))
      by (unfold d3, bind_artist; now rewrite dict_get_set_other by discriminate).
    unfold insufficient, signed_quantity, stock_of.
    rewrite (get_default_some _ _ _ _ Hs3).
    destruct (String.eqb (type t) "out") eqn:Etype.
    + unfold bind at 1. unfold bind at 1. unfold data_get at 1.
      rewrite (get_default_some _ _ _ _ Hs3).
      unfold bind at 1. simpl as_dict. unfold ret at 1.
      destruct (option_map_shape stock (item t) Hs') as [-> Hom].
      unfold bind at 1. simpl as_dict. unfold ret at 1.
      rewrite option_key_id.
      destruct (location_map_shape _ (option t) Hom) as [-> Hlm].
      unfold bind at 1. simpl as_dict. unfold ret at 1.
      rewrite quantity_shape by auto. cbn [int_value andb].
      destruct ((stock_qty (JDict stock) (item t) (option t) (location t)
                 <? quantity t) && negb allow_negative) eqn:Eins.
      * reflexivity.
      * rewrite (update_stock_document _ _ _ _ _ H3).
        pose proof (is_document_after_update_stock (item t) (option t) (location t)
                      (- quantity t) _ H3) as H4.
        apply is_document_shape in H4. destruct H4.
        unfold bind at 1. unfold data_setdefault at 1.
        rewrite (get_default_some _ _ _ _ Hhistory),
          (dict_setdefault_present _ _ _ _ Hhistory).
        unfold data_set, append_history, history_of.
        now rewrite Hhistory.
    + simpl andb. unfold bind at 1.
      rewrite (update_stock_document _ _ _ _ _ H3).
      pose proof (is_document_after_update_stock (item t) (option t) (location t)
                    (quantity t) _ H3) as H4.
      apply is_document_shape in H4. destruct H4.
      unfold bind at 1. unfold data_setdefault at 1.
      rewrite (get_default_some _ _ _ _ Hhistory),
        (dict_setdefault_present _ _ _ _ Hhistory).
      unfold data_set, append_history, history_of.
      now rewrite Hhistory.
Qed.

End LedgerFacts.

Section LedgerViews.

Ltac lookup :=
  repeat (rewrite dict_get_set_same || rewrite dict_get_set_other by discriminate).

Lemma sub_dict_map_values_artist f m item :
  (forall i, exists i', f (JDict i) = JDict i'
                        /\ dict_get i' "artist" = dict_get i "artist") ->
  (forall v, isinstance_dict v = false -> isinstance_dict (f v) = false) ->
  dict_get_default (sub_dict (map_values f m) item) "artist" JNull
  = dict_get_default (sub_dict m item) "artist" JNull.
Proof.
  intros Hd Hn. unfold sub_dict, dict_get_default.
  rewrite dict_get_map_values.
  destruct (dict_get m item) as [v|]; simpl; [|reflexivity].
  destruct v as [| | | | |i];
    try (match goal with |- context [f ?v] =>
           specialize (Hn v eq_refl); destruct (f v); try discriminate; reflexivity
         end).
  destruct (Hd i) as [i' [-> E]]. now rewrite E.
Qed.

Lemma upgrade_metadata_artist m item :
  dict_get_default (sub_dict (upgrade_metadata m) item) "artist" JNull
  = dict_get_default (sub_dict m item) "artist" JNull.
Proof.
  unfold upgrade_metadata.
  rewrite !sub_dict_map_values_artist; auto.
  - intros i. simpl. destruct (negb _); eexists; split; eauto. now lookup.
  - now intros [].
  - intros i. simpl. destruct (negb _); eexists; split; eauto. now lookup.
  - now intros [].
Qed.

Lemma existing_artist_upgrade data item :
  existing_artist (upgrade data) item = existing_artist data item.
Proof.
  unfold existing_artist. rewrite metadata_of_upgrade.
  apply upgrade_metadata_artist.
Qed.

Lemma after_ensure_period_get now period data k :
  k <> "item_metadata" -> k <> "periods" -> k <> "current_period" ->
  dict_get (after_ensure_period now period data) k = dict_get data k.
Proof.
  intros H1 H2 H3. unfold after_ensure_period, start_period.
  destruct (period_is_noop data period).
  - now apply upgrade_get_other.
  - rewrite !dict_get_set_other by congruence. now apply upgrade_get_other.
Qed.

Lemma metadata_of_after_ensure_period now period data :
  metadata_of (after_ensure_period now period data) = metadata_of (upgrade data).
Proof.
  unfold after_ensure_period, start_period, metadata_of.
  destruct (period_is_noop data period); auto. now lookup.
Qed.

Lemma existing_artist_after_ensure_period now period data item :
  existing_artist (after_ensure_period now period data) item
  = existing_artist data item.
Proof.
  unfold existing_artist at 1. rewrite metadata_of_after_ensure_period.
  apply existing_artist_upgrade.
Qed.

Lemma artist_mismatch_prepared now t data :
  artist_mismatch t (upgrade (after_ensure_period now (period t) data))
  = artist_mismatch t data.
Proof.
  unfold artist_mismatch.
  now rewrite existing_artist_upgrade, existing_artist_after_ensure_period.
Qed.

Lemma bind_artist_get t data k :
  k <> "item_metadata" -> dict_get (bind_artist t data) k = dict_get data k.
Proof. intros H. unfold bind_artist. now rewrite dict_get_set_other by congruence. Qed.

Lemma prepared_get now t data k :
  k <> "item_metadata" -> k <> "periods" -> k <> "current_period" ->
  dict_get (bind_artist t (upgrade (after_ensure_period now (period t) data))) k
  = dict_get data k.
Proof.
  intros. rewrite bind_artist_get, upgrade_get_other, after_ensure_period_get; auto.
Qed.

Lemma stock_of_get data data' :
  dict_get data' "stock" = dict_get data "stock" -> stock_of data' = stock_of data.
Proof. unfold stock_of, dict_get_default. now intros ->. Qed.

Lemma history_of_get data data' :
  dict_get data' "history" = dict_get data "history" ->
  history_of data' = history_of data.
Proof. unfold history_of. now intros ->. Qed.

Lemma insufficient_prepared now t allow_negative data :
  insufficient t allow_negative
    (bind_artist t (upgrade (after_ensure_period now (period t) data)))
  = insufficient t allow_negative data.
Proof.
  unfold insufficient. erewrite stock_of_get; [reflexivity|].
  now apply prepared_get.
Qed.

Lemma sub_dict_set_same (d : pydict) k m : sub_dict (dict_set d k (JDict m)) k = m.
Proof. unfold sub_dict. now rewrite dict_get_set_same. Qed.

Lemma sub_dict_set_other (d : pydict) k k' v :
  k <> k' -> sub_dict (dict_set d k v) k' = sub_dict d k'.
Proof. intros H. unfold sub_dict. now rewrite dict_get_set_other. Qed.

Lemma stock_add_lookup_same stock item option location quantity :
  stock_lookup (JDict (stock_add stock item option location quantity))
    item option location
  = Some (JInt (stock_qty (JDict stock) item option location + quantity)).
Proof.
  unfold stock_lookup at 1, stock_add.
  now rewrite !sub_dict_set_same, dict_get_set_same.
Qed.

Lemma stock_add_lookup_other stock item option location quantity i o l :
  (i, o, l) <> (item, option, location) ->
  stock_lookup (JDict (stock_add stock item option location quantity)) i o l
  = stock_lookup (JDict stock) i o l.
Proof.
  intros Hne. unfold stock_lookup, stock_add.
  destruct (String.eqb_spec item i) as [<-|Hi];
    [|now rewrite sub_dict_set_other].
  rewrite sub_dict_set_same.
  destruct (String.eqb_spec option o) as [<-|Ho];
    [|now rewrite sub_dict_set_other].
  rewrite sub_dict_set_same.
  destruct (String.eqb_spec location l) as [<-|Hl];
    [congruence|now rewrite dict_get_set_other].
Qed.

Lemma stock_of_sub_dict data stock :
  dict_get data "stock" = Some (JDict stock) ->
  stock_of data = JDict (sub_dict data "stock").
Proof. intros H. unfold stock_of, dict_get_default, sub_dict. now rewrite H. Qed.

Lemma is_document_stock data :
  is_document data = true -> stock_of data = JDict (sub_dict data "stock").
Proof.
  intros H. apply is_document_shape in H. destruct H.
  eapply stock_of_sub_dict; eauto.
Qed.

Lemma stock_of_after_update_stock item option location quantity data :
  stock_of (after_update_stock item option location quantity data)
  = JDict (stock_add (sub_dict data "stock") item option location quantity).
Proof.
  unfold after_update_stock, stock_of, dict_get_default.
  now rewrite dict_get_set_same.
Qed.

Lemma after_update_stock_get item option location quantity data k :
  k <> "stock" -> k <> "item_metadata" ->
  dict_get (after_update_stock item option location quantity data) k
  = dict_get data k.
Proof.
  intros H1 H2. unfold after_update_stock.
  rewrite dict_get_set_other by congruence. now apply upgrade_get_other.
Qed.

Lemma append_history_get t data k :
  k <> "history" -> dict_get (append_history t data) k = dict_get data k.
Proof. intros H. unfold append_history. now rewrite dict_get_set_other by congruence. Qed.

Lemma history_of_append_history t data :
  history_of (append_history t data) = history_of data ++ [JDict (to_dict t)].
Proof. unfold append_history, history_of at 1. now rewrite dict_get_set_same. Qed.

Lemma eq_str_false v s : eq_str v s = false <-> v <> JStr s.
Proof.
  destruct v; simpl; try (split; [discriminate|reflexivity]).
  destruct (String.eqb_spec s0 s); split; congruence.
Qed.

Lemma artist_mismatch_spec t data :
  artist_mismatch t data = true
  <-> truthy (existing_artist data (item t)) = true
      /\ existing_artist data (item t) <> JStr (artist t).
Proof.
  unfold artist_mismatch. rewrite andb_true_iff, negb_true_iff.
  now rewrite eq_str_false.
Qed.

Lemma bound_info_artist t info :
  dict_get (bound_info t info) "artist" = Some (JStr (artist t)).
Proof. unfold bound_info. destruct (truthy _); now lookup. Qed.

Lemma bound_info_category t info :
  dict_get (bound_info t info) "category"
  = Some (JStr (normalize_category (category t))).
Proof. unfold bound_info. destruct (truthy _); now lookup. Qed.

Lemma bound_info_option t info :
  option t <> "" -> dict_get (bound_info t info) "option" = Some (JStr (option t)).
Proof.
  intros H. unfold bound_info. simpl truthy.
  destruct (String.eqb_spec (option t) ""); [congruence|]. simpl. now lookup.
Qed.

Lemma bind_artist_info t data :
  sub_dict (metadata_of (bind_artist t data)) (item t)
  = bound_info t (sub_dict (metadata_of data) (item t)).
Proof.
  unfold bind_artist. now rewrite metadata_of_set, sub_dict_set_same.
Qed.

Lemma existing_artist_bind_artist t data :
  existing_artist (bind_artist t data) (item t) = JStr (artist t).
Proof.
  unfold existing_artist. rewrite bind_artist_info.
  unfold dict_get_default. now rewrite bound_info_artist.
Qed.

Lemma metadata_of_get_eq data data' :
  dict_get data' "item_metadata" = dict_get data "item_metadata" ->
  metadata_of data' = metadata_of data.
Proof. unfold metadata_of. now intros ->. Qed.

Lemma existing_artist_recorded t item option location quantity data :
  existing_artist
    (append_history t (after_update_stock item option location quantity data))
    (Inventory.item t)
  = existing_artist data (Inventory.item t).
Proof.
  unfold existing_artist at 1.
  rewrite (metadata_of_get_eq (after_update_stock item option location quantity data))
    by (now apply append_history_get).
  unfold after_update_stock.
  rewrite (metadata_of_get_eq (upgrade data))
    by (now rewrite dict_get_set_other by discriminate).
  apply existing_artist_upgrade.
Qed.

End LedgerViews.

(* ================================================================== *)
(** ** recording a transaction: the stock check and the artist binding *)
(* ================================================================== *)

(** C2 as stated fails: an outbound movement of 10 with 6 on hand, under an
    artist other than the one the item is bound to, is refused by the artist
    check, which comes first; no insufficient-stock error is reported. *)
Lemma insufficient_stock_counterexample :
  let t := movement "out" "ArtistB" 10 march_5 in
  is_document scenario_B = true
  /\ type t = "out"
  /\ stock_qty (stock_of scenario_B) (item t) (option t) (location t) = 6
  /\ 6 < quantity t
  /\ (exists data',
        record_transaction clock t false scenario_B
        = Raise (ValueError (ArtistMismatch "Album X" (JStr "ArtistA"))) data')
  /\ (forall i l a r data',
        record_transaction clock t false scenario_B
        <> Raise (ValueError (InsufficientStock i l a r)) data').
Proof.
  cbv zeta. repeat split; try (vm_compute; reflexivity).
  - eexists. vm_compute. reflexivity.
  - intros i l a r data'. vm_compute. discriminate.
Qed.

(** C2 (amended): on a document of the current schema, an outbound movement
    for more than the quantity on hand, without the override and for an item
    not bound to another artist, fails with the insufficient-stock error
    carrying the item, the location, the quantity on hand and the quantity
    asked for; the stock map and the history are as they were. *)
Theorem insufficient_stock_atomic now t data :
  is_document data = true ->
  type t = "out" ->
  artist_mismatch t data = false ->
  stock_qty (stock_of data) (item t) (option t) (location t) < quantity t ->
  exists data',
    record_transaction now t false data
    = Raise (ValueError
               (InsufficientStock (item t) (location t)
                  (JInt (stock_qty (stock_of data) (item t) (option t) (location t)))
                  (quantity t))) data'
    /\ dict_get data' "stock" = dict_get data "stock"
    /\ dict_get data' "history" = dict_get data "history".
Proof.
  intros Hdoc Hout Hart Hlt.
  rewrite (record_transaction_document _ _ _ _ Hdoc).
  unfold after_record_transaction.
  rewrite artist_mismatch_prepared, Hart, insufficient_prepared.
  assert (Hins : insufficient t false data = true).
  { unfold insufficient. rewrite Hout. simpl.
    rewrite andb_true_r. now apply Z.ltb_lt. }
  rewrite Hins. eexists. split.
  - f_equal. do 2 f_equal.
    erewrite stock_of_get; [reflexivity|]. now apply prepared_get.
  - split; now apply prepared_get.
Qed.

Lemma insufficient_stock_atomic_witness :
  exists data',
    record_transaction clock (movement "out" "ArtistA" 10 march_5) false scenario_B
    = Raise (ValueError (InsufficientStock "Album X" "Seoul" (JInt 6) 10)) data'
    /\ stock_qty (stock_of data') "Album X" "" "Seoul" = 6
    /\ dict_get data' "history" = dict_get scenario_B "history".
Proof.
  destruct (insufficient_stock_atomic clock
              (movement "out" "ArtistA" 10 march_5) scenario_B)
    as [data' [E [Hs Hh]]];
    [vm_compute; reflexivity | reflexivity | vm_compute; reflexivity
    | vm_compute; reflexivity |].
  exists data'. split; [exact E|]. split; [|exact Hh].
  unfold stock_of, dict_get_default. rewrite Hs. vm_compute. reflexivity.
Defined.

(** C7 as stated fails for the same reason: sending out exactly the 6 units
    on hand under another artist is refused by the artist check. *)
Lemma outbound_boundary_counterexample :
  is_document scenario_B = true
  /\ type (movement "out" "ArtistB" 6 march_5) = "out"
  /\ quantity (movement "out" "ArtistB" 6 march_5)
     = stock_qty (stock_of scenario_B) "Album X" "" "Seoul"
  /\ forall data',
       record_transaction clock (movement "out" "ArtistB" 6 march_5) false
         scenario_B <> Ok tt data'.
Proof.
  repeat split; try (vm_compute; reflexivity).
  intros data'. vm_compute. discriminate.
Qed.

(** C7 (amended): on a document of the current schema, an outbound movement
    of exactly the quantity on hand, for an item not bound to another artist,
    succeeds with or without the override, leaves the quantity at that
    item/option/location at exactly 0 and appends exactly one entry, the
    transaction's, to the history. *)
Theorem outbound_boundary now t allow_negative data :
  is_document data = true ->
  type t = "out" ->
  artist_mismatch t data = false ->
  quantity t = stock_qty (stock_of data) (item t) (option t) (location t) ->
  exists data',
    record_transaction now t allow_negative data = Ok tt data'
    /\ stock_lookup (stock_of data') (item t) (option t) (location t)
       = Some (JInt 0)
    /\ history_of data' = history_of data ++ [JDict (to_dict t)].
Proof.
  intros Hdoc Hout Hart Hq.
  rewrite (record_transaction_document _ _ _ _ Hdoc).
  unfold after_record_transaction.
  rewrite artist_mismatch_prepared, Hart, insufficient_prepared.
  assert (Hins : insufficient t allow_negative data = false).
  { unfold insufficient. rewrite Hq, Z.ltb_irrefl. now rewrite andb_false_r. }
  rewrite Hins. eexists. split; [reflexivity|]. split.
  - erewrite stock_of_get by (now apply append_history_get).
    rewrite stock_of_after_update_stock, stock_add_lookup_same.
    unfold signed_quantity. rewrite Hout. simpl String.eqb.
    rewrite <- (stock_of_sub_dict _ (sub_dict data "stock")).
    + erewrite stock_of_get by (now apply prepared_get).
      do 2 f_equal. lia.
    + rewrite prepared_get by discriminate.
      apply is_document_shape in Hdoc. destruct Hdoc.
      now rewrite (sub_dict_get _ _ _ Hstock).
  - rewrite history_of_append_history. f_equal.
    apply history_of_get.
    rewrite after_update_stock_get by discriminate. now apply prepared_get.
Qed.

Lemma outbound_boundary_witness :
  exists data',
    record_transaction clock (movement "out" "ArtistA" 6 march_5) false scenario_B
    = Ok tt data'
    /\ stock_lookup (stock_of data') "Album X" "" "Seoul" = Some (JInt 0)
    /\ history_of data'
       = history_of scenario_B
         ++ [JDict (to_dict (movement "out" "ArtistA" 6 march_5))].
Proof.
  apply (outbound_boundary clock (movement "out" "ArtistA" 6 march_5) false
           scenario_B);
    [vm_compute; reflexivity | reflexivity | vm_compute; reflexivity
    | vm_compute; reflexivity].
Defined.

(** C6: on a document of the current schema, [record_transaction] fails with
    the artist-mismatch error exactly when the metadata of the item already
    records a non-empty artist other than the transaction's; when no artist is
    recorded yet (no entry, no field, or an empty one) it does not, and the
    item is bound to the transaction's artist whatever the outcome of the
    stock check. *)
Theorem artist_binding now t allow_negative data :
  is_document data = true ->
  ((exists i a data',
       record_transaction now t allow_negative data
       = Raise (ValueError (ArtistMismatch i a)) data')
   <-> (truthy (existing_artist data (item t)) = true
        /\ existing_artist data (item t) <> JStr (artist t)))
  /\ (truthy (existing_artist data (item t)) = false ->
      (forall i a data',
          record_transaction now t allow_negative data
          <> Raise (ValueError (ArtistMismatch i a)) data')
      /\ existing_artist (final (record_transaction now t allow_negative data))
           (item t)
         = JStr (artist t)).
Proof.
  intros Hdoc.
  rewrite (record_transaction_document _ _ _ _ Hdoc).
  unfold after_record_transaction.
  rewrite artist_mismatch_prepared, <- artist_mismatch_spec.
  destruct (artist_mismatch t data) eqn:Emis.
  - split.
    + split; [reflexivity|]. intros _. do 3 eexists. reflexivity.
    + intros Hno. apply artist_mismatch_spec in Emis as [Ht _]. congruence.
  - assert (Hnone : forall i a data',
               (if insufficient t allow_negative
                     (bind_artist t (upgrade (after_ensure_period now (period t) data)))
                then Raise (ValueError
                       (InsufficientStock (item t) (location t)
                          (JInt (stock_qty
                                   (stock_of (bind_artist t
                                      (upgrade (after_ensure_period now (period t) data))))
                                   (item t) (option t) (location t)))
                          (quantity t)))
                       (bind_artist t (upgrade (after_ensure_period now (period t) data)))
                else Ok tt
                       (append_history t
                          (after_update_stock (item t) (option t) (location t)
                             (signed_quantity t)
                             (bind_artist t
                                (upgrade (after_ensure_period now (period t) data))))))
               <> Raise (ValueError (ArtistMismatch i a)) data').
    { intros i a data'. destruct (insufficient _ _ _); discriminate. }
    split.
    + split; [|discriminate]. intros [i [a [data' E]]]. now apply Hnone in E.
    + intros _. split; [exact Hnone|].
      destruct (insufficient _ _ _); simpl final.
      * apply existing_artist_bind_artist.
      * rewrite existing_artist_recorded. apply existing_artist_bind_artist.
Qed.

Lemma artist_binding_witness :
  is_document scenario_B = true
  /\ ((exists i a data',
         record_transaction clock (movement "in" "ArtistB" 1 march_5) false
           scenario_B
         = Raise (ValueError (ArtistMismatch i a)) data')
      <-> (truthy (existing_artist scenario_B "Album X") = true
           /\ existing_artist scenario_B "Album X" <> JStr "ArtistB"))
  /\ existing_artist scenario_B "Album X" = JStr "ArtistA".
Proof.
  split; [vm_compute; reflexivity|]. split; [|vm_compute; reflexivity].
  apply (artist_binding clock (movement "in" "ArtistB" 1 march_5) false scenario_B).
  vm_compute; reflexivity.
Defined.

(** C9: when [record_transaction] fails with the insufficient-stock error on
    a document of the current schema, the document is not rolled back: the
    metadata of the item carries the transaction's artist, the normalized
    category and, for a non-empty option, the option; the periods and the
    current period are those [ensure_period] has left, so a period that was
    due has been created, with the stock as its opening stock, and made
    current. The stock map and the history are as before the call. *)
Theorem failed_outbound_is_not_rolled_back now t allow_negative data i l a r data' :
  is_document data = true ->
  record_transaction now t allow_negative data
  = Raise (ValueError (InsufficientStock i l a r)) data' ->
  dict_get (sub_dict (metadata_of data') (item t)) "artist"
  = Some (JStr (artist t))
  /\ dict_get (sub_dict (metadata_of data') (item t)) "category"
     = Some (JStr (normalize_category (category t)))
  /\ (option t <> "" ->
      dict_get (sub_dict (metadata_of data') (item t)) "option"
      = Some (JStr (option t)))
  /\ dict_get data' "periods"
     = dict_get (final (ensure_period now (period t) data)) "periods"
  /\ dict_get data' "current_period"
     = dict_get (final (ensure_period now (period t) data)) "current_period"
  /\ (period_is_noop data (period t) = false ->
      dict_get data' "current_period" = Some (JStr (period t))
      /\ dict_get (sub_dict data' "periods") (period t)
         = Some (JDict [ ("opening_stock", stock_of data);
                         ("created_at", JStr now) ]))
  /\ dict_get data' "stock" = dict_get data "stock"
  /\ dict_get data' "history" = dict_get data "history".
Proof.
  intros Hdoc E.
  rewrite (record_transaction_document _ _ _ _ Hdoc) in E.
  rewrite (ensure_period_document _ _ _ Hdoc). simpl final.
  unfold after_record_transaction in E.
  destruct (artist_mismatch _ _); [discriminate|].
  destruct (insufficient _ _ _); [|discriminate].
  injection E as _ _ _ _ <-.
  rewrite bind_artist_info.
  split; [apply bound_info_artist|].
  split; [apply bound_info_category|].
  split; [apply bound_info_option|].
  rewrite !bind_artist_get, !upgrade_get_other by discriminate.
  split; [reflexivity|]. split; [reflexivity|].
  split.
  - intros Hnoop. unfold sub_dict.
    rewrite !bind_artist_get, !upgrade_get_other by discriminate.
    unfold after_ensure_period. rewrite Hnoop. unfold start_period.
    rewrite dict_get_set_same, dict_get_set_other, !dict_get_set_same
      by discriminate.
    split; [reflexivity|]. do 4 f_equal.
    apply stock_of_get. now apply upgrade_get_other.
  - split; now apply after_ensure_period_get.
Qed.

Lemma failed_outbound_is_not_rolled_back_witness :
  exists data',
    record_transaction clock (movement "out" "ArtistA" 10 april_2) false scenario_B
    = Raise (ValueError (InsufficientStock "Album X" "Seoul" (JInt 6) 10)) data'
    /\ dict_get scenario_B "current_period" = Some (JStr "2024-03")
    /\ dict_get data' "current_period" = Some (JStr "2024-04")
    /\ dict_get (sub_dict data' "periods") "2024-04"
       = Some (JDict [ ("opening_stock", stock_of scenario_B);
                       ("created_at", JStr clock) ])
    /\ dict_get data' "stock" = dict_get scenario_B "stock"
    /\ dict_get data' "history" = dict_get scenario_B "history".
Proof.
  exists (final (record_transaction clock (movement "out" "ArtistA" 10 april_2)
                   false scenario_B)).
  destruct (failed_outbound_is_not_rolled_back clock
              (movement "out" "ArtistA" 10 april_2) false scenario_B
              "Album X" "Seoul" (JInt 6) 10
              (final (record_transaction clock
                        (movement "out" "ArtistA" 10 april_2) false scenario_B)))
    as (_ & _ & _ & _ & _ & Hnew & Hs & Hh);
    [vm_compute; reflexivity | vm_compute; reflexivity |].
  destruct Hnew as [Hc Hp]; [vm_compute; reflexivity|].
  split; [vm_compute; reflexivity|].
  split; [vm_compute; reflexivity|].
  split; [exact Hc|]. split; [exact Hp|]. split; [exact Hs|exact Hh].
Defined.

(* ================================================================== *)
(** ** Periods and the stock update *)
(* ================================================================== *)

(** C4: on a document of the current schema, if the period key already has a
    record, or the current period is set and the key is strictly earlier, or
    the key is the current period, then [ensure_period] returns normally and
    leaves the periods and the current period as they were. *)
Theorem ensure_period_noop now key data :
  is_document data = true ->
  (dict_mem (sub_dict data "periods") key = true
   \/ (exists current,
         dict_get data "current_period" = Some (JStr current)
         /\ current <> "" /\ String.ltb key current = true)
   \/ dict_get data "current_period" = Some (JStr key)) ->
  exists data',
    ensure_period now key data = Ok tt data'
    /\ dict_get data' "periods" = dict_get data "periods"
    /\ dict_get data' "current_period" = dict_get data "current_period".
Proof.
  intros Hdoc Hcase.
  rewrite (ensure_period_document _ _ _ Hdoc).
  assert (Hnoop : period_is_noop data key = true).
  { unfold period_is_noop.
    destruct Hcase as [H | [[c [H [Hne Hlt]]] | H]].
    - now rewrite H.
    - rewrite (get_default_some _ _ _ _ H). simpl truthy.
      destruct (String.eqb_spec c ""); [congruence|].
      simpl. rewrite Hlt. now rewrite orb_true_r.
    - rewrite (get_default_some _ _ _ _ H). simpl eq_str.
      rewrite String.eqb_refl. now rewrite orb_true_r. }
  unfold after_ensure_period. rewrite Hnoop.
  eexists. split; [reflexivity|].
  split; now apply upgrade_get_other.
Qed.

Lemma ensure_period_noop_witness :
  dict_get scenario_B "current_period" = Some (JStr "2024-03")
  /\ exists data',
       ensure_period clock "2024-02" scenario_B = Ok tt data'
       /\ dict_get data' "periods" = dict_get scenario_B "periods"
       /\ dict_get data' "current_period" = dict_get scenario_B "current_period".
Proof.
  split; [vm_compute; reflexivity|].
  apply (ensure_period_noop clock "2024-02" scenario_B);
    [vm_compute; reflexivity|].
  right. left. exists "2024-03".
  split; [vm_compute; reflexivity|]. split; [discriminate|reflexivity].
Defined.

Lemma upgrade_last_audit_id v : is_current_info v = true -> upgrade_last_audit v = v.
Proof.
  destruct v as [| | | | |i]; try discriminate. simpl.
  rewrite andb_true_iff. now intros [-> _].
Qed.

Lemma default_category_id v : is_current_info v = true -> default_category v = v.
Proof.
  destruct v as [| | | | |i]; try discriminate. simpl.
  rewrite andb_true_iff. now intros [_ ->].
Qed.

Lemma upgrade_id data : is_upgraded data = true -> upgrade data = data.
Proof.
  unfold is_upgraded, upgrade, upgrade_metadata, metadata_of.
  rewrite andb_true_iff. intros [_ H].
  destruct (dict_get data "item_metadata") as [[| | | | |m]|] eqn:E;
    try discriminate.
  rewrite !map_values_id.
  - now apply dict_set_get_id.
  - intros k v Hin. apply upgrade_last_audit_id. eapply all_values_In; eauto.
  - intros k v Hin. apply default_category_id.
    rewrite map_values_id in Hin.
    + eapply all_values_In; eauto.
    + intros k' v' Hin'. apply upgrade_last_audit_id. eapply all_values_In; eauto.
Qed.

(** C10: on an already-upgraded document, [update_stock] returns normally for
    every integer delta, sets the quantity at the item/option/location to its
    previous value (0 when absent) plus the delta, creating the item and
    option maps on the way, and changes no other quantity and no other field
    of the document (history, periods, current period, item metadata). *)
Theorem update_stock_frame item option location delta data :
  is_upgraded data = true ->
  exists data',
    update_stock item option location delta data = Ok tt data'
    /\ stock_lookup (stock_of data') item option location
       = Some (JInt (stock_qty (stock_of data) item option location + delta))
    /\ (forall i o l,
          (i, o, l) <> (item, option, location) ->
          stock_lookup (stock_of data') i o l = stock_lookup (stock_of data) i o l)
    /\ dict_get data' "history" = dict_get data "history"
    /\ dict_get data' "periods" = dict_get data "periods"
    /\ dict_get data' "current_period" = dict_get data "current_period"
    /\ dict_get data' "item_metadata" = dict_get data "item_metadata"
    /\ (forall k, k <> "stock" -> dict_get data' k = dict_get data k).
Proof.
  intros Hup. pose proof Hup as Hdoc.
  unfold is_upgraded in Hdoc. apply andb_true_iff in Hdoc as [Hdoc _].
  rewrite (update_stock_document _ _ _ _ _ Hdoc).
  unfold after_update_stock. rewrite (upgrade_id _ Hup).
  eexists. split; [reflexivity|].
  unfold stock_of at 1 3, dict_get_default. rewrite dict_get_set_same.
  rewrite (is_document_stock _ Hdoc).
  split; [apply stock_add_lookup_same|].
  split; [intros; now apply stock_add_lookup_other|].
  repeat split; intros; now rewrite dict_get_set_other by congruence.
Qed.

Lemma update_stock_frame_witness :
  is_upgraded scenario_B = true
  /\ exists data',
       update_stock "Album X" "" "Busan" (-2) scenario_B = Ok tt data'
       /\ stock_lookup (stock_of data') "Album X" "" "Busan" = Some (JInt (-2))
       /\ stock_lookup (stock_of data') "Album X" "" "Seoul" = Some (JInt 6)
       /\ dict_get data' "history" = dict_get scenario_B "history".
Proof.
  split; [vm_compute; reflexivity|].
  destruct (update_stock_frame "Album X" "" "Busan" (-2) scenario_B)
    as (data' & E & Hq & Hother & Hh & _); [vm_compute; reflexivity|].
  exists data'. split; [exact E|]. split; [exact Hq|].
  split; [|exact Hh].
  rewrite Hother by discriminate. vm_compute. reflexivity.
Defined.

(* ================================================================== *)
(** ** Stock consistency *)
(* ================================================================== *)

Section Consistency.

Lemma summarize_from_app summary h entry :
  summarize_from summary (h ++ [entry])
  = obind (summarize_from summary h) (fun s => summarize_entry s entry).
Proof.
  revert summary. induction h as [|e h IH]; intros summary; simpl.
  - now destruct (summarize_entry summary entry).
  - destruct (summarize_entry summary e); simpl; auto.
Qed.

Lemma summary_sub_dict (d : pydict) k :
  all_values isinstance_dict d = true ->
  match dict_get_default d k (JDict []) with JDict m => m | _ => [] end
  = sub_dict d k.
Proof.
  intros H. unfold dict_get_default, sub_dict.
  destruct (dict_get d k) as [v|] eqn:E; [|reflexivity].
  pose proof (all_values_get _ _ _ _ H E). now destruct v.
Qed.

Lemma option_maps_are_dicts stock :
  all_values is_option_map stock = true -> all_values isinstance_dict stock = true.
Proof.
  unfold all_values. rewrite !forallb_forall. intros H kv Hin.
  specialize (H kv Hin). now destruct (snd kv).
Qed.

Lemma location_maps_are_dicts m :
  all_values is_location_map m = true -> all_values isinstance_dict m = true.
Proof.
  unfold all_values. rewrite !forallb_forall. intros H kv Hin.
  specialize (H kv Hin). now destruct (snd kv).
Qed.

Lemma truthy_or_empty s :
  (if truthy (JStr s) then JStr s else JStr "") = JStr s.
Proof. now destruct s. Qed.

(** One step of [summarize] on the entry of a movement is the stock update
    [record_transaction] makes for it. *)
Lemma summarize_entry_movement stock t :
  all_values is_option_map stock = true ->
  valid_type t = true ->
  summarize_entry stock (JDict (to_dict t))
  = Return (stock_add stock (item t) (option t) (location t) (signed_quantity t)).
Proof.
  intros Hs Hv. unfold summarize_entry.
  cbn [entry_item to_dict dict_get dict_get_default String.eqb Ascii.eqb
       Bool.eqb obind as_key int_value].
  rewrite truthy_or_empty. cbn [obind as_key].
  rewrite (summary_sub_dict _ _ (option_maps_are_dicts _ Hs)).
  destruct (option_map_shape stock (item t) Hs) as [_ Hom].
  rewrite (summary_sub_dict _ _ (location_maps_are_dicts _ Hom)).
  rewrite quantity_shape by auto. cbn [int_value].
  unfold stock_add, signed_quantity. do 6 f_equal. f_equal. f_equal.
  unfold valid_type in Hv. simpl eq_str.
  destruct (String.eqb_spec (type t) "in") as [E|E].
  - rewrite E. change ("in" =? "out")%string with false. cbv iota. lia.
  - simpl in Hv. rewrite Hv. lia.
Qed.

Lemma net_quantity_app h entry item option location :
  net_quantity (h ++ [entry]) item option location
  = net_quantity h item option location
    + (if entry_matches entry item option location
       then entry_signed_quantity entry else 0).
Proof. induction h as [|e h IH]; simpl; [|rewrite IH]; lia. Qed.

Lemma entry_matches_movement t item option location :
  entry_matches (JDict (to_dict t)) item option location = true
  <-> (item, option, location) = (Inventory.item t, Inventory.option t,
                                   Inventory.location t).
Proof.
  unfold entry_matches.
  cbn [to_dict dict_get dict_get_default String.eqb Ascii.eqb Bool.eqb eq_str].
  rewrite !andb_true_iff, !String.eqb_eq. split.
  - intros [[-> ->] ->]. reflexivity.
  - intros E. inversion E. auto.
Qed.

Lemma entry_signed_quantity_movement t :
  valid_type t = true ->
  entry_signed_quantity (JDict (to_dict t)) = signed_quantity t.
Proof.
  intros Hv. unfold entry_signed_quantity, signed_quantity.
  cbn [to_dict dict_get dict_get_default String.eqb Ascii.eqb Bool.eqb eq_str].
  unfold valid_type in Hv.
  destruct (String.eqb_spec (type t) "in") as [E|E].
  - rewrite E. reflexivity.
  - simpl in Hv. now rewrite Hv.
Qed.

Lemma stock_qty_replay history stock item option location :
  replays_to history stock ->
  stock_qty (JDict stock) item option location
  = net_quantity history item option location.
Proof.
  intros H. specialize (H item option location). unfold stock_qty.
  destruct (stock_lookup (JDict stock) item option location) as [q|].
  - now subst.
  - now rewrite H.
Qed.

Lemma replays_to_step history stock t :
  valid_type t = true ->
  replays_to history stock ->
  replays_to (history ++ [JDict (to_dict t)])
    (stock_add stock (item t) (option t) (location t) (signed_quantity t)).
Proof.
  intros Hv H i o l. rewrite net_quantity_app.
  destruct (entry_matches (JDict (to_dict t)) i o l) eqn:Em.
  - apply entry_matches_movement in Em. inversion Em; subst.
    rewrite stock_add_lookup_same, entry_signed_quantity_movement by auto.
    now rewrite (stock_qty_replay history).
  - rewrite stock_add_lookup_other.
    + specialize (H i o l). destruct (stock_lookup (JDict stock) i o l); [|lia].
      rewrite H. f_equal. lia.
    + intros E. apply entry_matches_movement in E. congruence.
Qed.

Lemma consistent_empty : consistent empty_document.
Proof.
  split; [reflexivity|]. split; [reflexivity|].
  intros i o l. reflexivity.
Qed.

Lemma consistent_record now t allow_negative data data' :
  valid_type t = true ->
  record_transaction now t allow_negative data = Ok tt data' ->
  consistent data -> consistent data'.
Proof.
  intros Hv E (Hdoc & Hsum & Hrep).
  rewrite (record_transaction_document _ _ _ _ Hdoc) in E.
  unfold after_record_transaction in E.
  destruct (artist_mismatch _ _); [discriminate|].
  destruct (insufficient _ _ _); [discriminate|].
  injection E as <-.
  set (d3 := bind_artist t (upgrade (after_ensure_period now (period t) data))).
  assert (Hd3 : is_document d3 = true).
  { apply is_document_bind_artist, is_document_upgrade.
    now apply is_document_after_ensure_period. }
  assert (Hstock : sub_dict d3 "stock" = sub_dict data "stock").
  { unfold sub_dict, d3. now rewrite prepared_get by discriminate. }
  assert (Hhist : history_of (after_update_stock (item t) (option t) (location t)
                                (signed_quantity t) d3) = history_of data).
  { apply history_of_get. rewrite after_update_stock_get by discriminate.
    now apply prepared_get. }
  assert (Hnew : sub_dict (append_history t
                             (after_update_stock (item t) (option t) (location t)
                                (signed_quantity t) d3)) "stock"
                 = stock_add (sub_dict data "stock") (item t) (option t)
                     (location t) (signed_quantity t)).
  { unfold sub_dict at 1. rewrite append_history_get by discriminate.
    unfold after_update_stock. rewrite dict_get_set_same. now rewrite Hstock. }
  split.
  { apply is_document_append_history.
    now apply is_document_after_update_stock. }
  rewrite history_of_append_history, Hhist, Hnew. split.
  - unfold summarize in *. rewrite summarize_from_app, Hsum. simpl obind.
    apply summarize_entry_movement; auto.
    apply is_document_shape in Hdoc. destruct Hdoc.
    now rewrite (sub_dict_get _ _ _ Hstock0).
  - now apply replays_to_step.
Qed.

Lemma reachable_consistent data : reachable data -> consistent data.
Proof.
  induction 1 as [|now t allow_negative data data' _ IH Hv E].
  - apply consistent_empty.
  - eapply consistent_record; eauto.
Qed.

End Consistency.

(** C1: in every document reachable from the empty document by successful
    [record_transaction] calls, replaying the whole history with [summarize]
    returns exactly the live stock map: every stored quantity is the net
    signed quantity of the history entries of its item/option/location, and a
    key that is not stored has net quantity 0. *)
Theorem stock_consistency data :
  reachable data ->
  exists stock,
    dict_get data "stock" = Some (JDict stock)
    /\ summarize (history_of data) = Return stock
    /\ forall item option location,
         match stock_lookup (stock_of data) item option location with
         | Some q => q = JInt (net_quantity (history_of data) item option location)
         | None => net_quantity (history_of data) item option location = 0
         end.
Proof.
  intros H. apply reachable_consistent in H as (Hdoc & Hsum & Hrep).
  pose proof (is_document_stock _ Hdoc) as Hs.
  apply is_document_shape in Hdoc. destruct Hdoc.
  exists stock. rewrite (sub_dict_get _ _ _ Hstock) in *.
  split; [assumption|]. split; [assumption|].
  rewrite Hs. exact Hrep.
Qed.

Lemma reachable_scenario_B : reachable scenario_B.
Proof.
  eapply reachable_record with (t := movement "out" "ArtistA" 4 march_5)
    (now := clock) (allow_negative := false) (data := scenario_A);
    [|reflexivity|vm_compute; reflexivity].
  eapply reachable_record with (t := movement "in" "ArtistA" 10 march_5)
    (now := clock) (allow_negative := false) (data := empty_document);
    [apply reachable_empty|reflexivity|vm_compute; reflexivity].
Defined.

Lemma stock_consistency_witness :
  exists stock,
    dict_get scenario_B "stock" = Some (JDict stock)
    /\ summarize (history_of scenario_B) = Return stock
    /\ forall item option location,
         match stock_lookup (stock_of scenario_B) item option location with
         | Some q =>
             q = JInt (net_quantity (history_of scenario_B) item option location)
         | None => net_quantity (history_of scenario_B) item option location = 0
         end.
Proof. apply (stock_consistency scenario_B). apply reachable_scenario_B. Defined.

(* ================================================================== *)
(** ** The schema upgrader on documents it mishandles *)
(* ================================================================== *)

Lemma is_upgraded_upgrade data :
  is_document data = true -> is_upgraded (upgrade data) = true.
Proof.
  intros H. unfold is_upgraded.
  rewrite (is_document_upgrade _ H). unfold upgrade.
  rewrite dict_get_set_same. simpl.
  pose proof (is_document_metadata _ H) as Hm.
  unfold upgrade_metadata, all_values, map_values in *.
  rewrite forallb_forall in *. intros kv Hin.
  apply in_map_iff in Hin as [[k v] [<- Hin]].
  apply in_map_iff in Hin as [[k' v'] [E Hin]]. inversion E; subst.
  specialize (Hm _ Hin). simpl in *.
  destruct v' as [| | | | |i]; try discriminate. simpl.
  destruct (isinstance_dict (dict_get_default i "last_audit" JNull)) eqn:Ea; simpl.
  - destruct (truthy (dict_get_default i "category" JNull)) eqn:Ec; simpl.
    + now rewrite Ea, Ec.
    + unfold dict_get_default in *.
      rewrite dict_get_set_other, dict_get_set_same by discriminate.
      now rewrite Ea.
  - unfold dict_get_default at 1.
    rewrite dict_get_set_other by discriminate.
    fold (dict_get_default i "category" JNull).
    destruct (truthy (dict_get_default i "category" JNull)) eqn:Ec; simpl.
    + unfold dict_get_default in *.
      rewrite dict_get_set_same, dict_get_set_other by discriminate.
      now rewrite Ec.
    + unfold dict_get_default.
      now rewrite dict_get_set_other, !dict_get_set_same by discriminate.
Qed.

(** On a document of the current schema a second run of the upgrader
    changes nothing. *)
Lemma upgrade_idempotent_on_documents data :
  is_document data = true ->
  _ensure_new_schema (final (_ensure_new_schema data))
  = Ok tt (final (_ensure_new_schema data)).
Proof.
  intros H. rewrite (ensure_new_schema_document _ H). simpl final.
  fold (upgrade data).
  rewrite (ensure_new_schema_document _ (is_document_upgrade _ H)).
  fold (upgrade (upgrade data)).
  now rewrite (upgrade_id _ (is_upgraded_upgrade _ H)).
Qed.

(** C5 fails on the code: when [stock] is absent the first run only creates
    it and returns; the second run, finding it, goes on to the history and
    gives the entry its event fields and category. Two runs differ from one. *)
Lemma upgrade_twice_differs :
  _ensure_new_schema document_without_stock
  = Ok tt (document_without_stock ++ [("stock", JDict [])])
  /\ forallb is_entry
       (history_of (final (_ensure_new_schema document_without_stock))) = false
  /\ forallb is_entry
       (history_of
          (final (_ensure_new_schema
                    (final (_ensure_new_schema document_without_stock))))) = true
  /\ final (_ensure_new_schema
              (final (_ensure_new_schema document_without_stock)))
     <> final (_ensure_new_schema document_without_stock).
Proof.
  split; [reflexivity|]. split; [reflexivity|]. split; [reflexivity|].
  vm_compute. discriminate.
Qed.

(** C8 fails on the code: with [stock] absent one run returns before the loop
    over the history, whose entry is left without [event], [event_id],
    [event_open] and [category]; and a history item that is not a dictionary
    makes the run raise. *)
Lemma upgrade_leaves_history_entry :
  (exists data',
      _ensure_new_schema document_without_stock = Ok tt data'
      /\ exists entry,
           history_of data' = [JDict entry]
           /\ dict_mem entry "event" = false
           /\ dict_mem entry "event_id" = false
           /\ dict_mem entry "event_open" = false
           /\ dict_mem entry "category" = false)
  /\ exists data',
       _ensure_new_schema document_with_stray_entry = Raise AttributeError data'.
Proof.
  split.
  - eexists. split; [reflexivity|]. eexists. split; [reflexivity|].
    repeat split.
  - eexists. reflexivity.
Qed.

(* ================================================================== *)
(** ** The reconciliation pull *)
(* ================================================================== *)

Section PullLoop.

Lemma record_transaction_effect now t allow_negative data data' :
  is_document data = true ->
  record_transaction now t allow_negative data = Ok tt data' ->
  is_document data' = true
  /\ history_of data' = history_of data ++ [JDict (to_dict t)]
  /\ sub_dict data' "stock"
     = stock_add (sub_dict data "stock") (item t) (option t) (location t)
         (signed_quantity t).
Proof.
  intros Hdoc E.
  rewrite (record_transaction_document _ _ _ _ Hdoc) in E.
  unfold after_record_transaction in E.
  destruct (artist_mismatch _ _); [discriminate|].
  destruct (insufficient _ _ _); [discriminate|].
  injection E as <-.
  set (d3 := bind_artist t (upgrade (after_ensure_period now (period t) data))).
  assert (Hd3 : is_document d3 = true).
  { apply is_document_bind_artist, is_document_upgrade.
    now apply is_document_after_ensure_period. }
  split; [|split].
  - apply is_document_append_history. now apply is_document_after_update_stock.
  - rewrite history_of_append_history. f_equal. apply history_of_get.
    rewrite after_update_stock_get by discriminate. now apply prepared_get.
  - unfold sub_dict at 1. rewrite append_history_get by discriminate.
    unfold after_update_stock. rewrite dict_get_set_same. f_equal.
    unfold sub_dict, d3. now rewrite prepared_get by discriminate.
Qed.

Lemma stock_qty_stock_add stock item option location quantity i o l :
  stock_qty (JDict (stock_add stock item option location quantity)) i o l
  = stock_qty (JDict stock) i o l
    + (if at_address (i, o, l) (EmptyString, item, option, location)
       then quantity else 0).
Proof.
  unfold at_address.
  destruct (String.eqb_spec item i) as [<-|Hi];
    [destruct (String.eqb_spec option o) as [<-|Ho];
     [destruct (String.eqb_spec location l) as [<-|Hl]|]|]; simpl.
  - unfold stock_qty at 1. now rewrite stock_add_lookup_same.
  - unfold stock_qty. rewrite stock_add_lookup_other by congruence.
    destruct (stock_lookup _ _ _ _) as [[]|]; lia.
  - unfold stock_qty. rewrite stock_add_lookup_other by congruence.
    destruct (stock_lookup _ _ _ _) as [[]|]; lia.
  - unfold stock_qty. rewrite stock_add_lookup_other by congruence.
    destruct (stock_lookup _ _ _ _) as [[]|]; lia.
Qed.

Lemma signed_quantity_correction now actor k artist category_value diff :
  diff <> 0 ->
  signed_quantity (correction now actor k artist category_value diff) = diff.
Proof.
  intros Hne. destruct k as [[[c i] o] l]. unfold signed_quantity, correction.
  cbn [type quantity]. destruct (Z.ltb_spec 0 diff).
  - change ("in" =? "out")%string with false. cbv iota. lia.
  - change ("out" =? "out")%string with true. cbv iota. lia.
Qed.

Lemma at_address_correction a now actor k artist category_value diff :
  at_address a
    (EmptyString, item (correction now actor k artist category_value diff),
     option (correction now actor k artist category_value diff),
     location (correction now actor k artist category_value diff))
  = at_address a k.
Proof. now destruct k as [[[c i] o] l]. Qed.

Lemma corrects_correction ls gs now actor k artist category_value :
  corrects ls gs k
    (correction now actor k artist category_value (difference ls gs k)).
Proof. destruct k as [[[c i] o] l]. repeat split. Qed.

Lemma is_document_stock_qty data i o l :
  is_document data = true ->
  stock_qty (stock_of data) i o l = stock_qty (JDict (sub_dict data "stock")) i o l.
Proof. intros H. now rewrite (is_document_stock _ H). Qed.

(** The loop over the keys, when it runs to its end. *)
Lemma pull_keys_pulled clock now actor ls gs keys :
  forall changes data n data',
    is_document data = true ->
    pull_keys clock now actor ls gs keys changes data = Ok (Pulled n) data' ->
    is_document data' = true
    /\ n = (changes + List.length (filter (differs ls gs) keys))%nat
    /\ (exists txs,
           history_of data'
           = history_of data ++ map (fun t => JDict (to_dict t)) txs
           /\ Forall2 (corrects ls gs) (filter (differs ls gs) keys) txs)
    /\ forall i o l,
         stock_qty (stock_of data') i o l
         = stock_qty (stock_of data) i o l
           + sum_at (difference ls gs) (i, o, l) keys.
Proof.
  induction keys as [|k keys IH]; intros changes data n data' Hdoc E.
  - simpl in E. injection E as <- <-. simpl.
    split; [assumption|]. split; [lia|]. split.
    + exists []. simpl. now rewrite app_nil_r.
    + intros. lia.
  - cbn [pull_keys] in E. cbn [filter sum_at].
    fold (difference ls gs k) in E.
    assert (Hd : differs ls gs k = negb (difference ls gs k =? 0)) by reflexivity.
    rewrite Hd. clear Hd.
    destruct (Z.eqb_spec (difference ls gs k) 0) as [Hz|Hnz]; cbn [negb].
    + destruct (IH _ _ _ _ Hdoc E) as (H1 & H2 & H3 & H4).
      split; [assumption|]. split; [assumption|]. split; [assumption|].
      intros i o l. rewrite H4, Hz. destruct (at_address _ _); lia.
    + unfold bind at 1 in E.
      destruct (choose_artist _ _ data) as [artist d0|] eqn:Ea; [|discriminate].
      assert (d0 = data) as ->.
      { unfold choose_artist in Ea.
        destruct (truthy _) in Ea; [|discriminate].
        destruct (if truthy _ then _ else _) in Ea; try discriminate.
        now injection Ea. }
      destruct (record_transaction _ _ true data) as [[] d1|] eqn:Er;
        [|discriminate].
      destruct (record_transaction_effect _ _ _ _ _ Hdoc Er) as (Hd1 & Hh1 & Hs1).
      destruct (IH _ _ _ _ Hd1 E) as (H1 & H2 & [txs [H3 H3']] & H4).
      split; [assumption|]. split; [simpl; lia|]. split.
      * eexists (_ :: txs). split.
        -- rewrite H3, Hh1, <- app_assoc. reflexivity.
        -- constructor; [apply corrects_correction|assumption].
      * intros i o l. rewrite H4.
        rewrite (is_document_stock_qty d1), (is_document_stock_qty data) by auto.
        rewrite Hs1, stock_qty_stock_add, at_address_correction.
        rewrite signed_quantity_correction by auto.
        destruct (at_address _ _); lia.
Qed.

End PullLoop.

Section Snapshots.

Lemma key_eqb_spec (a b : key) : Bool.reflect (a = b) (key_eqb a b).
Proof.
  destruct a as [[[c1 i1] o1] l1], b as [[[c2 i2] o2] l2]. unfold key_eqb.
  destruct (String.eqb_spec c1 c2); [|constructor; congruence].
  destruct (String.eqb_spec i1 i2); [|constructor; congruence].
  destruct (String.eqb_spec o1 o2); [|constructor; congruence].
  destruct (String.eqb_spec l1 l2); constructor; congruence.
Qed.

Lemma snap_get_set (s : snapshot) k v k' :
  snap_get (snap_set s k v) k' = if key_eqb k k' then Some v else snap_get s k'.
Proof.
  induction s as [|[k0 v0] s IH]; simpl.
  - reflexivity.
  - destruct (key_eqb_spec k0 k) as [->|Hne]; simpl.
    + now destruct (key_eqb k k').
    + rewrite IH. destruct (key_eqb_spec k0 k') as [->|]; auto.
      destruct (key_eqb_spec k k'); congruence.
Qed.

Lemma snap_get_In (s : snapshot) k v : snap_get s k = Some v -> In k (map fst s).
Proof.
  induction s as [|[k0 v0] s IH]; simpl; [discriminate|].
  destruct (key_eqb_spec k0 k); auto.
Qed.

Lemma unique_cons k keys :
  unique (k :: keys) = true -> ~ In k keys /\ unique keys = true.
Proof.
  simpl. rewrite andb_true_iff, negb_true_iff. intros [H1 H2]. split; auto.
  intros Hin. assert (existsb (String.eqb k) keys = true); [|congruence].
  apply existsb_exists. exists k. split; auto. apply String.eqb_refl.
Qed.

Lemma dict_get_not_In (d : pydict) k : ~ In k (dict_keys d) -> dict_get d k = None.
Proof.
  induction d as [|[k0 v0] d IH]; simpl; auto. intros H.
  destruct (String.eqb_spec k0 k); [tauto|]. apply IH. tauto.
Qed.

Lemma or_empty_id s : or_empty s = s.
Proof. unfold or_empty. now destruct s. Qed.

(** One level of the nested loops: each key of the dictionary writes the
    snapshot keys it owns and no others. *)
Section Level.

Variable step : snapshot -> string * json -> outcome snapshot.
Variable owner : key -> string.
Variable payload : string -> json -> key -> Datatypes.option info.
Variable good : json -> bool.

Hypothesis step_spec :
  forall s j v s', good v = true -> step s (j, v) = Return s' ->
    forall k, snap_get s' k
              = match payload j v k with
                | Some i => Some i
                | None => snap_get s k
                end.
Hypothesis payload_owner :
  forall j v k i, payload j v k = Some i -> owner k = j.

Lemma level_spec (d : pydict) :
  forall s s',
    unique (dict_keys d) = true ->
    all_values good d = true ->
    ofold step d s = Return s' ->
    forall k,
      snap_get s' k
      = match dict_get d (owner k) with
        | Some v =>
            match payload (owner k) v k with
            | Some i => Some i
            | None => snap_get s k
            end
        | None => snap_get s k
        end.
Proof.
  induction d as [|[j v] d IH]; intros s s' Hu Hg E k; simpl in *.
  - now injection E as <-.
  - change (unique (j :: dict_keys d) = true) in Hu.
    apply unique_cons in Hu as [Hnot Hu].
    unfold all_values in Hg. simpl in Hg. apply andb_true_iff in Hg as [Hv Hg].
    destruct (step s (j, v)) as [s1|] eqn:E1; [|discriminate]. simpl in E.
    rewrite (IH _ _ Hu Hg E k), (step_spec _ _ _ _ Hv E1 k).
    destruct (String.eqb_spec j (owner k)) as [->|Hne].
    + now rewrite (dict_get_not_In _ _ Hnot).
    + destruct (payload j v k) eqn:Ep; [|reflexivity].
      apply payload_owner in Ep. congruence.
Qed.

End Level.

Lemma snapshot_locations_spec category item option artist locations :
  forall s s',
    unique (dict_keys locations) = true ->
    snapshot_locations category item option artist s locations = Return s' ->
    forall k, snap_get s' k
              = match locations_payload category item option artist locations k with
                | Some i => Some i
                | None => snap_get s k
                end.
Proof.
  intros s s' Hu E k. unfold snapshot_locations in E.
  unshelve epose proof
    (level_spec _ (fun k : key => snd k)
       (location_payload category item option artist) (fun _ => true) _ _
       locations s s' Hu _ E k) as H.
  - intros s0 j v s0' _ E0 k0. simpl in E0. rewrite !or_empty_id in E0.
    unfold location_payload.
    destruct (int_of v); [|discriminate]. injection E0 as <-.
    rewrite snap_get_set. now destruct (key_eqb _ k0).
  - intros j v k0 i0. unfold location_payload.
    destruct (key_eqb_spec (category, item, option, j) k0) as [<-|]; [|discriminate].
    reflexivity.
  - unfold all_values. apply forallb_forall. reflexivity.
  - rewrite H. destruct k as [[[c i] o] l]. unfold locations_payload. cbn [snd].
    now destruct (dict_get locations l).
Qed.

Lemma locations_payload_owner category item option artist locations k i :
  locations_payload category item option artist locations k = Some i ->
  fst (fst (fst k)) = category /\ snd (fst (fst k)) = item
  /\ snd (fst k) = option.
Proof.
  destruct k as [[[c i'] o] l]. unfold locations_payload, location_payload.
  destruct (dict_get locations l); [|discriminate].
  destruct (key_eqb_spec (category, item, option, l) (c, i', o, l)) as [E|];
    [|discriminate].
  inversion E. auto.
Qed.

Lemma snapshot_options_spec category item artist options :
  forall s s',
    unique (dict_keys options) = true ->
    all_values well_keyed_locations options = true ->
    snapshot_options category item artist s options = Return s' ->
    forall k, snap_get s' k
              = match options_payload category item artist options k with
                | Some i => Some i
                | None => snap_get s k
                end.
Proof.
  intros s s' Hu Hw E k. unfold snapshot_options in E.
  unshelve epose proof
    (level_spec _ (fun k : key => snd (fst k))
       (fun o v k => match v with
                     | JDict locations =>
                         locations_payload category item o artist locations k
                     | _ => None
                     end)
       well_keyed_locations _ _ options s s' Hu Hw E k) as H.
  - intros s0 j v s0' Hg E0 k0. simpl in E0.
    destruct v; try discriminate. simpl in E0.
    eapply snapshot_locations_spec; eauto.
  - intros j v k0 i0 Hp. destruct v; try discriminate.
    now apply locations_payload_owner in Hp.
  - rewrite H. destruct k as [[[c i] o] l]. unfold options_payload. cbn [snd fst].
    destruct (dict_get options o) as [[]|]; auto.
Qed.

Lemma options_payload_owner category item artist options k i :
  options_payload category item artist options k = Some i ->
  fst (fst (fst k)) = category /\ snd (fst (fst k)) = item.
Proof.
  destruct k as [[[c i'] o] l]. unfold options_payload.
  destruct (dict_get options o) as [[]|]; try discriminate.
  intros H. apply locations_payload_owner in H. tauto.
Qed.

Lemma snapshot_items_spec metadata stock :
  forall s s',
    unique (dict_keys stock) = true ->
    all_values well_keyed_options stock = true ->
    ofold (snapshot_item metadata) stock s = Return s' ->
    forall k, snap_get s' k
              = match dict_get stock (snd (fst (fst k))) with
                | Some options =>
                    match item_payload metadata (snd (fst (fst k))) options k with
                    | Some i => Some i
                    | None => snap_get s k
                    end
                | None => snap_get s k
                end.
Proof.
  intros s s' Hu Hw E k.
  unshelve eapply
    (level_spec _ (fun k : key => snd (fst (fst k))) (item_payload metadata)
       well_keyed_options _ _ stock s s' Hu Hw E k).
  - intros s0 j v s0' Hg E0 k0. unfold snapshot_item in E0. unfold item_payload.
    destruct metadata; try discriminate. cbn [dict_of obind] in E0.
    destruct (dict_get_default d j (JDict [])); try discriminate.
    cbn [dict_of obind] in E0.
    destruct (normalize_category_value _); [|discriminate].
    cbn [obind] in E0.
    destruct v; try discriminate. cbn [dict_of obind] in E0.
    simpl in Hg. apply andb_true_iff in Hg as [Hg1 Hg2].
    eapply snapshot_options_spec; eauto.
  - intros j v k0 i0 Hp. unfold item_payload in Hp.
    destruct metadata; try discriminate.
    destruct (dict_get_default d j (JDict [])); try discriminate.
    destruct (normalize_category_value _); [|discriminate].
    destruct v; try discriminate.
    now apply options_payload_owner in Hp.
Qed.

End Snapshots.

Section SnapshotOfDocument.

Lemma key_eqb_category c c' i o l :
  key_eqb (c, i, o, l) (c', i, o, l) = (c =? c')%string.
Proof. unfold key_eqb. now rewrite !String.eqb_refl, !andb_true_r. Qed.

(** The snapshot of a document holds, for each stored quantity, one key: the
    category of the item with the address of the quantity. *)
Lemma snapshot_of_document data s :
  is_document data = true ->
  well_keyed (stock_of data) = true ->
  _build_stock_snapshot data = Return s ->
  forall c i o l,
    snap_get s (c, i, o, l)
    = match stock_lookup (stock_of data) i o l with
      | Some (JInt q) =>
          if has_category data i c
          then Some (mk_info q (snapshot_artist data i) c)
          else None
      | _ => None
      end.
Proof.
  intros Hdoc Hw E c i o l.
  pose proof (is_document_stock _ Hdoc) as Hstock.
  apply is_document_shape in Hdoc.
  destruct Hdoc as [stock metadata periods history current Hs Hs' Hm Hm' _ _ _ _ _ _].
  rewrite Hstock in *. rewrite (sub_dict_get _ _ _ Hs) in *.
  unfold _build_stock_snapshot in E.
  rewrite (get_default_some _ _ _ _ Hs), (get_default_some _ _ _ _ Hm) in E.
  simpl in Hw. apply andb_true_iff in Hw as [Hu Hw].
  assert (E' : ofold (snapshot_item (JDict metadata)) stock [] = Return s).
  { destruct stock; simpl in E |- *; auto. }
  clear E.
  rewrite (snapshot_items_spec _ _ _ _ Hu Hw E' (c, i, o, l)). cbn [fst snd snap_get].
  unfold stock_lookup, has_category, snapshot_category, snapshot_artist.
  rewrite (metadata_of_get _ _ Hm).
  destruct (dict_get stock i) as [options|] eqn:Ei;
    [|unfold sub_dict at 2; rewrite Ei; reflexivity].
  pose proof (all_values_get _ _ _ _ Hs' Ei) as Ho.
  destruct options as [| | | | |om]; try discriminate.
  rewrite (sub_dict_get _ _ _ Ei).
  unfold item_payload. rewrite (info_shape _ i Hm').
  destruct (normalize_category_value _) as [category|e].
  - unfold options_payload.
    destruct (dict_get om o) as [locations|] eqn:Eo;
      [|unfold sub_dict; rewrite Eo; reflexivity].
    pose proof (all_values_get _ _ _ _ Ho Eo) as Hl.
    destruct locations as [| | | | |lm]; try discriminate.
    rewrite (sub_dict_get _ _ _ Eo). unfold locations_payload.
    destruct (dict_get lm l) as [qty|] eqn:El; [|reflexivity].
    pose proof (all_values_get _ _ _ _ Hl El) as Hq.
    destruct qty as [| |q| | |]; try discriminate.
    unfold location_payload. rewrite key_eqb_category. cbn [int_of].
    destruct (String.eqb_spec category c) as [->|]; reflexivity.
  - destruct (dict_get (sub_dict om o) l) as [[]|]; reflexivity.
Qed.

Lemma sum_at_zero f a keys :
  (forall k, In k keys -> at_address a k = true -> f k = 0) ->
  sum_at f a keys = 0.
Proof.
  induction keys as [|k keys IH]; simpl; intros H; auto.
  rewrite IH by auto. destruct (at_address a k) eqn:E; [|lia].
  rewrite (H k); auto.
Qed.

Lemma sum_at_single f a keys k0 :
  NoDup keys -> In k0 keys -> at_address a k0 = true ->
  (forall k, In k keys -> k <> k0 -> at_address a k = true -> f k = 0) ->
  sum_at f a keys = f k0.
Proof.
  induction keys as [|k keys IH]; simpl; intros Hnd Hin Ha H; [tauto|].
  inversion Hnd as [|? ? Hnot Hnd']; subst.
  destruct Hin as [->|Hin].
  - rewrite Ha, sum_at_zero; [lia|].
    intros k Hk Hak. apply H; auto. intros ->. tauto.
  - rewrite IH; auto.
    destruct (at_address a k) eqn:E; [|lia].
    rewrite (H k); auto. intros ->. tauto.
Qed.

Lemma sum_at_difference ls gs a keys :
  sum_at (difference ls gs) a keys
  = sum_at (fun k => snap_qty (snap_get_default gs k)) a keys
    - sum_at (fun k => snap_qty (snap_get_default ls k)) a keys.
Proof.
  induction keys as [|k keys IH]; simpl; [reflexivity|].
  rewrite IH. unfold difference. destruct (at_address a k); lia.
Qed.

Lemma at_address_inv i o l k :
  at_address (i, o, l) k = true -> exists c, k = (c, i, o, l).
Proof.
  destruct k as [[[c i'] o'] l']. unfold at_address.
  rewrite !andb_true_iff, !String.eqb_eq. intros [[-> ->] ->]. now exists c.
Qed.

Lemma at_address_refl c i o l : at_address (i, o, l) (c, i, o, l) = true.
Proof. unfold at_address. now rewrite !String.eqb_refl. Qed.

(** Summed over a duplicate-free list of keys that covers the snapshot, the
    quantities of the snapshot at one address give the stored quantity. *)
Lemma snapshot_sum data s keys i o l :
  is_document data = true ->
  well_keyed (stock_of data) = true ->
  _build_stock_snapshot data = Return s ->
  NoDup keys ->
  (forall k, In k (map fst s) -> In k keys) ->
  sum_at (fun k => snap_qty (snap_get_default s k)) (i, o, l) keys
  = stock_qty (stock_of data) i o l.
Proof.
  intros Hdoc Hw E Hnd Hcover.
  pose proof (snapshot_of_document _ _ Hdoc Hw E) as Hspec.
  unfold stock_qty.
  destruct (stock_lookup (stock_of data) i o l) as [[| |q| | |]|] eqn:El;
    try (apply sum_at_zero; intros k _ Hk;
         apply at_address_inv in Hk as [c ->];
         unfold snap_get_default; rewrite Hspec, El; reflexivity).
  unfold has_category in Hspec.
  destruct (snapshot_category data i) as [category|e] eqn:Ec.
  - assert (Hk0 : snap_get s (category, i, o, l)
                  = Some (mk_info q (snapshot_artist data i) category)).
    { rewrite Hspec, El, Ec. now rewrite String.eqb_refl. }
    rewrite (sum_at_single _ _ _ (category, i, o, l)); auto.
    + unfold snap_get_default. now rewrite Hk0.
    + apply Hcover. eapply snap_get_In; eauto.
    + apply at_address_refl.
    + intros k _ Hne Hk. apply at_address_inv in Hk as [c ->].
      unfold snap_get_default. rewrite Hspec, El, Ec.
      destruct (String.eqb_spec category c); [congruence|reflexivity].
  - (* no snapshot key at all for this item: not possible, but harmless *)
    assert (Hnone : forall c, snap_get s (c, i, o, l) = None)
      by (intros c; now rewrite Hspec, El, Ec).
    exfalso.
    unfold _build_stock_snapshot in E.
    pose proof (is_document_stock _ Hdoc) as Hstock.
    apply is_document_shape in Hdoc.
    destruct Hdoc as [stock metadata periods history current Hs Hs' Hm Hm' _ _ _ _ _ _].
    rewrite (get_default_some _ _ _ _ Hs), (get_default_some _ _ _ _ Hm) in E.
    assert (E' : ofold (snapshot_item (JDict metadata)) stock [] = Return s)
      by (destruct stock; simpl in E |- *; auto).
    clear E. rewrite Hstock, (sub_dict_get _ _ _ Hs) in El.
    unfold stock_lookup in El.
    destruct (dict_get stock i) as [options|] eqn:Ei;
      [|unfold sub_dict at 2 in El; rewrite Ei in El; discriminate].
    unfold snapshot_category in Ec. rewrite (metadata_of_get _ _ Hm) in Ec.
    clear - E' Ei Ec Hm'.
    revert E'. generalize (@nil (key * info)). revert Ei.
    induction stock as [|[j v] stock IH]; intros Ei s0 E'; [discriminate Ei|].
    cbn [ofold] in E'. cbn [dict_get] in Ei.
    destruct (snapshot_item (JDict metadata) s0 (j, v)) as [s1|] eqn:E1;
      cbn [obind] in E'; [|discriminate E'].
    destruct (String.eqb_spec j i) as [->|Hne].
    + unfold snapshot_item in E1. cbn [dict_of obind] in E1.
      rewrite (info_shape _ i Hm') in E1. cbn [dict_of obind] in E1.
      rewrite Ec in E1. discriminate.
    + eapply IH; eauto.
Qed.

End SnapshotOfDocument.

Section AllKeys.

Lemma set_of_In k l : In k (set_of l) <-> In k l.
Proof.
  induction l as [|a l IH]; simpl; [tauto|].
  destruct (existsb (key_eqb a) l) eqn:E.
  - rewrite IH. split; [tauto|]. intros [<-|H]; auto.
    apply existsb_exists in E as [x [Hx Hax]].
    destruct (key_eqb_spec a x); [subst; auto|discriminate].
  - simpl. now rewrite IH.
Qed.

Lemma set_of_NoDup l : NoDup (set_of l).
Proof.
  induction l as [|a l IH]; simpl; [constructor|].
  destruct (existsb (key_eqb a) l) eqn:E; auto.
  constructor; auto. rewrite set_of_In. intros Hin.
  assert (existsb (key_eqb a) l = true); [|congruence].
  apply existsb_exists. exists a. split; auto.
  now destruct (key_eqb_spec a a).
Qed.

Lemma insert_key_In k a l : In k (insert_key a l) <-> a = k \/ In k l.
Proof.
  induction l as [|b l IH]; simpl; [tauto|].
  destruct (key_leb a b); simpl; [tauto|]. rewrite IH. tauto.
Qed.

Lemma insert_key_NoDup a l : ~ In a l -> NoDup l -> NoDup (insert_key a l).
Proof.
  induction l as [|b l IH]; simpl; intros Hnot Hnd.
  - constructor; auto.
  - inversion Hnd; subst. destruct (key_leb a b).
    + constructor; simpl; auto.
    + constructor.
      * rewrite insert_key_In. intros [->|H]; tauto.
      * apply IH; auto.
Qed.

Lemma sorted_In k l : In k (sorted l) <-> In k l.
Proof.
  induction l as [|a l IH]; simpl; [tauto|]. rewrite insert_key_In, IH. tauto.
Qed.

Lemma sorted_NoDup l : NoDup l -> NoDup (sorted l).
Proof.
  induction 1 as [|a l Hnot Hnd IH]; simpl; [constructor|].
  apply insert_key_NoDup; auto. now rewrite sorted_In.
Qed.

Lemma all_keys_NoDup ls gs : NoDup (all_keys ls gs).
Proof. apply sorted_NoDup, set_of_NoDup. Qed.

Lemma all_keys_In ls gs k :
  In k (all_keys ls gs) <-> In k (map fst ls) \/ In k (map fst gs).
Proof. unfold all_keys. now rewrite sorted_In, set_of_In, in_app_iff. Qed.

End AllKeys.

Section Merge.

Ltac lookup :=
  repeat (rewrite dict_get_set_same || rewrite dict_get_set_other by discriminate).

(** Copying the artists of the sheet touches the item metadata only. *)
Lemma merge_artists_document google_metadata :
  all_values isinstance_dict google_metadata = true ->
  forall data,
    is_document data = true ->
    exists data',
      merge_artists google_metadata data = Ok tt data'
      /\ is_document data' = true
      /\ dict_get data' "stock" = dict_get data "stock"
      /\ dict_get data' "history" = dict_get data "history".
Proof.
  induction google_metadata as [|[item meta] gm IH]; intros Hg data Hdoc.
  - exists data. repeat split; auto.
  - unfold all_values in Hg. simpl in Hg. apply andb_true_iff in Hg as [Hmeta Hg].
    destruct meta as [| | | | |meta]; try discriminate.
    cbn [merge_artists]. unfold bind at 1. cbn [as_dict]. unfold ret at 1.
    unfold bind at 1.
    destruct (truthy (dict_get_default meta "artist" JNull)).
    + pose proof Hdoc as Hsh. apply is_document_shape in Hsh.
      destruct Hsh as [stock metadata periods history current Hs Hs' Hm Hm' _ _ _ _ _ _].
      unfold bind at 1. unfold data_setdefault at 1.
      rewrite (get_default_some _ _ _ _ Hm), (dict_setdefault_present _ _ _ _ Hm).
      unfold bind at 1. cbn [as_dict]. unfold ret at 1.
      unfold bind at 1. unfold data_set at 1.
      rewrite (info_shape _ item Hm'). unfold data_set at 1. rewrite dict_set_set.
      destruct (IH Hg (dict_set data "item_metadata"
                         (JDict (dict_set metadata item
                                   (JDict (dict_set (sub_dict metadata item) "artist"
                                             (dict_get_default meta "artist" JNull)))))))
        as (data' & E & Hd & Hst & Hh).
      { apply is_document_set_metadata; auto. apply all_values_set; auto. }
      exists data'. split; [exact E|]. split; [exact Hd|].
      rewrite Hst, Hh. now lookup.
    + unfold ret at 1. now apply IH.
Qed.

Lemma pull_keys_same clock now actor s keys :
  forall changes data,
    pull_keys clock now actor s s keys changes data = Ok (Pulled changes) data.
Proof.
  induction keys as [|k keys IH]; intros changes data; cbn [pull_keys].
  - reflexivity.
  - rewrite Z.sub_diag. cbn [Z.eqb]. apply IH.
Qed.

End Merge.

Section Completion.

Ltac lookup :=
  repeat (rewrite dict_get_set_same || rewrite dict_get_set_other by discriminate).

Lemma existing_artist_set_metadata data metadata i :
  existing_artist (dict_set data "item_metadata" (JDict metadata)) i
  = dict_get_default (sub_dict metadata i) "artist" JNull.
Proof. unfold existing_artist. now rewrite metadata_of_set. Qed.

Lemma existing_artist_after_record now t allow_negative data data' i :
  is_document data = true ->
  record_transaction now t allow_negative data = Ok tt data' ->
  existing_artist data' i
  = if (item t =? i)%string then JStr (artist t) else existing_artist data i.
Proof.
  intros Hdoc E.
  rewrite (record_transaction_document _ _ _ _ Hdoc) in E.
  unfold after_record_transaction in E.
  destruct (artist_mismatch _ _); [discriminate|].
  destruct (insufficient _ _ _); [discriminate|].
  injection E as <-.
  unfold existing_artist at 1.
  rewrite (metadata_of_get_eq
             (after_update_stock (item t) (option t) (location t) (signed_quantity t)
                (bind_artist t (upgrade (after_ensure_period now (period t) data)))))
    by (now apply append_history_get).
  unfold after_update_stock.
  rewrite (metadata_of_get_eq
             (upgrade (bind_artist t (upgrade (after_ensure_period now (period t) data)))))
    by (now rewrite dict_get_set_other by discriminate).
  fold (existing_artist
          (upgrade (bind_artist t (upgrade (after_ensure_period now (period t) data)))) i).
  rewrite existing_artist_upgrade.
  destruct (String.eqb_spec (item t) i) as [<-|Hne].
  - apply existing_artist_bind_artist.
  - unfold bind_artist. rewrite existing_artist_set_metadata.
    rewrite sub_dict_set_other by assumption.
    fold (existing_artist (upgrade (after_ensure_period now (period t) data)) i).
    now rewrite existing_artist_upgrade, existing_artist_after_ensure_period.
Qed.

Lemma merge_artists_bound A google_metadata :
  forall data,
    is_document data = true ->
    (forall i, bound_to A i (existing_artist data i)) ->
    (forall i meta, In (i, JDict meta) google_metadata ->
                    bound_to A i (dict_get_default meta "artist" JNull)) ->
    forall data',
      merge_artists google_metadata data = Ok tt data' ->
      forall i, bound_to A i (existing_artist data' i).
Proof.
  induction google_metadata as [|[item meta] gm IH];
    intros data Hdoc Hb Hg data' E.
  - injection E as <-. assumption.
  - cbn [merge_artists] in E. unfold bind at 1 in E.
    destruct meta as [| | | | |meta]; try discriminate.
    cbn [as_dict] in E. unfold ret at 1 in E. unfold bind at 1 in E.
    destruct (truthy (dict_get_default meta "artist" JNull)) eqn:Et.
    + pose proof Hdoc as Hsh. apply is_document_shape in Hsh.
      destruct Hsh as [stock metadata periods history current Hs Hs' Hm Hm' _ _ _ _ _ _].
      unfold bind at 1 in E. unfold data_setdefault at 1 in E.
      rewrite (get_default_some _ _ _ _ Hm), (dict_setdefault_present _ _ _ _ Hm) in E.
      unfold bind at 1 in E. cbn [as_dict] in E. unfold ret at 1 in E.
      unfold bind at 1 in E. unfold data_set at 1 in E.
      rewrite (info_shape _ item Hm') in E. unfold data_set at 1 in E.
      rewrite dict_set_set in E.
      eapply IH; [| |intros; apply Hg; right; eassumption|exact E].
      * apply is_document_set_metadata; auto. apply all_values_set; auto.
      * intros i. rewrite existing_artist_set_metadata.
        destruct (String.eqb_spec item i) as [<-|Hne].
        -- rewrite sub_dict_set_same. unfold dict_get_default at 1.
           rewrite dict_get_set_same. apply (Hg item meta). now left.
        -- rewrite sub_dict_set_other by assumption.
           specialize (Hb i). unfold existing_artist in Hb.
           now rewrite (metadata_of_get _ _ Hm) in Hb.
    + unfold ret at 1 in E.
      eapply IH; [exact Hdoc|exact Hb|intros; apply Hg; right; eassumption|exact E].
Qed.

Lemma difference_in_snapshots ls gs k :
  difference ls gs k <> 0 ->
  (exists inf, snap_get gs k = Some inf)
  \/ (snap_get gs k = None /\ exists inf, snap_get ls k = Some inf).
Proof.
  unfold difference, snap_get_default. intros H.
  destruct (snap_get gs k) as [g|]; [left; eauto|right].
  split; auto. destruct (snap_get ls k) as [l|]; [eauto|]. now simpl in H.
Qed.

Lemma truthy_name a : a <> "" -> truthy (JStr a) = true.
Proof. intros H. simpl. now destruct (String.eqb_spec a ""). Qed.

Lemma choose_artist_bound A ls gs c i o l data :
  snapshot_bound A ls -> snapshot_bound A gs ->
  difference ls gs (c, i, o, l) <> 0 ->
  choose_artist (snap_get_default gs (c, i, o, l))
    (snap_get_default ls (c, i, o, l)) data
  = Ok (A i) data.
Proof.
  intros Hl Hg Hd. unfold choose_artist, snap_get_default.
  destruct (difference_in_snapshots _ _ _ Hd) as [[g Eg]|[Eg [lo El]]]; rewrite Eg.
  - destruct (Hg _ _ _ _ _ Eg) as [-> Hne].
    now rewrite !(truthy_name _ Hne).
  - rewrite El. cbn [default_info snap_artist truthy String.eqb negb].
    destruct (Hl _ _ _ _ _ El) as [-> Hne].
    now rewrite (truthy_name _ Hne).
Qed.

(** With the two sides agreeing on the artist of every item, the loop never
    stops early. *)
Lemma pull_keys_completes A clock now actor ls gs keys :
  snapshot_bound A ls -> snapshot_bound A gs ->
  forall changes data,
    is_document data = true ->
    (forall i, bound_to A i (existing_artist data i)) ->
    exists n data',
      pull_keys clock now actor ls gs keys changes data = Ok (Pulled n) data'.
Proof.
  intros Hl Hg.
  induction keys as [|k keys IH]; intros changes data Hdoc Hb; cbn [pull_keys].
  - do 2 eexists. reflexivity.
  - fold (difference ls gs k).
    destruct (Z.eqb_spec (difference ls gs k) 0) as [Hz|Hnz]; [now apply IH|].
    destruct k as [[[c i] o] l].
    unfold bind at 1. rewrite (choose_artist_bound A); auto.
    set (t := correction now actor (c, i, o, l) (A i) _ _).
    assert (Hok : exists data1,
               record_transaction (clock changes) t true data = Ok tt data1).
    { rewrite (record_transaction_document _ _ _ _ Hdoc).
      unfold after_record_transaction.
      rewrite artist_mismatch_prepared, insufficient_prepared.
      assert (artist_mismatch t data = false) as ->.
      { unfold artist_mismatch. change (item t) with i. change (artist t) with (A i).
        destruct (truthy (existing_artist data i)) eqn:Et; [|reflexivity].
        rewrite (Hb i Et). simpl. now rewrite String.eqb_refl. }
      unfold insufficient. rewrite andb_false_r. eauto. }
    destruct Hok as [data1 E1]. rewrite E1.
    destruct (record_transaction_effect _ _ _ _ _ Hdoc E1) as (Hd1 & _).
    apply IH; auto.
    intros i'. rewrite (existing_artist_after_record _ _ _ _ _ _ Hdoc E1).
    change (item t) with i. change (artist t) with (A i).
    destruct (String.eqb_spec i i') as [<-|]; [now intros _|apply Hb].
Qed.

(** The pull completes when the two documents agree on the artist of every
    item and every stocked item has one. *)
Lemma pull_completes A clock now actor google data ls gs :
  is_document data = true -> is_document google = true ->
  _build_stock_snapshot data = Return ls ->
  _build_stock_snapshot google = Return gs ->
  (forall i, bound_to A i (existing_artist data i)) ->
  (forall i meta, In (i, JDict meta) (metadata_of google) ->
                  bound_to A i (dict_get_default meta "artist" JNull)) ->
  snapshot_bound A ls -> snapshot_bound A gs ->
  exists n data',
    sync_google_drive clock now actor google data = Ok (Pulled n) data'.
Proof.
  intros Hdoc Hgdoc Els Egs Hb Hgb Hl Hg.
  pose proof Hgdoc as Hsh. apply is_document_shape in Hsh.
  destruct Hsh as [? gm ? ? ? _ _ Hm Hm' _ _ _ _ _ _].
  rewrite (metadata_of_get _ _ Hm) in Hgb.
  destruct (merge_artists_document gm Hm' data Hdoc) as (d1 & E1 & Hd1 & _).
  pose proof (merge_artists_bound A gm data Hdoc Hb Hgb d1 E1) as Hb1.
  destruct (pull_keys_completes A clock now actor ls gs (all_keys ls gs)
              Hl Hg 0%nat d1 Hd1 Hb1) as (n & data' & E).
  exists n, data'. unfold sync_google_drive.
  unfold bind at 1. unfold get_data at 1. rewrite Els.
  unfold bind at 1. cbn [lift]. unfold ret at 1. rewrite Egs.
  unfold bind at 1. cbn [lift]. unfold ret at 1.
  unfold bind at 1. rewrite (get_default_some _ _ _ _ Hm). cbn [dict_of lift].
  unfold ret at 1. unfold bind at 1. now rewrite E1.
Qed.

End Completion.

(** C3 fails on the code: the local document has 6 units of "Album X" at
    Seoul under ArtistA, the sheet has the item under ArtistB with 2 units at
    Busan and none at Seoul. [sync_google_drive] takes the local snapshot
    before it copies the artists of the sheet into the local metadata; the
    correction for Busan is recorded, and the correction for Seoul, a key of
    the local snapshot only, is made under the artist of that snapshot, which
    the metadata no longer has, and is refused by the artist check: the pull
    stops, no transaction is recorded for that key, where the two quantities
    differ, and Seoul keeps its 6 units. *)
Lemma pull_counterexample :
  exists ls gs data',
    _build_stock_snapshot scenario_B = Return ls
    /\ _build_stock_snapshot (sheet "ArtistB" "Busan" 2) = Return gs
    /\ In ("album", "Album X", "", "Seoul") (all_keys ls gs)
    /\ snap_qty (snap_get_default ls ("album", "Album X", "", "Seoul")) = 6
    /\ snap_qty (snap_get_default gs ("album", "Album X", "", "Seoul")) = 0
    /\ sync_google_drive sync_clock april_2 "operator" (sheet "ArtistB" "Busan" 2)
         scenario_B
       = Ok (Stopped (ValueError (ArtistMismatch "Album X" (JStr "ArtistB"))) 1)
           data'
    /\ stock_qty (stock_of data') "Album X" "" "Seoul" = 6
    /\ List.length (history_of data') = S (List.length (history_of scenario_B)).
Proof.
  do 3 eexists.
  split; [vm_compute; reflexivity|].
  split; [vm_compute; reflexivity|].
  split; [vm_compute; auto|].
  split; [vm_compute; reflexivity|].
  split; [vm_compute; reflexivity|].
  split; [vm_compute; reflexivity|].
  split; vm_compute; reflexivity.
Qed.

(** What a pull does when nothing stops it. For documents of the current
    schema with the snapshots
    [ls] (local) and [gs] (sheet): pulling a document from itself records no
    transaction and leaves stock and history as they are; and when a pull runs
    to its end, it has recorded no transaction for a key whose two
    quantities are equal and exactly one, in the order of the sorted keys,
    for each key where they differ, of type "in" when sheet minus local is
    positive and "out" otherwise, of quantity the absolute difference, at the
    item/option/location of the key, and every local quantity has become
    the quantity of the sheet. *)
Theorem pull_reconciles clock now actor google data ls gs :
  is_document data = true -> well_keyed (stock_of data) = true ->
  is_document google = true -> well_keyed (stock_of google) = true ->
  _build_stock_snapshot data = Return ls ->
  _build_stock_snapshot google = Return gs ->
  (exists data',
      sync_google_drive clock now actor data data = Ok (Pulled 0) data'
      /\ history_of data' = history_of data
      /\ dict_get data' "stock" = dict_get data "stock")
  /\ forall n data',
       sync_google_drive clock now actor google data = Ok (Pulled n) data' ->
       n = List.length (filter (differs ls gs) (all_keys ls gs))
       /\ (exists txs,
              history_of data'
              = history_of data ++ map (fun t => JDict (to_dict t)) txs
              /\ Forall2 (corrects ls gs)
                   (filter (differs ls gs) (all_keys ls gs)) txs)
       /\ forall i o l,
            stock_qty (stock_of data') i o l = stock_qty (stock_of google) i o l.
Proof.
  intros Hdoc Hw Hgdoc Hgw Els Egs.
  assert (Hmeta : forall d, is_document d = true ->
            exists m, dict_get_default d "item_metadata" (JDict []) = JDict m
                      /\ all_values isinstance_dict m = true).
  { intros d Hd. apply is_document_shape in Hd. destruct Hd.
    exists metadata. split; auto. eapply get_default_some; eauto. }
  split.
  - destruct (Hmeta _ Hdoc) as (m & Em & Hm).
    destruct (merge_artists_document m Hm data Hdoc) as (d1 & E1 & Hd1 & Hs1 & Hh1).
    exists d1. unfold sync_google_drive.
    unfold bind at 1. unfold get_data at 1. rewrite Els.
    unfold bind at 1. cbn [lift]. unfold ret at 1.
    unfold bind at 1. cbn [lift]. unfold ret at 1.
    unfold bind at 1. rewrite Em. cbn [dict_of lift]. unfold ret at 1.
    unfold bind at 1. rewrite E1.
    split; [apply pull_keys_same|].
    split; [now apply history_of_get|assumption].
  - intros n data' E.
    destruct (Hmeta _ Hgdoc) as (m & Em & Hm).
    destruct (merge_artists_document m Hm data Hdoc) as (d1 & E1 & Hd1 & Hs1 & Hh1).
    unfold sync_google_drive in E.
    unfold bind at 1 in E. unfold get_data at 1 in E. rewrite Els in E.
    unfold bind at 1 in E. cbn [lift] in E. unfold ret at 1 in E.
    rewrite Egs in E.
    unfold bind at 1 in E. cbn [lift] in E. unfold ret at 1 in E.
    unfold bind at 1 in E. rewrite Em in E. cbn [dict_of lift] in E.
    unfold ret at 1 in E. unfold bind at 1 in E. rewrite E1 in E.
    destruct (pull_keys_pulled _ _ _ _ _ _ _ _ _ _ Hd1 E)
      as (_ & Hn & (txs & Hh & Htxs) & Hq).
    split; [exact Hn|]. split.
    + exists txs. split; [|exact Htxs].
      rewrite Hh. f_equal. now apply history_of_get.
    + intros i o l. rewrite Hq, sum_at_difference.
      rewrite (snapshot_sum google gs), (snapshot_sum data ls);
        auto using all_keys_NoDup.
      * rewrite (stock_of_get data d1) by assumption. lia.
      * intros k Hk. apply all_keys_In. now left.
      * intros k Hk. apply all_keys_In. now right.
Qed.

Lemma pull_reconciles_witness :
  exists data',
    sync_google_drive sync_clock april_2 "operator" (sheet "ArtistA" "Seoul" 9)
      scenario_B
    = Ok (Pulled 1) data'
    /\ stock_qty (stock_of scenario_B) "Album X" "" "Seoul" = 6
    /\ stock_qty (stock_of data') "Album X" "" "Seoul" = 9
    /\ exists t,
         history_of data' = history_of scenario_B ++ [JDict (to_dict t)]
         /\ type t = "in" /\ quantity t = 3.
Proof.
  exists (final (sync_google_drive sync_clock april_2 "operator"
                   (sheet "ArtistA" "Seoul" 9) scenario_B)).
  split; [vm_compute; reflexivity|].
  split; [vm_compute; reflexivity|].
  destruct (pull_reconciles sync_clock april_2 "operator"
              (sheet "ArtistA" "Seoul" 9) scenario_B
              [ (("album", "Album X", "", "Seoul"),
                 mk_info 6 (JStr "ArtistA") "album") ]
              [ (("album", "Album X", "", "Seoul"),
                 mk_info 9 (JStr "ArtistA") "album") ])
    as [_ H]; try (vm_compute; reflexivity).
  destruct (H 1%nat
              (final (sync_google_drive sync_clock april_2 "operator"
                        (sheet "ArtistA" "Seoul" 9) scenario_B)))
    as (_ & (txs & Hh & Htxs) & Hq); [vm_compute; reflexivity|].
  split; [rewrite Hq; vm_compute; reflexivity|].
  change (filter _ _) with [("album", "Album X", "", "Seoul")] in Htxs.
  inversion Htxs as [|k t ks ts (Ht & Hqty & _) Hrest]; subst.
  inversion Hrest; subst.
  exists t. split; [exact Hh|]. split; [exact Ht|exact Hqty].
Defined.

(* ================================================================== *)
(** ** The schema upgrader on arbitrary documents *)
(* ================================================================== *)

Section RawUpgrade.

Ltac lookup :=
  repeat (rewrite dict_get_set_same || rewrite dict_get_set_other by discriminate).

Lemma dict_set_setdefault (d : pydict) k x v :
  dict_set (dict_setdefault d k x) k v = dict_set d k v.
Proof.
  unfold dict_setdefault. destruct (dict_get d k); [reflexivity|apply dict_set_set].
Qed.

(** A run that returns normally, read backwards. *)
Lemma ensure_new_schema_returns data stock data' :
  dict_get data "stock" = Some (JDict stock) ->
  _ensure_new_schema data = Ok tt data' ->
  data' = full_upgrade data stock
  /\ (dict_get data "item_metadata" = None
      \/ exists m, dict_get data "item_metadata" = Some (JDict m))
  /\ (dict_get data "periods" = None
      \/ exists p, dict_get data "periods" = Some (JDict p)
                   /\ snd (for_values upgrade_period_info p) = None)
  /\ (dict_get data "history" = None
      \/ exists h, dict_get data "history" = Some h
                   /\ snd (upgrade_history h) = None).
Proof.
  intros Hs E. unfold _ensure_new_schema in E.
  unfold bind at 1 in E. unfold get_data at 1 in E. rewrite Hs in E.
  unfold bind at 1 in E. unfold data_set at 1 in E.
  unfold bind at 1 in E. unfold data_setdefault at 1 in E.
  unfold dict_get_default at 1 in E. rewrite dict_get_set_other in E by discriminate.
  unfold full_upgrade. cbv zeta.
  assert (Hm : exists m,
             match dict_get data "item_metadata" with
             | Some v => v | None => JDict [] end = JDict m
             /\ sub_dict data "item_metadata" = m
             /\ (dict_get data "item_metadata" = None
                 \/ exists m, dict_get data "item_metadata" = Some (JDict m))).
  { unfold sub_dict.
    destruct (dict_get data "item_metadata") as [[| | | | |m]|]; try discriminate;
      eauto 6. }
  destruct Hm as (m & Em & Em' & Hmeta). rewrite Em in E. rewrite Em'.
  unfold bind at 1 in E. cbn [as_dict] in E. unfold ret at 1 in E.
  unfold bind at 1 in E. unfold data_set at 1 in E.
  rewrite dict_set_setdefault in E.
  unfold bind at 1 in E. unfold bind at 1 in E. unfold get_data at 1 in E.
  rewrite !dict_get_set_other in E by discriminate.
  unfold upgraded_periods, upgraded_history.
  set (d3 := dict_set (dict_set data "stock" _) "item_metadata" _) in *.
  assert (Hp : exists d4,
             d4 = match dict_get data "periods" with
                  | Some (JDict p) =>
                      dict_set d3 "periods"
                        (JDict (fst (for_values upgrade_period_info p)))
                  | _ => d3
                  end
             /\ match dict_get data "periods" with
                | Some periods =>
                    periods0 <- as_dict periods;;
                    (let (periods', e) := for_values upgrade_period_info periods0 in
                     store "periods" (JDict periods', e))
                | None => ret tt
                end d3 = Ok tt d4
             /\ (dict_get data "periods" = None
                 \/ exists p, dict_get data "periods" = Some (JDict p)
                              /\ snd (for_values upgrade_period_info p) = None)).
  { destruct (dict_get data "periods") as [v|]; [|eauto].
    destruct v as [| | | | |p];
      try (unfold bind at 1 in E; cbn [as_dict] in E; unfold raise in E;
           discriminate E).
    unfold bind at 1 in E. cbn [as_dict] in E. unfold ret at 1 in E.
    unfold bind at 1. cbn [as_dict]. unfold ret at 1.
    destruct (for_values upgrade_period_info p) as [p' [e|]] eqn:Ef;
      [discriminate|]. eexists. split; [reflexivity|]. split; [reflexivity|].
    right. exists p. now rewrite Ef. }
  destruct Hp as (d4 & Ed4 & Ep & Hperiods). rewrite Ep in E. rewrite <- Ed4.
  unfold bind at 1 in E. unfold bind at 1 in E. unfold get_data at 1 in E.
  assert (Hh4 : dict_get d4 "history" = dict_get data "history").
  { rewrite Ed4. unfold d3.
    destruct (dict_get data "periods") as [[]|]; now lookup. }
  rewrite Hh4 in E.
  assert (Hhist : exists d5,
             d5 = match dict_get data "history" with
                  | Some h => dict_set d4 "history" (fst (upgrade_history h))
                  | None => d4
                  end
             /\ match dict_get data "history" with
                | Some history => store "history" (upgrade_history history)
                | None => ret tt
                end d4 = Ok tt d5
             /\ (dict_get data "history" = None
                 \/ exists h, dict_get data "history" = Some h
                              /\ snd (upgrade_history h) = None)).
  { destruct (dict_get data "history") as [h|]; [|eauto].
    unfold store in *. destruct (upgrade_history h) as [h' [e|]] eqn:Ef;
      [discriminate|]. eexists. split; [reflexivity|]. split; [reflexivity|].
    right. exists h. now rewrite Ef. }
  destruct Hhist as (d5 & Ed5 & Eh & Hhistory). rewrite Eh in E. rewrite <- Ed5.
  assert (Hm5 : dict_get d5 "item_metadata"
                = Some (JDict (map_values upgrade_last_audit m))).
  { rewrite Ed5, Ed4. unfold d3.
    destruct (dict_get data "history"); destruct (dict_get data "periods") as [[]|];
      now lookup. }
  unfold bind at 1 in E. unfold data_get at 1 in E.
  rewrite (get_default_some _ _ _ _ Hm5) in E.
  unfold bind at 1 in E. cbn [as_dict] in E. unfold ret at 1 in E.
  unfold data_set in E. injection E as <-.
  repeat split; auto.
Qed.

End RawUpgrade.

Section RawUpgradeFacts.

Ltac lookup :=
  repeat (rewrite dict_get_set_same || rewrite dict_get_set_other by discriminate).

Lemma dict_get_setdefault (d : pydict) k x k' :
  dict_get (dict_setdefault d k x) k'
  = match dict_get d k' with
    | Some v => Some v
    | None => if (k =? k')%string then Some x else None
    end.
Proof.
  unfold dict_setdefault. destruct (dict_get d k) eqn:E.
  - destruct (dict_get d k') eqn:E'; auto.
    destruct (String.eqb_spec k k'); congruence.
  - destruct (String.eqb_spec k k') as [<-|Hne].
    + now rewrite dict_get_set_same, E.
    + rewrite dict_get_set_other by assumption. now destruct (dict_get d k').
Qed.

Lemma upgrade_entry_completes v v' :
  upgrade_entry v = (v', None) -> completes v v'.
Proof.
  destruct v as [| | | | |e]; try discriminate. simpl. intros E.
  injection E as <-. exists e. eexists. split; [reflexivity|].
  split; [reflexivity|]. intros k. rewrite !dict_get_setdefault.
  unfold entry_default. rewrite !(String.eqb_sym k).
  destruct (dict_get e k); auto.
  destruct (String.eqb "event" k); auto.
  destruct (String.eqb "event_id" k); auto.
  destruct (String.eqb "event_open" k); auto.
Qed.

Lemma for_items_Forall2 f l l' :
  for_items f l = (l', None) -> Forall2 (fun v v' => f v = (v', None)) l l'.
Proof.
  revert l'. induction l as [|v l IH]; simpl; intros l' E.
  - injection E as <-. constructor.
  - destruct (f v) as [v' [e|]] eqn:Ev; [discriminate|].
    destruct (for_items f l) as [r [e|]] eqn:Er; [discriminate|].
    injection E as <-. constructor; auto.
Qed.

Lemma for_values_Forall2 f d d' :
  for_values f d = (d', None) ->
  Forall2 (fun kv kv' => fst kv' = fst kv /\ f (snd kv) = (snd kv', None)) d d'.
Proof.
  revert d'. induction d as [|[k v] d IH]; simpl; intros d' E.
  - injection E as <-. constructor.
  - destruct (f v) as [v' [e|]] eqn:Ev; [discriminate|].
    destruct (for_values f d) as [r [e|]] eqn:Er; [discriminate|].
    injection E as <-. constructor; auto.
Qed.

Lemma completes_is_entry v v' : completes v v' -> is_entry v' = true.
Proof.
  intros (e & e' & -> & -> & H). unfold is_entry, dict_mem.
  rewrite !H. unfold entry_default. simpl.
  destruct (dict_get e "event"), (dict_get e "event_id"),
    (dict_get e "event_open"), (dict_get e "category"); reflexivity.
Qed.

Lemma full_upgrade_history data stock :
  dict_get (full_upgrade data stock) "history"
  = option_map (fun h => fst (upgrade_history h)) (dict_get data "history").
Proof.
  unfold full_upgrade, upgraded_history, upgraded_periods. cbv zeta.
  rewrite dict_get_set_other by discriminate.
  destruct (dict_get data "history") as [h|] eqn:Eh; simpl.
  - now rewrite dict_get_set_same.
  - destruct (dict_get data "periods") as [[]|]; lookup; assumption.
Qed.

End RawUpgradeFacts.

(** X1: when [stock] is a dictionary and the run returns normally, every
    item of the history list has become an entry with [event], [event_id],
    [event_open] and [category]: a field that was there keeps its value, a
    missing one of the four gets [False], [""], [False], ["album"], and no
    other field appears. *)
Theorem upgrade_completes_history data stock h data' :
  dict_get data "stock" = Some (JDict stock) ->
  dict_get data "history" = Some (JList h) ->
  _ensure_new_schema data = Ok tt data' ->
  exists h',
    dict_get data' "history" = Some (JList h')
    /\ Forall2 completes h h'
    /\ forallb is_entry h' = true.
Proof.
  intros Hs Hh E.
  destruct (ensure_new_schema_returns _ _ _ Hs E) as (-> & _ & _ & Hhist).
  destruct Hhist as [Hn|(h0 & Eh & Hok)]; [congruence|].
  rewrite Hh in Eh. injection Eh as <-.
  rewrite full_upgrade_history, Hh. simpl in *.
  destruct (for_items upgrade_entry h) as [h' e] eqn:Ef. simpl in Hok. subst e.
  exists h'. split; [reflexivity|].
  apply for_items_Forall2 in Ef.
  assert (Hc : Forall2 completes h h').
  { clear - Ef. induction Ef as [|v v' l l' Hv _ IH]; constructor;
      [now apply upgrade_entry_completes|assumption]. }
  split; [exact Hc|].
  apply forallb_forall. intros v' Hin.
  clear - Hc Hin. induction Hc as [|v w l l' Hvw _ IH]; [contradiction|].
  destruct Hin as [<-|Hin]; [eapply completes_is_entry; eauto|auto].
Qed.

Lemma upgrade_completes_history_witness :
  exists h',
    dict_get (final (_ensure_new_schema
                       (("stock", JDict []) :: document_without_stock)))
      "history" = Some (JList h')
    /\ Forall2 completes (history_of document_without_stock) h'
    /\ forallb is_entry h' = true.
Proof.
  apply (upgrade_completes_history
           (("stock", JDict []) :: document_without_stock) []
           (history_of document_without_stock));
    reflexivity.
Defined.

Section RawIdempotence.

Ltac lookup :=
  repeat (rewrite dict_get_set_same || rewrite dict_get_set_other by discriminate).

Lemma upgrade_stock_item_twice v :
  upgrade_stock_item (upgrade_stock_item v) = upgrade_stock_item v.
Proof.
  destruct v as [| | | | |d]; try reflexivity.
  cbn [upgrade_stock_item].
  destruct (truthy (JDict d) && forallb isinstance_int (dict_values d)) eqn:E.
  - reflexivity.
  - cbn [upgrade_stock_item]. now rewrite E.
Qed.

Lemma upgrade_opening_item_twice v v' :
  upgrade_opening_item v = (v', None) -> upgrade_opening_item v' = (v', None).
Proof.
  unfold upgrade_opening_item. destruct (truthy v) eqn:Et.
  - destruct v as [| | | | |d]; try discriminate.
    destruct (forallb isinstance_int (dict_values d)) eqn:E; intros H;
      injection H as <-.
    + reflexivity.
    + now rewrite Et, E.
  - intros H. injection H as <-. now rewrite Et.
Qed.

Lemma for_values_twice f d d' :
  (forall v v', f v = (v', None) -> f v' = (v', None)) ->
  for_values f d = (d', None) -> for_values f d' = (d', None).
Proof.
  intros Hf E. apply for_values_Forall2 in E.
  induction E as [|[k v] [k' v'] d d' [Hk Hv] _ IH]; [reflexivity|].
  simpl in *. subst k'. rewrite (Hf _ _ Hv), IH. reflexivity.
Qed.

Lemma for_items_twice f l l' :
  (forall v v', f v = (v', None) -> f v' = (v', None)) ->
  for_items f l = (l', None) -> for_items f l' = (l', None).
Proof.
  intros Hf E. apply for_items_Forall2 in E.
  induction E as [|v v' l l' Hv _ IH]; [reflexivity|].
  simpl. rewrite (Hf _ _ Hv), IH. reflexivity.
Qed.

Lemma upgrade_period_info_twice v v' :
  upgrade_period_info v = (v', None) -> upgrade_period_info v' = (v', None).
Proof.
  destruct v as [| | | | |pi]; try discriminate. simpl.
  destruct (dict_get pi "opening_stock") as [[| | | | |opening]|] eqn:Eo;
    try (intros H; injection H as <-; simpl; rewrite dict_get_set_same;
         simpl; now rewrite dict_set_set).
  destruct (for_values upgrade_opening_item opening) as [opening' e] eqn:Ef.
  intros H. injection H as <- ->. simpl. rewrite dict_get_set_same.
  rewrite (for_values_twice _ _ _ upgrade_opening_item_twice Ef).
  now rewrite dict_set_set.
Qed.

Lemma upgrade_entry_twice v v' :
  upgrade_entry v = (v', None) -> upgrade_entry v' = (v', None).
Proof.
  intros H. apply upgrade_entry_id. eapply completes_is_entry.
  eapply upgrade_entry_completes; eauto.
Qed.

Lemma upgrade_history_twice h h' :
  upgrade_history h = (h', None) -> upgrade_history h' = (h', None).
Proof.
  destruct h as [| | |s|l|d]; simpl; try discriminate.
  - destruct (negb (s =? "")%string) eqn:E; intros H; [discriminate|].
    injection H as <-. simpl. now rewrite E.
  - destruct (for_items upgrade_entry l) as [l' e] eqn:Ef.
    intros H. injection H as <- ->. simpl.
    now rewrite (for_items_twice _ _ _ upgrade_entry_twice Ef).
  - destruct d; intros H; [|discriminate]. now injection H as <-.
Qed.

Lemma get_default_set_same (d : pydict) k v x :
  dict_get_default (dict_set d k v) k x = v.
Proof. unfold dict_get_default. now rewrite dict_get_set_same. Qed.

Lemma get_default_set_other (d : pydict) k k' v x :
  k <> k' -> dict_get_default (dict_set d k v) k' x = dict_get_default d k' x.
Proof. intros H. unfold dict_get_default. now rewrite dict_get_set_other. Qed.

Lemma upgraded_info_current i :
  is_current_info (default_category (upgrade_last_audit (JDict i))) = true.
Proof.
  cbn [upgrade_last_audit].
  destruct (isinstance_dict (dict_get_default i "last_audit" JNull)) eqn:Ea;
    cbn [negb default_category].
  - destruct (truthy (dict_get_default i "category" JNull)) eqn:Ec;
      cbn [negb is_current_info].
    + now rewrite Ea, Ec.
    + rewrite get_default_set_same, get_default_set_other by discriminate.
      now rewrite Ea.
  - rewrite get_default_set_other by discriminate.
    destruct (truthy (dict_get_default i "category" JNull)) eqn:Ec;
      cbn [negb is_current_info].
    + rewrite get_default_set_same, get_default_set_other by discriminate.
      now rewrite Ec.
    + rewrite get_default_set_same, get_default_set_other by discriminate.
      now rewrite get_default_set_same.
Qed.

Lemma upgrade_metadata_current m :
  all_values (fun v => negb (isinstance_dict v) || is_current_info v)
    (upgrade_metadata m) = true.
Proof.
  unfold upgrade_metadata, all_values, map_values. apply forallb_forall.
  intros kv Hin. apply in_map_iff in Hin as [[k v] [<- Hin]].
  apply in_map_iff in Hin as [[k' v'] [E Hin]]. inversion E; subst.
  cbn [fst snd].
  destruct v' as [| | | | |i]; try reflexivity.
  rewrite upgraded_info_current. apply orb_true_r.
Qed.

Lemma upgrade_last_audit_fixed v :
  negb (isinstance_dict v) || is_current_info v = true ->
  upgrade_last_audit v = v.
Proof.
  destruct v as [| | | | |i]; try reflexivity. simpl.
  rewrite andb_true_iff. now intros [-> _].
Qed.

Lemma default_category_fixed v :
  negb (isinstance_dict v) || is_current_info v = true ->
  default_category v = v.
Proof.
  destruct v as [| | | | |i]; try reflexivity. simpl.
  rewrite andb_true_iff. now intros [_ ->].
Qed.

Lemma map_values_twice f (d : pydict) :
  (forall v, f (f v) = f v) -> map_values f (map_values f d) = map_values f d.
Proof.
  intros H. unfold map_values. rewrite map_map. apply map_ext.
  intros [k v]. simpl. now rewrite H.
Qed.

Lemma full_upgrade_get_stock data stock :
  dict_get (full_upgrade data stock) "stock"
  = Some (JDict (map_values upgrade_stock_item stock)).
Proof.
  unfold full_upgrade, upgraded_history, upgraded_periods. cbv zeta.
  destruct (dict_get data "history"); destruct (dict_get data "periods") as [[]|];
    now lookup.
Qed.

Lemma full_upgrade_get_metadata data stock :
  dict_get (full_upgrade data stock) "item_metadata"
  = Some (JDict (upgrade_metadata (sub_dict data "item_metadata"))).
Proof. unfold full_upgrade. cbv zeta. now lookup. Qed.

Lemma full_upgrade_get_periods data stock :
  dict_get (full_upgrade data stock) "periods"
  = match dict_get data "periods" with
    | Some (JDict p) => Some (JDict (fst (for_values upgrade_period_info p)))
    | other => other
    end.
Proof.
  unfold full_upgrade, upgraded_history, upgraded_periods. cbv zeta.
  destruct (dict_get data "history");
    destruct (dict_get data "periods") as [[]|] eqn:Ep; lookup; auto.
Qed.

Lemma full_upgrade_get_other data stock k :
  k <> "stock" -> k <> "item_metadata" -> k <> "periods" -> k <> "history" ->
  dict_get (full_upgrade data stock) k = dict_get data k.
Proof.
  intros H1 H2 H3 H4.
  unfold full_upgrade, upgraded_history, upgraded_periods. cbv zeta.
  destruct (dict_get data "history");
    destruct (dict_get data "periods") as [[]|];
    now rewrite !dict_get_set_other by congruence.
Qed.

End RawIdempotence.

(** X2: whenever [stock] is a dictionary and a run of the upgrader returns
    normally, a second run returns normally too and changes nothing. *)
Theorem upgrade_idempotent data stock data' :
  dict_get data "stock" = Some (JDict stock) ->
  _ensure_new_schema data = Ok tt data' ->
  _ensure_new_schema data' = Ok tt data'.
Proof.
  intros Hs E.
  destruct (ensure_new_schema_returns _ _ _ Hs E) as (-> & Hmeta & Hper & Hhist).
  set (d := full_upgrade data stock).
  pose proof (full_upgrade_get_stock data stock) as Gs.
  pose proof (full_upgrade_get_metadata data stock) as Gm.
  pose proof (full_upgrade_get_periods data stock) as Gp.
  pose proof (full_upgrade_history data stock) as Gh.
  fold d in Gs, Gm, Gp, Gh.
  pose proof (upgrade_metadata_current (sub_dict data "item_metadata")) as Hcur.
  assert (Hfix1 : map_values upgrade_last_audit
                    (upgrade_metadata (sub_dict data "item_metadata"))
                  = upgrade_metadata (sub_dict data "item_metadata")).
  { apply map_values_id. intros k v Hin. apply upgrade_last_audit_fixed.
    apply (all_values_In _ _ _ _ Hcur Hin). }
  assert (Hfix2 : map_values default_category
                    (upgrade_metadata (sub_dict data "item_metadata"))
                  = upgrade_metadata (sub_dict data "item_metadata")).
  { apply map_values_id. intros k v Hin. apply default_category_fixed.
    apply (all_values_In _ _ _ _ Hcur Hin). }
  unfold _ensure_new_schema.
  unfold bind at 1. unfold get_data at 1. rewrite Gs.
  unfold bind at 1. unfold data_set at 1.
  rewrite map_values_twice by apply upgrade_stock_item_twice.
  rewrite (dict_set_get_id _ _ _ Gs).
  unfold bind at 1. unfold data_setdefault at 1.
  rewrite (get_default_some _ _ _ _ Gm), (dict_setdefault_present _ _ _ _ Gm).
  unfold bind at 1. cbn [as_dict]. unfold ret at 1.
  unfold bind at 1. unfold data_set at 1.
  rewrite Hfix1, (dict_set_get_id _ _ _ Gm).
  unfold bind at 1. unfold bind at 1. unfold get_data at 1.
  assert (Ep : match dict_get d "periods" with
               | Some periods =>
                   periods0 <- as_dict periods;;
                   (let (periods', e) := for_values upgrade_period_info periods0 in
                    store "periods" (JDict periods', e))
               | None => ret tt
               end d = Ok tt d).
  { destruct Hper as [Hn|(p & Hp & Hok)]; rewrite Gp; rewrite ?Hn, ?Hp in *;
      [reflexivity|].
    cbv iota in Gp |- *.
    destruct (for_values upgrade_period_info p) as [p' e] eqn:Ef.
    simpl in Hok. subst e. cbn [fst] in Gp |- *.
    unfold bind at 1. cbn [as_dict]. unfold ret at 1.
    rewrite (for_values_twice _ _ _ upgrade_period_info_twice Ef).
    unfold store. f_equal. now apply dict_set_get_id. }
  rewrite Ep.
  unfold bind at 1. unfold bind at 1. unfold get_data at 1.
  assert (Eh : match dict_get d "history" with
               | Some history => store "history" (upgrade_history history)
               | None => ret tt
               end d = Ok tt d).
  { destruct Hhist as [Hn|(h & Hh & Hok)]; rewrite Gh; rewrite ?Hn, ?Hh in *;
      [reflexivity|].
    cbn [option_map] in Gh |- *.
    destruct (upgrade_history h) as [h' e] eqn:Ef.
    simpl in Hok. subst e. cbn [fst] in Gh |- *.
    rewrite (upgrade_history_twice _ _ Ef).
    unfold store. f_equal. now apply dict_set_get_id. }
  rewrite Eh.
  unfold bind at 1. unfold data_get at 1. rewrite (get_default_some _ _ _ _ Gm).
  unfold bind at 1. cbn [as_dict]. unfold ret at 1.
  unfold data_set. now rewrite Hfix2, (dict_set_get_id _ _ _ Gm).
Qed.

Lemma upgrade_idempotent_witness :
  exists data',
    _ensure_new_schema (("stock", JDict [("Album X", JDict [("Seoul", JInt 3)])])
                          :: document_without_stock)
    = Ok tt data'
    /\ _ensure_new_schema data' = Ok tt data'
    /\ stock_lookup (stock_of data') "Album X" "" "Seoul" = Some (JInt 3).
Proof.
  eexists. split; [reflexivity|]. split; [|reflexivity].
  apply (upgrade_idempotent
           (("stock", JDict [("Album X", JDict [("Seoul", JInt 3)])])
              :: document_without_stock)
           [("Album X", JDict [("Seoul", JInt 3)])]);
    reflexivity.
Defined.

Section Frames.

Context {ks : list string}.

Lemma writes_only_ret {A} (a : A) : writes_only ks (ret a).
Proof. intros d k _. reflexivity. Qed.

Lemma writes_only_raise {A} e : writes_only ks (@raise A e).
Proof. intros d k _. reflexivity. Qed.

Lemma writes_only_get_data : writes_only ks get_data.
Proof. intros d k _. reflexivity. Qed.

Lemma writes_only_data_get k0 x : writes_only ks (data_get k0 x).
Proof. intros d k _. reflexivity. Qed.

Lemma writes_only_data_item k0 : writes_only ks (data_item k0).
Proof. intros d k _. unfold data_item. now destruct (dict_get d k0). Qed.

Lemma writes_only_as_dict v : writes_only ks (as_dict v).
Proof. intros d k _. now destruct v. Qed.

Lemma writes_only_data_set k0 v : In k0 ks -> writes_only ks (data_set k0 v).
Proof.
  intros Hin d k Hk. simpl. apply dict_get_set_other. intros ->. tauto.
Qed.

Lemma writes_only_data_setdefault k0 v :
  In k0 ks -> writes_only ks (data_setdefault k0 v).
Proof.
  intros Hin d k Hk. simpl. unfold dict_setdefault.
  destruct (dict_get d k0); [reflexivity|].
  apply dict_get_set_other. intros ->. tauto.
Qed.

Lemma writes_only_store k0 r : In k0 ks -> writes_only ks (store k0 r).
Proof.
  intros Hin d k Hk. destruct r as [v [e|]]; simpl;
    apply dict_get_set_other; intros ->; tauto.
Qed.

Lemma writes_only_bind {A B} (m : M A) (f : A -> M B) :
  writes_only ks m -> (forall a, writes_only ks (f a)) ->
  writes_only ks (bind m f).
Proof.
  intros Hm Hf d k Hk. unfold bind. specialize (Hm d k Hk).
  destruct (m d) as [a d'|e d']; simpl in *; [|assumption].
  now rewrite (Hf a d' k Hk).
Qed.

End Frames.

Ltac frame_step :=
  first
    [ apply writes_only_bind; [|intros ?]
    | apply writes_only_ret
    | apply writes_only_raise
    | apply writes_only_get_data
    | apply writes_only_data_get
    | apply writes_only_data_item
    | apply writes_only_as_dict
    | apply writes_only_data_set; simpl; tauto
    | apply writes_only_data_setdefault; simpl; tauto
    | apply writes_only_store; simpl; tauto
    | match goal with
      | |- writes_only _ (match ?x with _ => _ end) => destruct x
      | |- writes_only _ (if ?x then _ else _) => destruct x
      | |- writes_only _ (let (_, _) := ?x in _) => destruct x
      end ].

Lemma ensure_new_schema_writes :
  writes_only ["stock"; "item_metadata"; "periods"; "history"] _ensure_new_schema.
Proof. unfold _ensure_new_schema. repeat frame_step. Qed.

Lemma ensure_new_schema_stock data stock :
  dict_get data "stock" = Some (JDict stock) ->
  dict_get (final (_ensure_new_schema data)) "stock"
  = Some (JDict (map_values upgrade_stock_item stock)).
Proof.
  intros Hs. unfold _ensure_new_schema.
  unfold bind at 1. unfold get_data at 1. rewrite Hs.
  unfold bind at 1. unfold data_set at 1.
  match goal with
  | |- dict_get (final (?rest ?d)) _ = _ =>
      assert (H : writes_only ["item_metadata"; "periods"; "history"] rest)
        by (repeat frame_step);
      rewrite (H d "stock") by (simpl; intuition discriminate)
  end.
  apply dict_get_set_same.
Qed.

(** X3: whatever else the document holds and however the run ends, the
    upgrader moves a legacy flat map of an item under the empty option, so
    that its quantities are read at [stock[item][""][location]]; it leaves an
    item that already maps options to location maps as it is, and replaces
    an item that is no dictionary by [{"": {}}]. *)
Theorem upgrade_wraps_legacy_stock data stock item v :
  dict_get data "stock" = Some (JDict stock) ->
  dict_get stock item = Some v ->
  (forall flat, v = JDict flat -> is_legacy_map flat = true ->
     forall location,
       stock_lookup (stock_of (final (_ensure_new_schema data))) item "" location
       = dict_get flat location)
  /\ (is_option_map v = true ->
      dict_get (sub_dict (final (_ensure_new_schema data)) "stock") item = Some v)
  /\ (isinstance_dict v = false ->
      dict_get (sub_dict (final (_ensure_new_schema data)) "stock") item
      = Some (JDict [("", JDict [])])).
Proof.
  intros Hs Hv.
  pose proof (ensure_new_schema_stock _ _ Hs) as Hn.
  assert (Hitem : dict_get (sub_dict (final (_ensure_new_schema data)) "stock") item
                  = Some (upgrade_stock_item v)).
  { rewrite (sub_dict_get _ _ _ Hn), dict_get_map_values, Hv. reflexivity. }
  split; [|split].
  - intros flat -> Hl location.
    unfold stock_of. rewrite (get_default_some _ _ _ _ Hn).
    rewrite <- (sub_dict_get _ _ _ Hn). unfold stock_lookup.
    unfold is_legacy_map in Hl. cbn [upgrade_stock_item] in Hitem.
    rewrite Hl in Hitem. rewrite (sub_dict_get _ _ _ Hitem).
    reflexivity.
  - intros Ho. rewrite Hitem. f_equal. now apply upgrade_stock_item_id.
  - intros Hd. rewrite Hitem. now destruct v.
Qed.

Lemma upgrade_wraps_legacy_stock_witness :
  stock_lookup
    (stock_of (final (_ensure_new_schema
                        [ ("stock", JDict [("Album X", JDict [("Seoul", JInt 3)])]);
                          ("history", JList [JInt 5]) ])))
    "Album X" "" "Seoul"
  = Some (JInt 3).
Proof.
  destruct (upgrade_wraps_legacy_stock
              [ ("stock", JDict [("Album X", JDict [("Seoul", JInt 3)])]);
                ("history", JList [JInt 5]) ]
              [("Album X", JDict [("Seoul", JInt 3)])] "Album X"
              (JDict [("Seoul", JInt 3)]) eq_refl eq_refl) as [H _].
  exact (H [("Seoul", JInt 3)] eq_refl eq_refl "Seoul").
Defined.

Lemma writes_only_incl {A} ks ks' (m : M A) :
  incl ks ks' -> writes_only ks m -> writes_only ks' m.
Proof. intros Hi H d k Hk. apply H. intros Hin. apply Hk, Hi, Hin. Qed.

Lemma ensure_new_schema_writes_ledger : writes_only ledger_fields _ensure_new_schema.
Proof.
  eapply writes_only_incl; [|apply ensure_new_schema_writes].
  intros k Hk. simpl in *. tauto.
Qed.

Ltac ledger_frame :=
  repeat first
    [ apply ensure_new_schema_writes_ledger
    | frame_step ].

Lemma ensure_period_writes now period :
  writes_only ledger_fields (ensure_period now period).
Proof. unfold ensure_period, contains, str_lt. ledger_frame. Qed.

Lemma update_stock_writes item option location quantity :
  writes_only ledger_fields (update_stock item option location quantity).
Proof. unfold update_stock. ledger_frame. Qed.

(** X4: for any document, well formed or not, and whether the call returns
    or raises, [record_transaction] writes no top-level field other than
    [stock], [item_metadata], [periods], [history] and [current_period]:
    [last_updated], [activity_log] and whatever else the document holds are
    as before. *)
Theorem record_transaction_writes now t allow_negative data k :
  ~ In k ledger_fields ->
  dict_get (final (record_transaction now t allow_negative data)) k
  = dict_get data k.
Proof.
  revert data k.
  change (writes_only ledger_fields (record_transaction now t allow_negative)).
  unfold record_transaction.
  repeat first
    [ apply ensure_period_writes
    | apply update_stock_writes
    | apply ensure_new_schema_writes_ledger
    | frame_step ].
Qed.

Lemma record_transaction_writes_witness :
  dict_get (final (record_transaction clock (movement "out" "ArtistB" 10 april_2)
                     false scenario_B)) "activity_log"
  = dict_get scenario_B "activity_log".
Proof.
  apply (record_transaction_writes clock (movement "out" "ArtistB" 10 april_2)
           false scenario_B "activity_log").
  simpl. intuition discriminate.
Defined.

(* ================================================================== *)
(** ** Periods *)
(* ================================================================== *)

Section Periods.

Ltac lookup :=
  repeat (rewrite dict_get_set_same || rewrite dict_get_set_other by discriminate).

Lemma ltb_irrefl s : String.ltb s s = false.
Proof.
  unfold String.ltb. pose proof (String.compare_antisym s s) as H.
  destruct (String.compare s s); simpl in H; congruence.
Qed.

Lemma is_upgraded_start_period now period data :
  is_upgraded data = true -> is_upgraded (start_period now period data) = true.
Proof.
  unfold is_upgraded. rewrite !andb_true_iff. intros [Hdoc Hm]. split.
  - unfold start_period. apply is_document_set_current; auto.
    apply is_document_set_periods; auto.
    rewrite (is_document_stock _ Hdoc).
    apply is_document_shape in Hdoc. destruct Hdoc.
    rewrite (sub_dict_get _ _ _ Hperiods), (sub_dict_get _ _ _ Hstock).
    apply all_values_set; auto.
  - unfold start_period. now lookup.
Qed.

Lemma is_upgraded_after_ensure_period now period data :
  is_document data = true ->
  is_upgraded (after_ensure_period now period data) = true.
Proof.
  intros H. unfold after_ensure_period.
  destruct (period_is_noop data period).
  - now apply is_upgraded_upgrade.
  - now apply is_upgraded_start_period, is_upgraded_upgrade.
Qed.

Lemma period_is_noop_after now period data :
  period_is_noop (after_ensure_period now period data) period = true.
Proof.
  unfold after_ensure_period.
  destruct (period_is_noop data period) eqn:E.
  - unfold period_is_noop in *. unfold sub_dict, dict_get_default in *.
    now rewrite !upgrade_get_other by discriminate.
  - unfold period_is_noop, start_period, sub_dict, dict_mem. lookup.
    reflexivity.
Qed.

End Periods.

(** X5: on a document of the current schema, when the period has no record
    yet and the current period is unset, or another one that the period is
    not below, [ensure_period]
    records the period with the live stock as its opening stock and the
    clock reading as [created_at], makes it the current period, and leaves
    the record of every other period, the stock and the history as they
    were. *)
Theorem ensure_period_starts now key data :
  is_document data = true ->
  dict_mem (sub_dict data "periods") key = false ->
  (forall c, dict_get data "current_period" = Some (JStr c) ->
             c <> key /\ (c = "" \/ String.ltb key c = false)) ->
  exists data',
    ensure_period now key data = Ok tt data'
    /\ dict_get data' "current_period" = Some (JStr key)
    /\ dict_get (sub_dict data' "periods") key
       = Some (JDict [ ("opening_stock", stock_of data);
                       ("created_at", JStr now) ])
    /\ (forall k, k <> key ->
          dict_get (sub_dict data' "periods") k
          = dict_get (sub_dict data "periods") k)
    /\ dict_get data' "stock" = dict_get data "stock"
    /\ dict_get data' "history" = dict_get data "history".
Proof.
  intros Hdoc Hmem Hcur.
  rewrite (ensure_period_document _ _ _ Hdoc).
  assert (Hnoop : period_is_noop data key = false).
  { unfold period_is_noop. rewrite Hmem. simpl.
    pose proof Hdoc as Hsh. apply is_document_shape in Hsh.
    destruct Hsh as [? ? ? ? current _ _ _ _ _ _ _ _ Hc Hc'].
    rewrite (get_default_some _ _ _ _ Hc).
    destruct current as [| | |c| |]; try discriminate; [reflexivity|].
    destruct (Hcur c Hc) as [Hne Hlt]. cbn [eq_str].
    destruct (String.eqb_spec c key) as [|_]; [contradiction|].
    destruct Hlt as [->|Hlt]; [reflexivity|].
    now rewrite Hlt, andb_false_r. }
  unfold after_ensure_period. rewrite Hnoop. unfold start_period.
  eexists. split; [reflexivity|].
  split; [apply dict_get_set_same|].
  assert (Hp : sub_dict (upgrade data) "periods" = sub_dict data "periods")
    by (unfold sub_dict; now rewrite upgrade_get_other by discriminate).
  assert (Hs : stock_of (upgrade data) = stock_of data)
    by (apply stock_of_get; now apply upgrade_get_other).
  rewrite Hp, Hs.
  split; [|split; [|split]].
  - unfold sub_dict at 1.
    rewrite dict_get_set_other, dict_get_set_same by discriminate.
    apply dict_get_set_same.
  - intros k Hk. unfold sub_dict at 1.
    rewrite dict_get_set_other, dict_get_set_same by discriminate.
    now apply dict_get_set_other.
  - rewrite !dict_get_set_other by discriminate. now apply upgrade_get_other.
  - rewrite !dict_get_set_other by discriminate. now apply upgrade_get_other.
Qed.

Lemma ensure_period_starts_witness :
  exists data',
    ensure_period clock "2024-04" scenario_B = Ok tt data'
    /\ dict_get scenario_B "current_period" = Some (JStr "2024-03")
    /\ dict_get data' "current_period" = Some (JStr "2024-04")
    /\ dict_get (sub_dict data' "periods") "2024-04"
       = Some (JDict [ ("opening_stock", stock_of scenario_B);
                       ("created_at", JStr clock) ])
    /\ dict_get (sub_dict data' "periods") "2024-03"
       = dict_get (sub_dict scenario_B "periods") "2024-03".
Proof.
  destruct (ensure_period_starts clock "2024-04" scenario_B)
    as (data' & E & Hc & Hp & Hother & _).
  - vm_compute; reflexivity.
  - vm_compute; reflexivity.
  - intros c Hc. vm_compute in Hc. injection Hc as <-.
    split; [discriminate|right; reflexivity].
  - exists data'. split; [exact E|]. split; [vm_compute; reflexivity|].
    split; [exact Hc|]. split; [exact Hp|]. apply Hother. discriminate.
Defined.

(** X6: on a document of the current schema, a second call of
    [ensure_period] for the same period, at whatever time, returns normally
    and changes nothing. *)
Theorem ensure_period_idempotent now now' key data :
  is_document data = true ->
  exists data',
    ensure_period now key data = Ok tt data'
    /\ ensure_period now' key data' = Ok tt data'.
Proof.
  intros Hdoc. exists (after_ensure_period now key data).
  split; [now apply ensure_period_document|].
  rewrite ensure_period_document
    by (now apply is_document_after_ensure_period).
  unfold after_ensure_period at 1. rewrite period_is_noop_after.
  f_equal. apply upgrade_id. now apply is_upgraded_after_ensure_period.
Qed.

Lemma ensure_period_idempotent_witness :
  exists data',
    ensure_period clock "2024-04" scenario_B = Ok tt data'
    /\ ensure_period "2024-04-02T10:00:00" "2024-04" data' = Ok tt data'.
Proof.
  apply (ensure_period_idempotent clock "2024-04-02T10:00:00" "2024-04" scenario_B).
  vm_compute; reflexivity.
Defined.

(** X7: on a document of the current schema whose current period is [c],
    [ensure_period] leaves a current period that is not earlier than [c]:
    it is [c] itself or the period asked for, which then is not below [c]. *)
Theorem ensure_period_never_goes_back now key data c :
  is_document data = true ->
  dict_get data "current_period" = Some (JStr c) ->
  exists data' c',
    ensure_period now key data = Ok tt data'
    /\ dict_get data' "current_period" = Some (JStr c')
    /\ String.ltb c' c = false
    /\ (c' = c \/ c' = key).
Proof.
  intros Hdoc Hc. rewrite (ensure_period_document _ _ _ Hdoc).
  unfold after_ensure_period.
  destruct (period_is_noop data key) eqn:Hnoop.
  - exists (upgrade data), c. split; [reflexivity|].
    split; [now rewrite upgrade_get_other by discriminate|].
    split; [apply ltb_irrefl|now left].
  - exists (start_period now key (upgrade data)), key. split; [reflexivity|].
    split; [apply dict_get_set_same|]. split; [|now right].
    unfold period_is_noop in Hnoop.
    rewrite (get_default_some _ _ _ _ Hc) in Hnoop.
    apply orb_false_iff in Hnoop as [Hnoop _].
    apply orb_false_iff in Hnoop as [_ Hnoop].
    destruct c as [|a c]; [now destruct key|]. exact Hnoop.
Qed.

Lemma ensure_period_never_goes_back_witness :
  exists data' c',
    ensure_period clock "2024-02" scenario_B = Ok tt data'
    /\ dict_get data' "current_period" = Some (JStr c')
    /\ String.ltb c' "2024-03" = false
    /\ (c' = "2024-03" \/ c' = "2024-02").
Proof.
  apply (ensure_period_never_goes_back clock "2024-02" scenario_B "2024-03");
    vm_compute; reflexivity.
Defined.

(* ================================================================== *)
(** ** Recording a transaction: every outcome *)
(* ================================================================== *)

Lemma record_transaction_checked now t allow_negative data data' :
  is_document data = true ->
  record_transaction now t allow_negative data = Ok tt data' ->
  artist_mismatch t data = false /\ insufficient t allow_negative data = false.
Proof.
  intros Hdoc. rewrite (record_transaction_document _ _ _ _ Hdoc).
  unfold after_record_transaction.
  rewrite artist_mismatch_prepared, insufficient_prepared.
  destruct (artist_mismatch t data); [discriminate|].
  destruct (insufficient t allow_negative data); [discriminate|]. auto.
Qed.

Lemma record_transaction_passes now t allow_negative data :
  is_document data = true ->
  artist_mismatch t data = false ->
  insufficient t allow_negative data = false ->
  exists data', record_transaction now t allow_negative data = Ok tt data'.
Proof.
  intros Hdoc Hmis Hins. rewrite (record_transaction_document _ _ _ _ Hdoc).
  unfold after_record_transaction.
  rewrite artist_mismatch_prepared, insufficient_prepared, Hmis, Hins.
  eexists. reflexivity.
Qed.


(** X8: on a document of the current schema [record_transaction] has three
    outcomes and no other: the artist-mismatch error when the item is bound
    to another artist; else the insufficient-stock error when an outbound
    quantity exceeds the quantity on hand and the override is off; else
    success, with the entry appended to the history. It never raises
    anything else, a failure leaves the stock map and the history untouched,
    and in every outcome the document is still of the current schema. *)
Theorem record_transaction_outcomes now t allow_negative data :
  is_document data = true ->
  is_document (final (record_transaction now t allow_negative data)) = true
  /\ match record_transaction now t allow_negative data with
     | Ok _ data' =>
         artist_mismatch t data = false
         /\ insufficient t allow_negative data = false
         /\ history_of data' = history_of data ++ [JDict (to_dict t)]
     | Raise e data' =>
         ((artist_mismatch t data = true
           /\ e = ValueError (ArtistMismatch (item t)
                                (existing_artist data (item t))))
          \/ (artist_mismatch t data = false
              /\ insufficient t allow_negative data = true
              /\ e = ValueError
                       (InsufficientStock (item t) (location t)
                          (JInt (stock_qty (stock_of data) (item t) (option t)
                                   (location t)))
                          (quantity t))))
         /\ dict_get data' "stock" = dict_get data "stock"
         /\ dict_get data' "history" = dict_get data "history"
     end.
Proof.
  intros Hdoc.
  rewrite (record_transaction_document _ _ _ _ Hdoc).
  unfold after_record_transaction.
  rewrite artist_mismatch_prepared, insufficient_prepared.
  pose proof (is_document_after_ensure_period now (period t) _ Hdoc) as H1.
  pose proof (is_document_upgrade _ H1) as H2.
  pose proof (is_document_bind_artist t _ H2) as H3.
  destruct (artist_mismatch t data) eqn:Emis.
  - split; [exact H2|]. split; [left; split; auto|].
    + f_equal. f_equal.
      now rewrite existing_artist_upgrade, existing_artist_after_ensure_period.
    + split; rewrite upgrade_get_other by discriminate;
        now apply after_ensure_period_get.
  - destruct (insufficient t allow_negative data) eqn:Eins.
    + split; [exact H3|]. split; [right; repeat split; auto|].
      * rewrite (stock_of_get data
                   (bind_artist t (upgrade (after_ensure_period now (period t) data))));
          [reflexivity | now apply prepared_get].
      * split; now apply prepared_get.
    + split.
      * simpl. apply is_document_append_history.
        now apply is_document_after_update_stock.
      * repeat split; auto. rewrite history_of_append_history. f_equal.
        apply history_of_get. rewrite after_update_stock_get by discriminate.
        now apply prepared_get.
Qed.

Lemma record_transaction_outcomes_witness :
  is_document
    (final (record_transaction clock (movement "out" "ArtistA" 10 april_2) false
              scenario_B)) = true
  /\ exists e data',
       record_transaction clock (movement "out" "ArtistA" 10 april_2) false
         scenario_B = Raise e data'
       /\ dict_get data' "stock" = dict_get scenario_B "stock".
Proof.
  destruct (record_transaction_outcomes clock (movement "out" "ArtistA" 10 april_2)
              false scenario_B) as [Hd Hout]; [vm_compute; reflexivity|].
  split; [exact Hd|].
  destruct (record_transaction clock (movement "out" "ArtistA" 10 april_2) false
              scenario_B) as [u data'|e data'] eqn:E.
  - destruct Hout as (_ & Hins & _). vm_compute in Hins. discriminate Hins.
  - exists e, data'. split; [reflexivity|]. tauto.
Defined.

(** X9: on a document of the current schema, a transaction that passes the
    artist check and the stock check (any inbound one, any outbound one
    within the quantity on hand, any at all under the override) succeeds; it
    adds the signed quantity at its item/option/location, so that an
    overridden outbound movement leaves the quantity negative, changes no
    other quantity, and binds the item to its artist. *)
Theorem record_transaction_succeeds now t allow_negative data :
  is_document data = true ->
  artist_mismatch t data = false ->
  insufficient t allow_negative data = false ->
  exists data',
    record_transaction now t allow_negative data = Ok tt data'
    /\ stock_lookup (stock_of data') (item t) (option t) (location t)
       = Some (JInt (stock_qty (stock_of data) (item t) (option t) (location t)
                     + signed_quantity t))
    /\ (forall i o l,
          (i, o, l) <> (item t, option t, location t) ->
          stock_lookup (stock_of data') i o l = stock_lookup (stock_of data) i o l)
    /\ existing_artist data' (item t) = JStr (artist t).
Proof.
  intros Hdoc Hmis Hins.
  destruct (record_transaction_passes now t allow_negative data Hdoc Hmis Hins)
    as [data' E].
  exists data'. split; [exact E|].
  destruct (record_transaction_effect _ _ _ _ _ Hdoc E) as (Hd' & _ & Hs).
  rewrite (is_document_stock _ Hd'), (is_document_stock _ Hdoc), Hs.
  split; [apply stock_add_lookup_same|].
  split; [intros; now apply stock_add_lookup_other|].
  rewrite (existing_artist_after_record _ _ _ _ _ _ Hdoc E).
  now rewrite String.eqb_refl.
Qed.

Lemma record_transaction_succeeds_witness :
  exists data',
    record_transaction clock (movement "out" "ArtistA" 10 march_5) true scenario_B
    = Ok tt data'
    /\ stock_lookup (stock_of data') "Album X" "" "Seoul" = Some (JInt (-4)).
Proof.
  destruct (record_transaction_succeeds clock (movement "out" "ArtistA" 10 march_5)
              true scenario_B) as (data' & E & Hq & _);
    try (vm_compute; reflexivity).
  exists data'. split; [exact E|exact Hq].
Defined.

(** X10: without the override and with a quantity that is not negative, a
    successful [record_transaction] keeps every quantity on hand
    non-negative: stock goes below zero only through the override. *)
Theorem record_transaction_keeps_stock_nonnegative now t data data' :
  is_document data = true ->
  nonnegative_stock data ->
  0 <= quantity t ->
  record_transaction now t false data = Ok tt data' ->
  nonnegative_stock data'.
Proof.
  intros Hdoc Hnn Hq E i o l.
  destruct (record_transaction_checked _ _ _ _ _ Hdoc E) as [_ Hins].
  destruct (record_transaction_effect _ _ _ _ _ Hdoc E) as (Hd' & _ & Hs).
  rewrite (is_document_stock_qty _ _ _ _ Hd'), Hs, stock_qty_stock_add.
  rewrite <- (is_document_stock_qty _ _ _ _ Hdoc).
  specialize (Hnn i o l).
  destruct (at_address (i, o, l) (EmptyString, item t, option t, location t))
    eqn:Ea; [|lia].
  unfold at_address in Ea. rewrite !andb_true_iff, !String.eqb_eq in Ea.
  destruct Ea as [[<- <-] <-].
  unfold insufficient in Hins. unfold signed_quantity.
  destruct (String.eqb (type t) "out"); [|lia].
  simpl in Hins. rewrite andb_true_r in Hins. apply Z.ltb_ge in Hins. lia.
Qed.

Lemma scenario_B_nonnegative : nonnegative_stock scenario_B.
Proof.
  intros i o l. unfold stock_qty, stock_lookup.
  change (stock_of scenario_B)
    with (JDict [("Album X", JDict [("", JDict [("Seoul", JInt 6)])])]).
  unfold sub_dict. cbn [dict_get].
  destruct (String.eqb "Album X" i); [|simpl; lia].
  cbn [dict_get]. destruct (String.eqb "" o); [|simpl; lia].
  cbn [dict_get]. destruct (String.eqb "Seoul" l); simpl; lia.
Defined.

Lemma record_transaction_keeps_stock_nonnegative_witness :
  nonnegative_stock
    (final (record_transaction clock (movement "out" "ArtistA" 6 march_5) false
              scenario_B)).
Proof.
  apply (record_transaction_keeps_stock_nonnegative clock
           (movement "out" "ArtistA" 6 march_5) scenario_B).
  - vm_compute; reflexivity.
  - apply scenario_B_nonnegative.
  - vm_compute; discriminate.
  - vm_compute; reflexivity.
Defined.

(** X11: on a document of the current schema, whatever its outcome,
    [record_transaction] leaves the record of every period that already
    exists as it is: an opening stock, once set, is not rewritten by later
    or back-dated transactions. *)
Theorem record_transaction_keeps_periods now t allow_negative data key v :
  is_document data = true ->
  dict_get (sub_dict data "periods") key = Some v ->
  dict_get (sub_dict (final (record_transaction now t allow_negative data))
              "periods") key = Some v.
Proof.
  intros Hdoc Hk.
  assert (Hp : dict_get (sub_dict (after_ensure_period now (period t) data)
                           "periods") key = Some v).
  { unfold after_ensure_period, sub_dict.
    destruct (period_is_noop data (period t)) eqn:Hnoop.
    - now rewrite upgrade_get_other by discriminate.
    - unfold start_period.
      rewrite dict_get_set_other, dict_get_set_same by discriminate.
      fold (sub_dict (upgrade data) "periods").
      assert (Hs : sub_dict (upgrade data) "periods" = sub_dict data "periods")
        by (unfold sub_dict; now rewrite upgrade_get_other by discriminate).
      rewrite Hs. rewrite dict_get_set_other; auto.
      intros <-. unfold period_is_noop in Hnoop.
      unfold dict_mem in Hnoop. now rewrite Hk in Hnoop. }
  rewrite (record_transaction_document _ _ _ _ Hdoc).
  unfold after_record_transaction.
  destruct (artist_mismatch _ _); [|destruct (insufficient _ _ _)]; simpl final;
    unfold sub_dict in *.
  - now rewrite upgrade_get_other by discriminate.
  - now rewrite bind_artist_get, upgrade_get_other by discriminate.
  - rewrite append_history_get, after_update_stock_get by discriminate.
    now rewrite bind_artist_get, upgrade_get_other by discriminate.
Qed.

Lemma record_transaction_keeps_periods_witness :
  dict_get
    (sub_dict (final (record_transaction clock (movement "in" "ArtistA" 5 april_2)
                        false scenario_B)) "periods") "2024-03"
  = Some (JDict [("opening_stock", JDict []); ("created_at", JStr clock)]).
Proof.
  apply (record_transaction_keeps_periods clock (movement "in" "ArtistA" 5 april_2)
           false scenario_B "2024-03");
    vm_compute; reflexivity.
Defined.

(* ================================================================== *)
(** ** One artist per item *)
(* ================================================================== *)

Section Artists.

Lemma to_dict_item_artist t t' :
  to_dict t = to_dict t' -> item t = item t' /\ artist t = artist t'.
Proof. unfold to_dict. intros H. injection H. intros. auto. Qed.

Lemma truthy_JStr s : truthy (JStr s) = true <-> s <> EmptyString.
Proof.
  simpl. rewrite negb_true_iff. split.
  - intros H ->. discriminate.
  - intros H. apply String.eqb_neq. exact H.
Qed.

(** Every entry of the history of a reachable document that names an artist
    names the artist its item is bound to. *)
Lemma reachable_artists data :
  reachable data ->
  forall t, In (JDict (to_dict t)) (history_of data) ->
    artist t = EmptyString \/ existing_artist data (item t) = JStr (artist t).
Proof.
  induction 1 as [|now t0 allow data data' Hr IH Hv E]; intros t Hin.
  - destruct Hin.
  - pose proof (reachable_consistent _ Hr) as (Hdoc & _).
    destruct (record_transaction_effect _ _ _ _ _ Hdoc E) as (_ & Hh & _).
    destruct (record_transaction_checked _ _ _ _ _ Hdoc E) as [Hmis _].
    rewrite (existing_artist_after_record _ _ _ _ _ _ Hdoc E).
    rewrite Hh in Hin. apply in_app_or in Hin as [Hin|[Heq|[]]].
    + destruct (IH t Hin) as [He|He]; [now left|].
      destruct (String.eqb_spec (item t0) (item t)) as [Hi|Hi]; [|now right].
      unfold artist_mismatch in Hmis. rewrite Hi, He in Hmis.
      destruct (artist t) eqn:Ea; [now left|]. right.
      change (truthy (JStr (String a s))) with true in Hmis.
      cbn [eq_str andb] in Hmis. apply negb_false_iff, String.eqb_eq in Hmis.
      now rewrite <- Hmis.
    + pose proof (f_equal (fun j => match j with JDict d => d | _ => [] end) Heq)
        as Hd.
      cbv beta iota in Hd. apply to_dict_item_artist in Hd as [Hi Ha].
      right. now rewrite Hi, String.eqb_refl, Ha.
Qed.

End Artists.

(** X12: in a document reachable from the empty one by successful calls of
    [record_transaction], two history entries of the same item that both
    name an artist name the same one, the artist the metadata binds the item
    to. *)
Theorem history_artists_agree data t1 t2 :
  reachable data ->
  In (JDict (to_dict t1)) (history_of data) ->
  In (JDict (to_dict t2)) (history_of data) ->
  item t1 = item t2 ->
  artist t1 <> EmptyString ->
  artist t2 <> EmptyString ->
  artist t1 = artist t2
  /\ existing_artist data (item t1) = JStr (artist t1).
Proof.
  intros Hr H1 H2 Hi Ha1 Ha2.
  destruct (reachable_artists _ Hr _ H1) as [?|E1]; [contradiction|].
  destruct (reachable_artists _ Hr _ H2) as [?|E2]; [contradiction|].
  split; [|exact E1]. rewrite Hi in E1. congruence.
Qed.

Lemma history_artists_agree_witness :
  artist (movement "in" "ArtistA" 10 march_5)
  = artist (movement "out" "ArtistA" 4 march_5)
  /\ existing_artist scenario_B "Album X" = JStr "ArtistA".
Proof.
  apply (history_artists_agree scenario_B
           (movement "in" "ArtistA" 10 march_5)
           (movement "out" "ArtistA" 4 march_5)).
  - apply reachable_scenario_B.
  - vm_compute. left. reflexivity.
  - vm_compute. right. left. reflexivity.
  - reflexivity.
  - discriminate.
  - discriminate.
Defined.

(* ================================================================== *)
(** ** Categories *)
(* ================================================================== *)

Section Categories.

Lemma lower_char_twice c : lower_char (lower_char c) = lower_char c.
Proof. destruct c as [[] [] [] [] [] [] [] []]; reflexivity. Qed.

Lemma is_space_lower_char c : is_space (lower_char c) = is_space c.
Proof. destruct c as [[] [] [] [] [] [] [] []]; reflexivity. Qed.

Lemma lower_twice s : lower (lower s) = lower s.
Proof. induction s as [|c s IH]; simpl; [|rewrite lower_char_twice, IH]; reflexivity. Qed.

Lemma lstrip_lower s : lstrip (lower s) = lower (lstrip s).
Proof.
  induction s as [|c s IH]; simpl; [reflexivity|].
  rewrite is_space_lower_char. destruct (is_space c); [exact IH|reflexivity].
Qed.

Lemma rstrip_lower s : rstrip (lower s) = lower (rstrip s).
Proof.
  induction s as [|c s IH]; simpl; [reflexivity|].
  rewrite IH, is_space_lower_char.
  destruct (rstrip s); simpl; [destruct (is_space c)|]; reflexivity.
Qed.

Lemma strip_lower s : strip (lower s) = lower (strip s).
Proof. unfold strip. now rewrite lstrip_lower, rstrip_lower. Qed.

Lemma rstrip_twice s : rstrip (rstrip s) = rstrip s.
Proof.
  induction s as [|c s IH]; simpl; [reflexivity|].
  destruct (rstrip s) as [|c' r] eqn:E.
  - destruct (is_space c) eqn:Ec; simpl; [reflexivity|now rewrite Ec].
  - change (rstrip (String c (String c' r)))
      with (match rstrip (String c' r) with
            | EmptyString =>
                if is_space c then EmptyString else String c EmptyString
            | x => String c x
            end).
    now rewrite IH.
Qed.

(** No white space in front. *)
Lemma lstrip_head s :
  match lstrip s with String c _ => is_space c = false | EmptyString => True end.
Proof.
  induction s as [|c s IH]; simpl; [exact I|].
  destruct (is_space c) eqn:Ec; [exact IH|exact Ec].
Qed.

Lemma rstrip_head s :
  match s with String c _ => is_space c = false | EmptyString => True end ->
  match rstrip s with String c _ => is_space c = false | EmptyString => True end.
Proof.
  destruct s as [|c s]; simpl; [auto|]. intros Hc.
  destruct (rstrip s); [rewrite Hc|]; exact Hc.
Qed.

Lemma lstrip_fixed s :
  match s with String c _ => is_space c = false | EmptyString => True end ->
  lstrip s = s.
Proof. destruct s as [|c s]; simpl; [auto|]. now intros ->. Qed.

Lemma strip_twice s : strip (strip s) = strip s.
Proof.
  unfold strip.
  rewrite (lstrip_fixed (rstrip (lstrip s))) by apply rstrip_head, lstrip_head.
  apply rstrip_twice.
Qed.

Lemma cleaned_fixed value :
  lower (strip (lower (strip value))) = lower (strip value).
Proof. now rewrite strip_lower, strip_twice, lower_twice. Qed.

Lemma normalize_category_fixed value :
  normalize_category value <> EmptyString
  /\ normalize_category (normalize_category value) = normalize_category value.
Proof.
  assert (H : normalize_category value = "album"
              \/ normalize_category value = "md"
              \/ (normalize_category value = lower (strip value)
                  /\ mem_str (lower (strip value))
                       ["md"; "md/굿즈"; "merch"; "굿즈"] = false
                  /\ mem_str (lower (strip value)) ["album"; "앨범"] = false
                  /\ truthy (JStr (lower (strip value))) = true)).
  { unfold normalize_category.
    destruct (negb (truthy (JStr value))); [now left|].
    destruct (mem_str (lower (strip value)) ["md"; "md/굿즈"; "merch"; "굿즈"]);
      [now (right; left)|].
    destruct (mem_str (lower (strip value)) ["album"; "앨범"]); [now left|].
    destruct (truthy (JStr (lower (strip value)))); [|now left].
    right. right. auto. }
  destruct H as [->|[->|(-> & Emd & Eal & Et)]];
    [split; [discriminate|reflexivity]..|].
  split.
  - now apply truthy_JStr.
  - unfold normalize_category at 1.
    rewrite cleaned_fixed, Emd, Eal, Et.
    destruct (negb (truthy (JStr (lower (strip value))))) eqn:En;
      [|reflexivity].
    now rewrite Et in En.
Qed.

(** Whatever [strip] and [lower] do, the result is not empty. *)
Lemma normalize_category_nonempty value :
  normalize_category value <> EmptyString.
Proof.
  unfold normalize_category.
  destruct (negb (truthy (JStr value))); [discriminate|].
  destruct (mem_str _ _); [discriminate|].
  destruct (mem_str _ _); [discriminate|].
  destruct (truthy (JStr (lower (strip value)))) eqn:Et; [|discriminate].
  now apply truthy_JStr.
Qed.

Lemma lower_char_ascii c :
  (nat_of_ascii c <? 128)%nat = true ->
  (nat_of_ascii (lower_char c) <? 128)%nat = true.
Proof.
  destruct c as [[] [] [] [] [] [] [] []]; intros H;
    first [reflexivity | discriminate H].
Qed.

Lemma is_ascii_lower s : is_ascii s = true -> is_ascii (lower s) = true.
Proof.
  induction s as [|c s IH]; cbn [is_ascii lower]; [auto|].
  rewrite !andb_true_iff. intros [Hc Hs]. split; [now apply lower_char_ascii|auto].
Qed.

Lemma is_ascii_lstrip s : is_ascii s = true -> is_ascii (lstrip s) = true.
Proof.
  induction s as [|c s IH]; cbn [lstrip]; [auto|].
  destruct (is_space c); [|auto]. cbn [is_ascii]. rewrite andb_true_iff.
  intros [_ Hs]. auto.
Qed.

Lemma is_ascii_rstrip s : is_ascii s = true -> is_ascii (rstrip s) = true.
Proof.
  induction s as [|c s IH]; cbn [rstrip]; [auto|].
  cbn [is_ascii]. rewrite andb_true_iff. intros [Hc Hs]. specialize (IH Hs).
  destruct (rstrip s) as [|c' r].
  - destruct (is_space c); [reflexivity|]. cbn [is_ascii]. now rewrite Hc.
  - cbn [is_ascii] in *. now rewrite Hc, IH.
Qed.

Lemma is_ascii_normalize_category value :
  is_ascii value = true -> is_ascii (normalize_category value) = true.
Proof.
  intros H. unfold normalize_category.
  destruct (negb (truthy (JStr value))); [reflexivity|].
  destruct (mem_str _ _); [reflexivity|].
  destruct (mem_str _ _); [reflexivity|].
  destruct (truthy _); [|reflexivity].
  apply is_ascii_lower. unfold strip. now apply is_ascii_rstrip, is_ascii_lstrip.
Qed.

End Categories.

(** X13: on ASCII text, where [strip] and [lower] are those of Python,
    [normalize_category] returns a string that is not empty and is ASCII
    text again, and normalising that string gives the same string: a
    category that was stored normalised is read back as it is. *)
Theorem normalize_category_idempotent value :
  is_ascii value = true ->
  normalize_category value <> EmptyString
  /\ is_ascii (normalize_category value) = true
  /\ normalize_category (normalize_category value) = normalize_category value.
Proof.
  intros H. split; [apply normalize_category_nonempty|].
  split; [now apply is_ascii_normalize_category|].
  apply normalize_category_fixed.
Qed.

Lemma normalize_category_idempotent_witness :
  is_ascii " MERCH " = true
  /\ normalize_category " MERCH " = "md"
  /\ normalize_category (normalize_category " MERCH ")
     = normalize_category " MERCH ".
Proof.
  split; [reflexivity|]. split; [reflexivity|].
  destruct (normalize_category_idempotent " MERCH ") as (_ & _ & H);
    [reflexivity|exact H].
Defined.


(* ================================================================== *)
(** ** Choosing the artist and the category before recording *)
(* ================================================================== *)

Section Choosing.

Lemma given_some provided p :
  given provided = Some p -> p <> EmptyString.
Proof.
  unfold given. destruct provided as [q|]; [|discriminate].
  destruct (truthy (JStr q)) eqn:E; [|discriminate].
  intros H. injection H as <-. now apply truthy_JStr.
Qed.

Lemma document_metadata data :
  is_document data = true ->
  dict_get data "item_metadata" = Some (JDict (metadata_of data))
  /\ all_values isinstance_dict (metadata_of data) = true.
Proof.
  intros H. split; [|now apply is_document_metadata].
  apply is_document_shape in H as []. now rewrite (metadata_of_get _ _ Hmeta).
Qed.

(** The metadata of an item of a document: absent, or a dictionary. *)
Lemma document_info data item :
  is_document data = true ->
  dict_get (metadata_of data) item = None
  \/ dict_get (metadata_of data) item
     = Some (JDict (sub_dict (metadata_of data) item)).
Proof.
  intros H. destruct (document_metadata _ H) as [_ Hall].
  destruct (dict_get (metadata_of data) item) as [v|] eqn:E; [right|now left].
  pose proof (all_values_get _ _ _ _ Hall E) as Hv.
  destruct v; try discriminate. now rewrite (sub_dict_get _ _ _ E).
Qed.

Lemma existing_artist_set data m item i :
  existing_artist
    (dict_set data "item_metadata" (JDict (dict_set m item (JDict i)))) item
  = dict_get_default i "artist" JNull.
Proof.
  unfold existing_artist. now rewrite metadata_of_set, sub_dict_set_same.
Qed.

Lemma artist_mismatch_bound t data :
  existing_artist data (item t) = JStr (artist t) ->
  artist_mismatch t data = false.
Proof.
  unfold artist_mismatch. intros ->. cbn [eq_str].
  now rewrite String.eqb_refl, andb_false_r.
Qed.

Lemma get_default_none (d : pydict) k x :
  dict_get d k = None -> dict_get_default d k x = x.
Proof. unfold dict_get_default. now intros ->. Qed.

Lemma determine_artist_document item provided data :
  is_document data = true ->
  determine_artist item provided data = after_determine_artist item provided data.
Proof.
  intros Hdoc. destruct (document_metadata _ Hdoc) as [Hm Hall].
  unfold determine_artist, after_determine_artist, set_artist, existing_artist.
  cbv zeta.
  rewrite (get_default_some _ _ _ _ Hm), (dict_setdefault_present _ _ _ _ Hm).
  destruct (document_info data item Hdoc) as [Hi|Hi].
  - rewrite !(get_default_none _ _ _ Hi).
    assert (Hs : sub_dict (metadata_of data) item = [])
      by (unfold sub_dict; now rewrite Hi).
    rewrite Hs. cbn [truthy dict_get_default dict_get not_in_none_or].
    reflexivity.
  - rewrite !(get_default_some _ _ _ _ Hi).
    destruct (truthy (JDict (sub_dict (metadata_of data) item))) eqn:Et.
    + destruct (given provided) as [p|]; [|reflexivity].
      destruct (negb (truthy (JStr (strip p)))); reflexivity.
    + assert (Hs : sub_dict (metadata_of data) item = [])
        by (destruct (sub_dict (metadata_of data) item);
            [reflexivity|discriminate]).
      rewrite Hs. reflexivity.
Qed.

Lemma is_document_set_artist item a data :
  is_document data = true -> is_document (set_artist item a data) = true.
Proof.
  intros H. unfold set_artist. apply is_document_set_metadata; auto.
  apply all_values_set; auto. now apply is_document_metadata.
Qed.

Lemma existing_artist_set_artist item a data :
  existing_artist (set_artist item a data) item = JStr a.
Proof.
  unfold set_artist. rewrite existing_artist_set. apply get_default_set_same.
Qed.

Lemma determine_artist_answer item provided data a data' :
  is_document data = true ->
  determine_artist item provided data = Answer a data' ->
  is_document data' = true
  /\ truthy a = true
  /\ existing_artist data' item = a.
Proof.
  intros Hdoc. rewrite (determine_artist_document _ _ _ Hdoc).
  unfold after_determine_artist.
  destruct (given provided) as [p|].
  - destruct (negb (truthy (JStr (strip p)))) eqn:Es; [discriminate|].
    destruct (not_in_none_or _ _); [discriminate|].
    intros H. injection H as <- <-. apply negb_false_iff in Es.
    split; [now apply is_document_set_artist|].
    split; [exact Es|apply existing_artist_set_artist].
  - destruct (truthy (existing_artist data item)) eqn:Et; [|discriminate].
    intros H. injection H as <- <-. auto.
Qed.

(** Setting the artist an item already has changes nothing. *)
Lemma set_artist_same item a data :
  is_document data = true ->
  existing_artist data item = JStr a ->
  set_artist item a data = data.
Proof.
  intros Hdoc He. destruct (document_metadata _ Hdoc) as [Hm _].
  unfold set_artist.
  destruct (document_info data item Hdoc) as [Hi|Hi].
  - unfold existing_artist, sub_dict in He. rewrite Hi in He. discriminate.
  - unfold existing_artist, dict_get_default in He.
    destruct (dict_get (sub_dict (metadata_of data) item) "artist") as [v|] eqn:Ea;
      [|discriminate].
    subst v.
    now rewrite (dict_set_get_id _ _ _ Ea), (dict_set_get_id _ _ _ Hi),
      (dict_set_get_id _ _ _ Hm).
Qed.

End Choosing.

(** X14: on a document of the current schema, when [determine_artist] answers
    with an artist, the answer is not empty, the metadata binds the item to
    it, the document is still of the current schema, and a
    [record_transaction] of that item under that artist does not fail with
    the artist mismatch. *)
Theorem determine_artist_then_record item provided data data' now t allow_negative :
  is_document data = true ->
  Inventory.item t = item ->
  determine_artist item provided data = Answer (JStr (artist t)) data' ->
  is_document data' = true
  /\ artist t <> EmptyString
  /\ existing_artist data' item = JStr (artist t)
  /\ forall i e d,
       record_transaction now t allow_negative data'
       <> Raise (ValueError (ArtistMismatch i e)) d.
Proof.
  intros Hdoc <- E.
  destruct (determine_artist_answer _ _ _ _ _ Hdoc E) as (Hd' & Ht & He).
  split; [exact Hd'|]. split; [now apply truthy_JStr|]. split; [exact He|].
  intros i e d. rewrite (record_transaction_document _ _ _ _ Hd').
  unfold after_record_transaction.
  rewrite artist_mismatch_prepared, (artist_mismatch_bound _ _ He).
  destruct (insufficient _ _ _); discriminate.
Qed.

Lemma determine_artist_then_record_witness :
  existing_artist
    (left_behind (determine_artist "Album X" (Some " ArtistA ") scenario_B))
    "Album X" = JStr "ArtistA"
  /\ forall i e d,
       record_transaction clock (movement "out" "ArtistA" 10 march_5) false
         (left_behind (determine_artist "Album X" (Some " ArtistA ") scenario_B))
       <> Raise (ValueError (ArtistMismatch i e)) d.
Proof.
  destruct (determine_artist_then_record "Album X" (Some " ArtistA ") scenario_B
              (left_behind (determine_artist "Album X" (Some " ArtistA ") scenario_B))
              clock (movement "out" "ArtistA" 10 march_5) false)
    as (_ & _ & He & Hr);
    try (vm_compute; reflexivity).
  split; [exact He|exact Hr].
Defined.

(** X15: on a document of the current schema [determine_artist] refuses only
    with one of its own three errors, leaves everything but the item's
    artist as it is, and leaves the whole document as it is when it refuses
    or when the item already has an artist: it never rebinds an item. *)
Theorem determine_artist_never_rebinds item provided data :
  is_document data = true ->
  (forall e d, determine_artist item provided data <> Refuse (Interpreter e) d)
  /\ (forall k, k <> "item_metadata" ->
        dict_get (left_behind (determine_artist item provided data)) k
        = dict_get data k)
  /\ (forall j, j <> item ->
        dict_get (metadata_of (left_behind (determine_artist item provided data))) j
        = dict_get (metadata_of data) j)
  /\ (forall f, f <> "artist" ->
        dict_get (sub_dict (metadata_of (left_behind
                                           (determine_artist item provided data)))
                    item) f
        = dict_get (sub_dict (metadata_of data) item) f)
  /\ (existing_artist data item <> JNull ->
      left_behind (determine_artist item provided data) = data)
  /\ (forall e d, determine_artist item provided data = Refuse e d -> d = data).
Proof.
  intros Hdoc. rewrite (determine_artist_document _ _ _ Hdoc).
  assert (Hset : forall a,
             (forall k, k <> "item_metadata" ->
                dict_get (set_artist item a data) k = dict_get data k)
             /\ (forall j, j <> item ->
                   dict_get (metadata_of (set_artist item a data)) j
                   = dict_get (metadata_of data) j)
             /\ (forall f, f <> "artist" ->
                   dict_get (sub_dict (metadata_of (set_artist item a data)) item) f
                   = dict_get (sub_dict (metadata_of data) item) f)).
  { intros a. unfold set_artist.
    split; [intros k Hk; now rewrite dict_get_set_other by congruence|].
    rewrite metadata_of_set, sub_dict_set_same.
    split; intros j Hj; now rewrite dict_get_set_other by congruence. }
  unfold after_determine_artist.
  destruct (given provided) as [p|].
  - destruct (negb (truthy (JStr (strip p)))); cbn [left_behind];
      [repeat split; auto; try discriminate; intros e d H; now injection H|].
    destruct (not_in_none_or (existing_artist data item) (strip p)) eqn:En;
      cbn [left_behind];
      [repeat split; auto; try discriminate; intros e d H; now injection H|].
    destruct (Hset (strip p)) as (H1 & H2 & H3).
    repeat split; auto; try discriminate.
    intros Hne. apply set_artist_same; auto.
    destruct (existing_artist data item) as [| | |s| |]; try discriminate;
      [congruence|].
    cbn in En. apply negb_false_iff, String.eqb_eq in En. now subst s.
  - destruct (truthy (existing_artist data item)); cbn [left_behind];
      repeat split; auto; try discriminate; intros e d H; now injection H.
Qed.

Lemma determine_artist_never_rebinds_witness :
  left_behind (determine_artist "Album X" (Some "ArtistB") scenario_B) = scenario_B.
Proof.
  destruct (determine_artist_never_rebinds "Album X" (Some "ArtistB") scenario_B)
    as (_ & _ & _ & _ & H & _); [vm_compute; reflexivity|].
  apply H. vm_compute. discriminate.
Defined.

Section ChoosingCategory.


Lemma write_back_absent metadata item info data :
  dict_get metadata item = None -> write_back metadata item info data = data.
Proof. unfold write_back, dict_mem. now intros ->. Qed.

Lemma write_back_same data item i :
  dict_get data "item_metadata" = Some (JDict (metadata_of data)) ->
  dict_get (metadata_of data) item = Some (JDict i) ->
  write_back (metadata_of data) item i data = data.
Proof.
  intros Hm Hi. unfold write_back, dict_mem. rewrite Hi.
  now rewrite (dict_set_get_id _ _ _ Hi), (dict_set_get_id _ _ _ Hm).
Qed.

Lemma write_back_get metadata item info data k :
  k <> "item_metadata" ->
  dict_get (write_back metadata item info data) k = dict_get data k.
Proof.
  intros Hk. unfold write_back. destruct (dict_mem metadata item); auto.
  now rewrite dict_get_set_other by congruence.
Qed.

End ChoosingCategory.

(** X16: on a document of the current schema [determine_category] touches
    nothing but the item's metadata; it leaves the document as it is when a
    category is stored for the item and either a category is provided or the
    stored one is not empty, so a provided category never replaces a stored
    one; and for an item that has no metadata it records nothing at all. *)
Theorem determine_category_keeps_stored item provided data :
  is_document data = true ->
  (forall k, k <> "item_metadata" ->
     dict_get (left_behind (determine_category item provided data)) k
     = dict_get data k)
  /\ (forall v,
        dict_get (sub_dict (metadata_of data) item) "category" = Some v ->
        given provided <> None \/ truthy v = true ->
        left_behind (determine_category item provided data) = data)
  /\ (dict_get (metadata_of data) item = None ->
      left_behind (determine_category item provided data) = data).
Proof.
  intros Hdoc. destruct (document_metadata _ Hdoc) as [Hm Hall].
  unfold determine_category. cbv zeta.
  rewrite (get_default_some _ _ _ _ Hm), (dict_setdefault_present _ _ _ _ Hm).
  destruct (document_info data item Hdoc) as [Hi|Hi].
  - rewrite (get_default_none _ _ _ Hi).
    assert (Hs : sub_dict (metadata_of data) item = [])
      by (unfold sub_dict; now rewrite Hi).
    rewrite Hs.
    destruct (given provided) as [p|]; cbn [left_behind];
      [|cbn [dict_get_default dict_get truthy left_behind]];
      rewrite ?write_back_absent by exact Hi;
      (split; [reflexivity|]); (split; [|reflexivity]); discriminate.
  - rewrite (get_default_some _ _ _ _ Hi).
    set (i := sub_dict (metadata_of data) item) in *.
    destruct (given provided) as [p|]; cbn [left_behind].
    + split; [intros k Hk; now apply write_back_get|].
      split; [|rewrite Hi; discriminate].
      intros v Hv _. rewrite (dict_setdefault_present _ _ _ _ Hv).
      now apply write_back_same.
    + destruct (truthy (dict_get_default i "category" JNull)) eqn:Et.
      * destruct (normalize_category_value _); cbn [left_behind];
          (split; [reflexivity|]); (split; [reflexivity|]); rewrite Hi;
          discriminate.
      * cbn [left_behind].
        split; [intros k Hk; now apply write_back_get|].
        split; [|rewrite Hi; discriminate].
        intros v Hv [Hg|Hv']; [congruence|].
        rewrite (get_default_some _ _ _ _ Hv) in Et. congruence.
Qed.

Lemma determine_category_keeps_stored_witness :
  left_behind (determine_category "New Item" (Some "md") scenario_B) = scenario_B.
Proof.
  destruct (determine_category_keeps_stored "New Item" (Some "md") scenario_B)
    as (_ & _ & H); [vm_compute; reflexivity|].
  apply H. vm_compute. reflexivity.
Defined.



(* ================================================================== *)
(** ** The stock by artist *)
(* ================================================================== *)

Section ByArtist.

Variable metadata : pydict.
Hypothesis metadata_dicts : all_values isinstance_dict metadata = true.

Lemma artist_field_dicts item default :
  artist_field metadata item default
  = Return (dict_get_default (sub_dict metadata item) "artist" default).
Proof.
  unfold artist_field, sub_dict, dict_get_default at 1.
  destruct (dict_get metadata item) as [v|] eqn:E; [|reflexivity].
  pose proof (all_values_get _ _ _ _ metadata_dicts E) as Hv.
  destruct v; try discriminate. reflexivity.
Qed.

Lemma dict_get_absent (d : pydict) k :
  ~ In k (dict_keys d) -> dict_get d k = None.
Proof.
  induction d as [|[k0 v0] d IH]; simpl; [reflexivity|]. intros H.
  destruct (String.eqb_spec k0 k) as [->|]; [exfalso; auto|]. apply IH. auto.
Qed.

(** The loop of [filter_stock_by_artist], from any dictionary collected so
    far. *)
Lemma filter_loop artist (stock filtered : pydict) :
  unique (dict_keys stock) = true ->
  exists filtered',
    ofold (fun filtered item_options =>
             let '(item, options) := item_options in
             obind (artist_field metadata item JNull) (fun a =>
             Return (if negb (eq_str a artist) then filtered
                     else dict_set filtered item options)))
      stock filtered = Return filtered'
    /\ forall item,
         dict_get filtered' item
         = match dict_get stock item with
           | Some options =>
               if eq_str (dict_get_default (sub_dict metadata item) "artist" JNull)
                    artist
               then Some options else dict_get filtered item
           | None => dict_get filtered item
           end.
Proof.
  revert filtered. induction stock as [|[item options] rest IH]; intros filtered Hu.
  - exists filtered. split; reflexivity.
  - apply unique_cons in Hu as [Hnin Hu]. cbn [ofold].
    rewrite artist_field_dicts. cbn [obind].
    destruct (IH (if negb (eq_str (dict_get_default (sub_dict metadata item)
                                     "artist" JNull) artist)
                  then filtered else dict_set filtered item options) Hu)
      as (filtered' & E & Hget).
    exists filtered'. split; [exact E|].
    intros j. rewrite Hget. cbn [dict_get].
    destruct (String.eqb_spec item j) as [<-|Hne].
    + rewrite (dict_get_absent rest item Hnin).
      destruct (eq_str _ artist); cbn [negb]; [|reflexivity].
      now rewrite dict_get_set_same.
    + destruct (eq_str (dict_get_default (sub_dict metadata item) "artist" JNull)
                  artist); cbn [negb]; [|reflexivity].
      now rewrite dict_get_set_other by exact Hne.
Qed.

End ByArtist.

(** X18: with metadata that maps items to dictionaries,
    [filter_stock_by_artist] returns, and the result has exactly the items of
    the stock that the metadata binds to the artist, each with the option map
    it has in the stock. *)
Theorem filter_stock_by_artist_spec stock metadata artist :
  all_values isinstance_dict metadata = true ->
  unique (dict_keys stock) = true ->
  exists filtered,
    filter_stock_by_artist stock metadata artist = Return filtered
    /\ forall item,
         dict_get filtered item
         = if eq_str (dict_get_default (sub_dict metadata item) "artist" JNull)
                artist
           then dict_get stock item else None.
Proof.
  intros Hm Hu.
  destruct (filter_loop metadata Hm artist stock [] Hu) as (filtered & E & Hget).
  exists filtered. split; [exact E|].
  intros item. rewrite Hget. cbn [dict_get].
  destruct (dict_get stock item); destruct (eq_str _ artist); reflexivity.
Qed.

Lemma filter_stock_by_artist_spec_witness :
  exists filtered,
    filter_stock_by_artist (sub_dict scenario_B "stock")
      (metadata_of scenario_B) "ArtistA" = Return filtered
    /\ dict_get filtered "Album X" = dict_get (sub_dict scenario_B "stock") "Album X".
Proof.
  destruct (filter_stock_by_artist_spec (sub_dict scenario_B "stock")
              (metadata_of scenario_B) "ArtistA")
    as (filtered & E & Hget); try (vm_compute; reflexivity).
  exists filtered. split; [exact E|]. rewrite Hget. reflexivity.
Defined.

Section Summary.

Variable metadata : pydict.
Hypothesis metadata_names : names_artists metadata = true.

Lemma names_artists_dicts : all_values isinstance_dict metadata = true.
Proof.
  unfold names_artists, all_values in *. rewrite forallb_forall in *.
  intros kv Hin. specialize (metadata_names kv Hin).
  destruct (snd kv); try discriminate. reflexivity.
Qed.

Lemma artist_field_label item :
  artist_field metadata item (JStr "미분류") = Return (JStr (artist_label metadata item)).
Proof.
  rewrite (artist_field_dicts _ names_artists_dicts). f_equal.
  unfold artist_label, dict_get_default, sub_dict.
  destruct (dict_get metadata item) as [v|] eqn:E; [|reflexivity].
  pose proof (all_values_get _ _ _ _ metadata_names E) as Hv. cbv beta in Hv.
  destruct v as [| | | | |info]; try discriminate.
  destruct (dict_get info "artist") as [[| | | | |]|]; try discriminate;
    reflexivity.
Qed.

Lemma sum_values_total (m : pydict) total :
  all_values is_quantity m = true ->
  ofold (fun total v =>
           match int_value v with
           | Some n => Return (total + n)
           | None => Throw TypeError
           end)
    (dict_values m) total
  = Return (total + locations_total (JDict m)).
Proof.
  revert total. induction m as [|[k v] m IH]; intros total H.
  - simpl. f_equal. lia.
  - simpl in H. apply andb_true_iff in H as [Hv H].
    destruct v; try discriminate.
    cbn [dict_values map snd ofold int_value obind].
    fold (dict_values m). rewrite (IH _ H). f_equal.
    cbn [locations_total fold_right snd]. simpl locations_total. lia.
Qed.

(** The loop over the options of one item. *)
Lemma options_loop artist (m summary : pydict) n :
  all_values is_location_map m = true ->
  dict_get summary artist = Some (JInt n) ->
  exists summary',
    ofold (fun summary locations =>
             obind (dict_of locations) (fun locations =>
             obind (sum_values locations) (fun total =>
             summary_add summary artist total)))
      (dict_values m) summary = Return summary'
    /\ forall a,
         dict_get summary' a
         = if (artist =? a)%string
           then Some (JInt (n + options_total (JDict m)))
           else dict_get summary a.
Proof.
  revert summary n. induction m as [|[k v] m IH]; intros summary n H Hn.
  - exists summary. split; [reflexivity|]. intros a.
    destruct (String.eqb_spec artist a) as [<-|]; [|reflexivity].
    rewrite Hn. cbn. do 2 f_equal. lia.
  - simpl in H. apply andb_true_iff in H as [Hv H].
    destruct v as [| | | | |lm]; try discriminate.
    cbn [dict_values map snd ofold dict_of obind]. fold (dict_values m).
    unfold sum_values. rewrite (sum_values_total lm 0 Hv). cbn [obind].
    unfold summary_add. rewrite Hn. cbn [int_value].
    destruct (IH (dict_set summary artist
                    (JInt (n + (0 + locations_total (JDict lm)))))
                (n + (0 + locations_total (JDict lm))) H)
      as (summary' & E & Hget); [apply dict_get_set_same|].
    exists summary'. split; [exact E|]. intros a. rewrite Hget.
    destruct (String.eqb_spec artist a) as [<-|Hne].
    + do 2 f_equal. cbn [options_total fold_right snd].
      change (fold_right (fun kv total => locations_total (snd kv) + total) 0 m)
        with (options_total (JDict m)).
      lia.
    + now rewrite dict_get_set_other by exact Hne.
Qed.

Lemma artist_total_absent stock a :
  has_artist stock metadata a = false -> artist_total stock metadata a = 0.
Proof.
  induction stock as [|[item options] rest IH]; [reflexivity|].
  cbn [has_artist existsb fst artist_total]. intros H.
  apply orb_false_iff in H as [-> H]. rewrite (IH H). lia.
Qed.

(** The loop over the items, from any summary of integers. *)
Lemma items_loop (stock summary : pydict) :
  all_values is_option_map stock = true ->
  (forall a v, dict_get summary a = Some v -> exists n, v = JInt n) ->
  exists summary',
    ofold (fun summary item_options =>
             let '(item, options) := item_options in
             obind (artist_field metadata item (JStr "미분류")) (fun artist =>
             obind (summary_key artist) (fun artist =>
             let summary := dict_setdefault summary artist (JInt 0) in
             obind (dict_of options) (fun options =>
             ofold (fun summary locations =>
                      obind (dict_of locations) (fun locations =>
                      obind (sum_values locations) (fun total =>
                      summary_add summary artist total)))
               (dict_values options) summary))))
      stock summary = Return summary'
    /\ forall a,
         dict_get summary' a
         = if has_artist stock metadata a
           then Some (JInt (listed summary a + artist_total stock metadata a))
           else dict_get summary a.
Proof.
  revert summary. induction stock as [|[item options] rest IH];
    intros summary Hs Hq.
  - exists summary. split; reflexivity.
  - simpl in Hs. apply andb_true_iff in Hs as [Ho Hs].
    destruct options as [| | | | |m]; try discriminate.
    cbn [ofold]. rewrite artist_field_label.
    cbn [obind summary_key dict_of]. cbv zeta.
    set (artist := artist_label metadata item).
    assert (Hl : dict_get (dict_setdefault summary artist (JInt 0)) artist
                 = Some (JInt (listed summary artist))).
    { unfold dict_setdefault, listed.
      destruct (dict_get summary artist) as [v|] eqn:E.
      - rewrite E. destruct (Hq _ _ E) as [n ->]. reflexivity.
      - now rewrite dict_get_set_same. }
    assert (Ho' : forall a, artist <> a ->
                    dict_get (dict_setdefault summary artist (JInt 0)) a
                    = dict_get summary a).
    { intros a Hne. unfold dict_setdefault.
      destruct (dict_get summary artist); [reflexivity|].
      now rewrite dict_get_set_other by exact Hne. }
    destruct (options_loop artist m _ _ Ho Hl) as (s2 & E2 & Hget2).
    rewrite E2. cbn [obind].
    assert (Hq2 : forall a v, dict_get s2 a = Some v -> exists n, v = JInt n).
    { intros a v. rewrite Hget2.
      destruct (String.eqb_spec artist a) as [<-|Hne].
      - intros H. injection H as <-. eauto.
      - rewrite (Ho' a Hne). apply Hq. }
    destruct (IH s2 Hs Hq2) as (s' & E & Hget).
    exists s'. split; [exact E|]. intros a. rewrite Hget.
    cbn [has_artist existsb fst artist_total]. fold (has_artist rest metadata a).
    fold artist. unfold listed at 1. rewrite (Hget2 a).
    destruct (String.eqb_spec artist a) as [<-|Hne]; cbn [orb].
    + destruct (has_artist rest metadata artist) eqn:Eh; do 2 f_equal; [lia|].
      rewrite (artist_total_absent _ _ Eh). lia.
    + rewrite (Ho' a Hne). fold (listed summary a).
      destruct (has_artist rest metadata a); [|reflexivity].
      f_equal; f_equal; lia.
Qed.

End Summary.

(** X19: for a stock map of the current schema and metadata whose artists
    are strings, [summarize_stock_by_artist] returns, and the summary lists
    exactly the artists that some item of the stock is listed under (the
    placeholder for an item without artist), each with the total of the
    quantities of its items. *)
Theorem summarize_stock_by_artist_spec stock metadata :
  is_stock_map (JDict stock) = true ->
  names_artists metadata = true ->
  exists summary,
    summarize_stock_by_artist stock metadata = Return summary
    /\ forall artist,
         dict_get summary artist
         = if has_artist stock metadata artist
           then Some (JInt (artist_total stock metadata artist))
           else None.
Proof.
  intros Hs Hm.
  destruct (items_loop metadata Hm stock [] Hs) as (summary & E & Hget);
    [discriminate|].
  exists summary. split; [exact E|]. intros artist. rewrite Hget.
  destruct (has_artist stock metadata artist); reflexivity.
Qed.

Lemma summarize_stock_by_artist_spec_witness :
  exists summary,
    summarize_stock_by_artist (sub_dict scenario_B "stock") (metadata_of scenario_B)
    = Return summary
    /\ dict_get summary "ArtistA" = Some (JInt 6).
Proof.
  destruct (summarize_stock_by_artist_spec (sub_dict scenario_B "stock")
              (metadata_of scenario_B))
    as (summary & E & Hget); try (vm_compute; reflexivity).
  exists summary. split; [exact E|]. rewrite Hget. reflexivity.
Defined.

(* ================================================================== *)
(** ** Restoring a backup *)
(* ================================================================== *)

Section Restore.

Lemma restore_backup_restored data :
  restore_backup data = _ensure_new_schema (restored data).
Proof. reflexivity. Qed.

Lemma is_document_restored data :
  is_backup data = true -> is_document (restored data) = true.
Proof.
  unfold is_backup, is_document, restored. rewrite !andb_true_iff.
  intros ((((Hs & Hm) & Hp) & Hh) & Hc).
  rewrite !dict_get_setdefault.
  destruct (dict_get data "stock") as [stock|];
    destruct (dict_get data "item_metadata") as [[| | | | |metadata]|];
    try discriminate;
    destruct (dict_get data "periods") as [[| | | | |periods]|];
    try discriminate;
    destruct (dict_get data "history") as [[| | | |history|]|];
    try discriminate;
    destruct (dict_get data "current_period") as [current|];
    cbn; rewrite ?Hs, ?Hm, ?Hp, ?Hh, ?Hc; reflexivity.
Qed.

Lemma restored_get data k v :
  dict_get data k = Some v -> dict_get (restored data) k = Some v.
Proof. intros H. unfold restored. rewrite !dict_get_setdefault. now rewrite H. Qed.

End Restore.

(** X20: [restore_backup], applied to a backup that may lack any of the
    top-level keys and whose other keys have the shape of a document,
    returns; the result is a document of the current schema with every
    item's metadata completed, and every key the backup had, the item
    metadata apart, keeps its value. *)
Theorem restore_backup_upgrades data :
  is_backup data = true ->
  exists data',
    restore_backup data = Ok tt data'
    /\ is_upgraded data' = true
    /\ forall k v, k <> "item_metadata" ->
         dict_get data k = Some v -> dict_get data' k = Some v.
Proof.
  intros Hb. pose proof (is_document_restored _ Hb) as Hdoc.
  exists (upgrade (restored data)).
  split; [rewrite restore_backup_restored; now apply ensure_new_schema_document|].
  split; [now apply is_upgraded_upgrade|].
  intros k v Hk Hv. rewrite upgrade_get_other by exact Hk.
  now apply restored_get.
Qed.

Lemma restore_backup_upgrades_witness :
  exists data',
    restore_backup [("history", JList [])] = Ok tt data'
    /\ is_upgraded data' = true.
Proof.
  destruct (restore_backup_upgrades [("history", JList [])])
    as (data' & E & Hu & _); [vm_compute; reflexivity|].
  exists data'. split; [exact E|exact Hu].
Defined.

Section RestoreLegacy.

Ltac lookup :=
  repeat (rewrite dict_get_set_same || rewrite dict_get_set_other by discriminate).

Lemma ensure_new_schema_runs data stock :
  dict_get data "stock" = Some (JDict stock) ->
  (dict_get data "item_metadata" = None
   \/ exists m, dict_get data "item_metadata" = Some (JDict m)) ->
  (dict_get data "periods" = None
   \/ exists p, dict_get data "periods" = Some (JDict p)
                /\ snd (for_values upgrade_period_info p) = None) ->
  (dict_get data "history" = None
   \/ exists h, dict_get data "history" = Some h
                /\ snd (upgrade_history h) = None) ->
  _ensure_new_schema data = Ok tt (full_upgrade data stock).
Proof.
  intros Hs Hm Hp Hh. unfold _ensure_new_schema.
  unfold bind at 1. unfold get_data at 1. rewrite Hs.
  unfold bind at 1. unfold data_set at 1.
  unfold bind at 1. unfold data_setdefault at 1.
  unfold dict_get_default at 1. rewrite dict_get_set_other by discriminate.
  unfold full_upgrade, upgraded_periods, upgraded_history. cbv zeta.
  assert (Em : match dict_get data "item_metadata" with
               | Some v => v | None => JDict [] end
               = JDict (sub_dict data "item_metadata")).
  { unfold sub_dict. destruct Hm as [->|[m ->]]; reflexivity. }
  rewrite Em. set (m := sub_dict data "item_metadata").
  unfold bind at 1. cbn [as_dict]. unfold ret at 1.
  unfold bind at 1. unfold data_set at 1.
  rewrite dict_set_setdefault.
  unfold bind at 1. unfold bind at 1. unfold get_data at 1.
  rewrite !dict_get_set_other by discriminate.
  set (d3 := dict_set (dict_set data "stock" _) "item_metadata" _).
  set (d4 := match dict_get data "periods" with
             | Some (JDict p) =>
                 dict_set d3 "periods"
                   (JDict (fst (for_values upgrade_period_info p)))
             | _ => d3
             end).
  match goal with
  | |- match ?x with _ => _ end = _ => assert (Ep : x = Ok tt d4)
  end.
  { subst d4. destruct Hp as [Hn|(p & Hp & Hok)]; [now rewrite Hn|].
    rewrite Hp. unfold bind. cbn [as_dict]. unfold ret.
    destruct (for_values upgrade_period_info p) as [p' e]. simpl in Hok.
    subst e. reflexivity. }
  rewrite Ep. unfold bind at 1. unfold bind at 1. unfold get_data at 1.
  assert (Hh4 : dict_get d4 "history" = dict_get data "history").
  { subst d4 d3. destruct (dict_get data "periods") as [[]|]; now lookup. }
  rewrite Hh4.
  set (d5 := match dict_get data "history" with
             | Some h => dict_set d4 "history" (fst (upgrade_history h))
             | None => d4
             end).
  match goal with
  | |- match ?x with _ => _ end = _ => assert (Eh : x = Ok tt d5)
  end.
  { subst d5. destruct Hh as [Hn|(h & Hh & Hok)]; [now rewrite Hn|].
    rewrite Hh. unfold store.
    destruct (upgrade_history h) as [h' e]. simpl in Hok. subst e. reflexivity. }
  rewrite Eh.
  assert (Hm5 : dict_get d5 "item_metadata"
                = Some (JDict (map_values upgrade_last_audit m))).
  { subst d5 d4 d3.
    destruct (dict_get data "history"); destruct (dict_get data "periods") as [[]|];
      now lookup. }
  unfold bind at 1. unfold data_get at 1.
  rewrite (get_default_some _ _ _ _ Hm5).
  unfold bind at 1. cbn [as_dict]. unfold ret at 1.
  reflexivity.
Qed.

Lemma for_values_runs f (d : pydict) :
  (forall k v, In (k, v) d -> snd (f v) = None) -> snd (for_values f d) = None.
Proof.
  induction d as [|[k v] d IH]; simpl; intros H; [reflexivity|].
  pose proof (H k v (or_introl eq_refl)) as Hv.
  destruct (f v) as [v' e]. simpl in Hv. subst e.
  destruct (for_values f d) as [d' e] eqn:E. simpl.
  apply IH. intros k0 v0 Hin. apply (H k0 v0). now right.
Qed.

Lemma for_items_runs f (l : list json) :
  (forall v, In v l -> snd (f v) = None) -> snd (for_items f l) = None.
Proof.
  induction l as [|v l IH]; simpl; intros H; [reflexivity|].
  pose proof (H v (or_introl eq_refl)) as Hv.
  destruct (f v) as [v' e]. simpl in Hv. subst e.
  destruct (for_items f l) as [l' e] eqn:E. simpl.
  apply IH. intros v0 Hin. apply (H v0). now right.
Qed.

Lemma upgrade_period_info_runs v :
  is_legacy_period v = true -> snd (upgrade_period_info v) = None.
Proof.
  destruct v as [| | | | |pi]; try discriminate. simpl.
  destruct (dict_get pi "opening_stock") as [[| | | | |opening]|]; try reflexivity.
  intros H.
  destruct (for_values upgrade_opening_item opening) as [o e] eqn:E. simpl.
  change e with (snd (o, e)). rewrite <- E. apply for_values_runs.
  intros k x Hin. pose proof (all_values_In _ _ _ _ H Hin) as Hx.
  cbv beta in Hx. unfold upgrade_opening_item.
  destruct (truthy x); [|reflexivity]. simpl in Hx.
  destruct x; try discriminate.
  destruct (forallb isinstance_int (dict_values d)); reflexivity.
Qed.

Lemma legacy_restored data :
  is_legacy_backup data = true ->
  exists stock,
    dict_get (restored data) "stock" = Some (JDict stock)
    /\ _ensure_new_schema (restored data)
       = Ok tt (full_upgrade (restored data) stock)
    /\ dict_get (restored data) "history" = Some (JList (history_of data))
    /\ snd (for_items upgrade_entry (history_of data)) = None.
Proof.
  unfold is_legacy_backup. rewrite !andb_true_iff.
  intros (((Hs & Hm) & Hp) & Hh).
  assert (Es : exists stock, dict_get (restored data) "stock" = Some (JDict stock)).
  { unfold restored. rewrite !dict_get_setdefault.
    destruct (dict_get data "stock") as [[| | | | |stock]|]; try discriminate;
      eexists; reflexivity. }
  destruct Es as [stock Es]. exists stock.
  assert (Eh : dict_get (restored data) "history" = Some (JList (history_of data))).
  { unfold restored, history_of. rewrite !dict_get_setdefault.
    destruct (dict_get data "history") as [[| | | |h|]|]; try discriminate;
      reflexivity. }
  assert (Hrun : snd (for_items upgrade_entry (history_of data)) = None).
  { apply for_items_runs. intros v Hin. unfold history_of in Hin.
    destruct (dict_get data "history") as [[| | | |h|]|]; try contradiction.
    rewrite forallb_forall in Hh. specialize (Hh v Hin).
    destruct v; try discriminate. reflexivity. }
  split; [exact Es|]. split; [|split; [exact Eh|exact Hrun]].
  apply ensure_new_schema_runs; [exact Es| | |].
  - right. unfold restored. rewrite !dict_get_setdefault.
    destruct (dict_get data "item_metadata") as [[| | | | |m]|];
      try discriminate; eexists; reflexivity.
  - right. unfold restored. rewrite !dict_get_setdefault.
    destruct (dict_get data "periods") as [[| | | | |p]|]; try discriminate.
    + exists p. split; [reflexivity|]. apply for_values_runs.
      intros k v Hin. apply upgrade_period_info_runs.
      exact (all_values_In _ _ _ _ Hp Hin).
    + exists []. split; reflexivity.
  - right. exists (JList (history_of data)). split; [exact Eh|].
    cbn [upgrade_history].
    destruct (for_items upgrade_entry (history_of data)) as [h' e].
    exact Hrun.
Qed.

End RestoreLegacy.

(** X21: [restore_backup] brings a backup of the time before options and
    events up to date even when it has no [stock] key: the run returns, and
    every entry of the history has its fields completed with [event],
    [event_id], [event_open] and [category], the fields that were there
    keeping their values. *)
Theorem restore_backup_completes_history data :
  is_legacy_backup data = true ->
  exists data' history',
    restore_backup data = Ok tt data'
    /\ dict_get data' "history" = Some (JList history')
    /\ Forall2 completes (history_of data) history'
    /\ forallb is_entry history' = true.
Proof.
  intros Hb. destruct (legacy_restored _ Hb) as (stock & Es & Er & Eh & Hrun).
  destruct (for_items upgrade_entry (history_of data)) as [h' e] eqn:Ef.
  simpl in Hrun. subst e.
  exists (full_upgrade (restored data) stock), h'.
  split; [exact Er|].
  split; [rewrite full_upgrade_history, Eh; cbn; now rewrite Ef|].
  apply for_items_Forall2 in Ef.
  assert (Hc : Forall2 completes (history_of data) h').
  { clear - Ef. induction Ef as [|v v' l l' Hv _ IH]; constructor;
      [now apply upgrade_entry_completes|assumption]. }
  split; [exact Hc|].
  apply forallb_forall. intros v' Hin.
  clear - Hc Hin. induction Hc as [|v w l l' Hvw _ IH]; [contradiction|].
  destruct Hin as [<-|Hin]; [eapply completes_is_entry; eauto|auto].
Qed.

Lemma restore_backup_completes_history_witness :
  exists data' history',
    restore_backup document_without_stock = Ok tt data'
    /\ dict_get data' "history" = Some (JList history')
    /\ forallb is_entry history' = true.
Proof.
  destruct (restore_backup_completes_history document_without_stock)
    as (data' & h' & E & Hh & _ & He); [vm_compute; reflexivity|].
  exists data', h'. auto.
Defined.

(* ================================================================== *)
(** ** Editing a history entry *)
(* ================================================================== *)

Section Edit.

Lemma option_of_str o data : option_of (JStr o) data = Ok o data.
Proof. unfold option_of. destruct o; reflexivity. Qed.

Lemma move_old_movement old back data :
  move_old (JDict (to_dict old)) back data
  = update_stock (item old) (option old) (location old)
      (if back then - old_effect old else old_effect old) data.
Proof.
  unfold move_old. unfold bind at 1. cbn [as_dict]. unfold ret at 1.
  unfold bind at 1.
  change (dict_get_default (to_dict old) "quantity" (JInt 0))
    with (JInt (quantity old)).
  cbn [int_of lift]. unfold ret at 1.
  unfold bind at 1.
  change (dict_get_default (to_dict old) "item" JNull) with (JStr (item old)).
  cbn [key_of]. unfold ret at 1.
  unfold bind at 1.
  change (dict_get_default (to_dict old) "option" (JStr ""))
    with (JStr (option old)).
  rewrite option_of_str.
  unfold bind at 1.
  change (dict_get_default (to_dict old) "location" JNull)
    with (JStr (location old)).
  cbn [key_of]. unfold ret at 1.
  change (dict_get_default (to_dict old) "type" JNull) with (JStr (type old)).
  reflexivity.
Qed.

Lemma available_document t data :
  is_document data = true ->
  available t data
  = Ok (JInt (stock_qty (stock_of data) (item t) (option t) (location t))) data.
Proof.
  intros H. pose proof H as Hd. apply is_document_shape in Hd.
  destruct Hd as [stock metadata periods history current Hs Hs' Hm Hm' Hp Hp' Hh Hh' Hc Hc'].
  unfold available. unfold bind at 1. unfold data_get at 1.
  rewrite (get_default_some _ _ _ _ Hs).
  unfold bind at 1. cbn [as_dict]. unfold ret at 1.
  destruct (option_map_shape stock (item t) Hs') as [-> H1].
  unfold bind at 1. cbn [as_dict]. unfold ret at 1.
  change (or_empty (option t)) with (_option_key (option t)).
  rewrite option_key_id.
  destruct (location_map_shape _ (option t) H1) as [-> H2].
  unfold bind at 1. cbn [as_dict]. unfold ret at 1.
  rewrite quantity_shape by auto. unfold ret, stock_of.
  now rewrite (get_default_some _ _ _ _ Hs).
Qed.

Lemma is_document_rebind t data :
  is_document data = true -> is_document (rebind t data) = true.
Proof.
  intros H. unfold rebind. apply is_document_set_metadata; auto.
  apply all_values_set; auto. now apply is_document_metadata.
Qed.

Lemma edit_entry_document created_at saved_at logged_at actor proceed index
      old new_tx data :
  is_document data = true ->
  edit_entry created_at saved_at logged_at actor proceed index
    (JDict (to_dict old)) new_tx data
  = if edit_short new_tx (taken_back old data) && negb proceed
    then Ok tt (put_back old (taken_back old data))
    else (data_set "last_updated" (JStr saved_at) ;;
          _log_user_action actor (edit_action new_tx) logged_at)
           (edit_applied created_at index new_tx (taken_back old data)).
Proof.
  intros H. unfold edit_entry.
  unfold bind at 1. rewrite move_old_movement, (update_stock_document _ _ _ _ _ H).
  fold (taken_back old data).
  pose proof (is_document_after_update_stock (item old) (option old) (location old)
                (- old_effect old) _ H) as H1.
  fold (taken_back old data) in H1. set (d1 := taken_back old data) in *.
  unfold bind at 1. rewrite (available_document _ _ H1).
  unfold bind at 1.
  assert (Es : (if (type new_tx =? "out")%string
                then match int_value
                             (JInt (stock_qty (stock_of d1) (item new_tx)
                                      (option new_tx) (location new_tx))) with
                     | Some a => ret (a <? quantity new_tx)
                     | None => raise TypeError
                     end
                else ret false) d1 = Ok (edit_short new_tx d1) d1).
  { unfold edit_short. destruct (type new_tx =? "out")%string; reflexivity. }
  rewrite Es. clear Es.
  destruct (edit_short new_tx d1 && negb proceed).
  - rewrite move_old_movement. apply update_stock_document. exact H1.
  - unfold bind at 1. rewrite (ensure_period_document _ _ _ H1).
    pose proof (is_document_after_ensure_period created_at (period new_tx) _ H1)
      as H2.
    set (d2 := after_ensure_period created_at (period new_tx) d1) in *.
    destruct (document_metadata _ H2) as [Hm Hall].
    unfold bind at 1. unfold data_setdefault at 1.
    rewrite (get_default_some _ _ _ _ Hm), (dict_setdefault_present _ _ _ _ Hm).
    unfold bind at 1. cbn [as_dict]. unfold ret at 1.
    unfold bind at 1. unfold data_set at 1.
    rewrite (info_shape _ (item new_tx) Hall).
    unfold bind at 1. unfold data_set at 1. rewrite dict_set_set.
    fold (edit_info new_tx (sub_dict (metadata_of d2) (item new_tx))).
    fold (rebind new_tx d2).
    pose proof (is_document_rebind new_tx _ H2) as H3.
    unfold bind at 1. fold (signed_quantity new_tx).
    rewrite (update_stock_document _ _ _ _ _ H3).
    pose proof (is_document_after_update_stock (item new_tx) (option new_tx)
                  (location new_tx) (signed_quantity new_tx) _ H3) as H4.
    set (d4 := after_update_stock _ _ _ _ (rebind new_tx d2)) in *.
    pose proof H4 as Hd. apply is_document_shape in Hd. destruct Hd.
    unfold bind at 1. unfold data_get at 1.
    rewrite (get_default_some _ _ _ _ Hhistory).
    unfold bind at 1. unfold data_set at 1.
    unfold edit_applied. fold d2. fold d4. unfold history_of. rewrite Hhistory.
    reflexivity.
Qed.

End Edit.

Section EditReplay.

Lemma replays_replays_to history stock :
  replays (net_quantity history) stock <-> replays_to history stock.
Proof. reflexivity. Qed.

Lemma replays_ext net net' stock :
  (forall i o l, net i o l = net' i o l) -> replays net stock -> replays net' stock.
Proof.
  intros He H i o l. specialize (H i o l). rewrite <- He. exact H.
Qed.

Lemma replays_qty net stock i o l :
  replays net stock -> stock_qty (JDict stock) i o l = net i o l.
Proof.
  intros H. specialize (H i o l). unfold stock_qty.
  destruct (stock_lookup (JDict stock) i o l) as [q|].
  - now subst.
  - now rewrite H.
Qed.

Lemma replays_stock_add net stock t q :
  replays net stock ->
  replays (fun i o l =>
             net i o l
             + (if entry_matches (JDict (to_dict t)) i o l then q else 0))
    (stock_add stock (item t) (option t) (location t) q).
Proof.
  intros H i o l.
  destruct (entry_matches (JDict (to_dict t)) i o l) eqn:Em.
  - apply entry_matches_movement in Em. inversion Em; subst.
    rewrite stock_add_lookup_same. now rewrite (replays_qty net).
  - rewrite stock_add_lookup_other.
    + specialize (H i o l). destruct (stock_lookup (JDict stock) i o l); [|lia].
      rewrite H. f_equal. lia.
    + intros E. apply entry_matches_movement in E. congruence.
Qed.

Lemma net_quantity_list_set h index e e' i o l :
  nth_error h index = Some e ->
  net_quantity (list_set h index e') i o l
  = net_quantity h i o l - contribution e i o l + contribution e' i o l.
Proof.
  unfold contribution. revert index.
  induction h as [|x h IH]; intros [|n] H; simpl in H; try discriminate.
  - injection H as ->. simpl. lia.
  - simpl. rewrite (IH n H). lia.
Qed.

Lemma contribution_movement t i o l :
  valid_type t = true ->
  contribution (JDict (to_dict t)) i o l
  = if entry_matches (JDict (to_dict t)) i o l then signed_quantity t else 0.
Proof.
  intros H. unfold contribution. now rewrite entry_signed_quantity_movement.
Qed.

Lemma old_effect_valid t : valid_type t = true -> old_effect t = signed_quantity t.
Proof.
  unfold valid_type, old_effect, signed_quantity.
  destruct (String.eqb_spec (type t) "in") as [->|]; [reflexivity|].
  simpl. now intros ->.
Qed.

Lemma sub_dict_after_update_stock item option location quantity data :
  sub_dict (after_update_stock item option location quantity data) "stock"
  = stock_add (sub_dict data "stock") item option location quantity.
Proof. unfold after_update_stock. apply sub_dict_set_same. Qed.

Lemma history_after_update_stock item option location quantity data :
  history_of (after_update_stock item option location quantity data)
  = history_of data.
Proof.
  apply history_of_get. unfold after_update_stock.
  rewrite dict_get_set_other by discriminate.
  now apply upgrade_get_other.
Qed.

Lemma sub_dict_eq (d d' : pydict) k :
  dict_get d' k = dict_get d k -> sub_dict d' k = sub_dict d k.
Proof. unfold sub_dict. now intros ->. Qed.

Lemma rebind_get t data k :
  k <> "item_metadata" -> dict_get (rebind t data) k = dict_get data k.
Proof. intros H. unfold rebind. now rewrite dict_get_set_other by congruence. Qed.

Lemma edit_applied_history created_at index t data :
  history_of (edit_applied created_at index t data)
  = list_set (history_of data) index (JDict (to_dict t)).
Proof.
  unfold edit_applied, history_of at 1. rewrite dict_get_set_same.
  rewrite history_after_update_stock. f_equal. apply history_of_get.
  rewrite rebind_get by discriminate.
  now apply after_ensure_period_get.
Qed.

Lemma edit_applied_stock created_at index t data :
  sub_dict (edit_applied created_at index t data) "stock"
  = stock_add (sub_dict data "stock") (item t) (option t) (location t)
      (signed_quantity t).
Proof.
  unfold edit_applied. rewrite sub_dict_set_other by discriminate.
  rewrite sub_dict_after_update_stock. f_equal. apply sub_dict_eq.
  rewrite rebind_get by discriminate.
  now apply after_ensure_period_get.
Qed.

Lemma log_writes actor action saved_at logged_at :
  writes_only ["last_updated"; "activity_log"]
    (data_set "last_updated" (JStr saved_at) ;;
     _log_user_action actor action logged_at).
Proof. unfold _log_user_action. repeat frame_step. Qed.

Lemma document_history data :
  is_document data = true ->
  dict_get_default data "history" (JList []) = JList (history_of data).
Proof.
  intros H. apply is_document_shape in H as [].
  unfold history_of. rewrite Hhistory. now apply get_default_some.
Qed.

(** Apart from the time of the save and the activity log, the edit leaves
    the document of the closed form. *)
Lemma edited_document created_at saved_at logged_at actor proceed index
      old new_tx data k :
  is_document data = true ->
  nth_error (history_of data) index = Some (JDict (to_dict old)) ->
  ~ In k ["last_updated"; "activity_log"] ->
  dict_get (edited (_apply_history_edit created_at saved_at logged_at actor
                      proceed index new_tx data)) k
  = dict_get (after_edit created_at proceed index old new_tx data) k.
Proof.
  intros Hdoc Hn Hk. unfold _apply_history_edit, after_edit.
  rewrite (document_history _ Hdoc), Hn.
  destruct ((type new_tx =? "out")%string
            && negb (truthy (JStr (description new_tx)))); [reflexivity|].
  rewrite (edit_entry_document _ _ _ _ _ _ _ _ _ Hdoc).
  destruct (edit_short new_tx (taken_back old data) && negb proceed);
    [reflexivity|].
  pose proof (log_writes actor (edit_action new_tx) saved_at logged_at
                (edit_applied created_at index new_tx (taken_back old data))
                k Hk) as Hw.
  destruct ((data_set "last_updated" (JStr saved_at) ;;
             _log_user_action actor (edit_action new_tx) logged_at)
              (edit_applied created_at index new_tx (taken_back old data)));
    exact Hw.
Qed.

Lemma after_edit_replays created_at proceed index old new_tx data :
  is_document data = true ->
  nth_error (history_of data) index = Some (JDict (to_dict old)) ->
  valid_type old = true ->
  valid_type new_tx = true ->
  replays_to (history_of data) (sub_dict data "stock") ->
  replays_to (history_of (after_edit created_at proceed index old new_tx data))
    (sub_dict (after_edit created_at proceed index old new_tx data) "stock").
Proof.
  intros Hdoc Hn Hvo Hvn Hr. unfold after_edit.
  destruct ((type new_tx =? "out")%string
            && negb (truthy (JStr (description new_tx)))); [exact Hr|].
  apply replays_replays_to in Hr.
  pose proof (replays_stock_add _ _ old (- old_effect old) Hr) as H1.
  destruct (edit_short new_tx (taken_back old data) && negb proceed).
  - unfold put_back, taken_back.
    rewrite !history_after_update_stock, !sub_dict_after_update_stock.
    apply replays_replays_to.
    pose proof (replays_stock_add _ _ old (old_effect old) H1) as H2.
    revert H2. apply replays_ext. intros i o l.
    destruct (entry_matches (JDict (to_dict old)) i o l); lia.
  - rewrite edit_applied_history, edit_applied_stock. unfold taken_back.
    rewrite history_after_update_stock, sub_dict_after_update_stock.
    apply replays_replays_to.
    pose proof (replays_stock_add _ _ new_tx (signed_quantity new_tx) H1) as H2.
    revert H2. apply replays_ext. intros i o l.
    rewrite (net_quantity_list_set _ _ _ _ _ _ _ Hn).
    rewrite !contribution_movement by assumption.
    rewrite (old_effect_valid _ Hvo).
    destruct (entry_matches (JDict (to_dict old)) i o l);
      destruct (entry_matches (JDict (to_dict new_tx)) i o l); lia.
Qed.

End EditReplay.

(** X22: editing a history entry keeps the stock equal to the replay of the
    history. On a document of the current schema whose stock is the net of
    its history, after [_apply_history_edit] has replaced the entry of a
    movement by a new movement, has been declined in the dialog, or has
    refused the edit, every stored quantity is still the net quantity of the
    history entries of its key. *)
Theorem edit_keeps_stock_consistent created_at saved_at logged_at actor proceed
    index old new_tx data :
  is_document data = true ->
  nth_error (history_of data) index = Some (JDict (to_dict old)) ->
  valid_type old = true ->
  valid_type new_tx = true ->
  replays_to (history_of data) (sub_dict data "stock") ->
  replays_to
    (history_of (edited (_apply_history_edit created_at saved_at logged_at actor
                           proceed index new_tx data)))
    (sub_dict (edited (_apply_history_edit created_at saved_at logged_at actor
                         proceed index new_tx data)) "stock").
Proof.
  intros Hdoc Hn Hvo Hvn Hr.
  rewrite (history_of_get (after_edit created_at proceed index old new_tx data))
    by (apply edited_document; auto; simpl; intuition discriminate).
  rewrite (sub_dict_eq (after_edit created_at proceed index old new_tx data))
    by (apply edited_document; auto; simpl; intuition discriminate).
  now apply after_edit_replays.
Qed.

Lemma edit_keeps_stock_consistent_witness :
  replays_to
    (history_of (edited (_apply_history_edit clock clock clock "operator" true 0
                           (movement "in" "ArtistA" 12 march_5) scenario_B)))
    (sub_dict (edited (_apply_history_edit clock clock clock "operator" true 0
                         (movement "in" "ArtistA" 12 march_5) scenario_B))
       "stock").
Proof.
  apply (edit_keeps_stock_consistent clock clock clock "operator" true 0%nat
           (movement "in" "ArtistA" 10 march_5)
           (movement "in" "ArtistA" 12 march_5) scenario_B).
  - vm_compute; reflexivity.
  - vm_compute; reflexivity.
  - reflexivity.
  - reflexivity.
  - apply (reachable_consistent scenario_B reachable_scenario_B).
Defined.

Section EditEffect.

Lemma at_address_matches t i o l :
  at_address (i, o, l) (EmptyString, item t, option t, location t)
  = entry_matches (JDict (to_dict t)) i o l.
Proof. reflexivity. Qed.

Lemma stock_qty_taken old q data i o l :
  is_document data = true ->
  stock_qty (stock_of (after_update_stock (item old) (option old) (location old)
                         q data)) i o l
  = stock_qty (stock_of data) i o l
    + (if entry_matches (JDict (to_dict old)) i o l then q else 0).
Proof.
  intros H. rewrite stock_of_after_update_stock, stock_qty_stock_add.
  now rewrite at_address_matches, (is_document_stock_qty _ _ _ _ H).
Qed.

Lemma is_document_taken_back old data :
  is_document data = true -> is_document (taken_back old data) = true.
Proof. apply is_document_after_update_stock. Qed.

Lemma stock_of_edit_applied created_at index t data :
  stock_of (edit_applied created_at index t data)
  = stock_of (after_update_stock (item t) (option t) (location t)
                (signed_quantity t)
                (rebind t (after_ensure_period created_at (period t) data))).
Proof.
  apply stock_of_get. unfold edit_applied.
  now rewrite dict_get_set_other by discriminate.
Qed.

Lemma existing_artist_set_stock data v item :
  existing_artist (dict_set data "stock" v) item = existing_artist data item.
Proof.
  unfold existing_artist. f_equal. f_equal. apply metadata_of_get_eq.
  now rewrite dict_get_set_other by discriminate.
Qed.

Lemma existing_artist_edit_applied created_at index t data :
  existing_artist (edit_applied created_at index t data) (item t)
  = JStr (artist t).
Proof.
  unfold edit_applied.
  assert (Hh : forall d v,
             existing_artist (dict_set d "history" v) (item t)
             = existing_artist d (item t)).
  { intros d v. unfold existing_artist. f_equal. f_equal.
    apply metadata_of_get_eq. now rewrite dict_get_set_other by discriminate. }
  rewrite Hh. unfold after_update_stock.
  rewrite existing_artist_set_stock, existing_artist_upgrade.
  unfold rebind. rewrite existing_artist_set. unfold edit_info.
  destruct (truthy (JStr (option t)));
    repeat rewrite get_default_set_other by discriminate;
    apply get_default_set_same.
Qed.

End EditEffect.

(** X23: an inbound edit, or an outbound edit with a description that is
    confirmed in the dialog, replaces the entry at the index and no other,
    changes every quantity by what the new entry contributes to its key minus
    what the old entry contributed, and binds the item to the artist of the
    new entry whatever artist it was bound to: the edit makes no artist
    check. *)
Theorem edit_replaces_entry created_at saved_at logged_at actor proceed index
    old new_tx data :
  is_document data = true ->
  nth_error (history_of data) index = Some (JDict (to_dict old)) ->
  valid_type old = true ->
  valid_type new_tx = true ->
  (type new_tx = "out" -> description new_tx <> EmptyString /\ proceed = true) ->
  history_of (edited (_apply_history_edit created_at saved_at logged_at actor
                        proceed index new_tx data))
  = list_set (history_of data) index (JDict (to_dict new_tx))
  /\ (forall i o l,
        stock_qty (stock_of (edited (_apply_history_edit created_at saved_at
                                       logged_at actor proceed index new_tx data)))
          i o l
        = stock_qty (stock_of data) i o l
          - contribution (JDict (to_dict old)) i o l
          + contribution (JDict (to_dict new_tx)) i o l)
  /\ existing_artist (edited (_apply_history_edit created_at saved_at logged_at
                                actor proceed index new_tx data)) (item new_tx)
     = JStr (artist new_tx).
Proof.
  intros Hdoc Hn Hvo Hvn Hout.
  set (r := _apply_history_edit created_at saved_at logged_at actor proceed index
              new_tx data).
  assert (Hget : forall k, ~ In k ["last_updated"; "activity_log"] ->
                   dict_get (edited r) k
                   = dict_get (edit_applied created_at index new_tx
                                 (taken_back old data)) k).
  { intros k Hk. unfold r. rewrite (edited_document _ _ _ _ _ _ old) by auto.
    unfold after_edit, edit_short.
    destruct (String.eqb_spec (type new_tx) "out") as [E|E].
    - destruct (Hout E) as [Hd ->]. apply truthy_JStr in Hd. rewrite Hd.
      cbn [negb andb]. now rewrite andb_false_r.
    - reflexivity. }
  split; [|split].
  - rewrite (history_of_get (edit_applied created_at index new_tx
                               (taken_back old data)))
      by (apply Hget; simpl; intuition discriminate).
    rewrite edit_applied_history. unfold taken_back.
    now rewrite history_after_update_stock.
  - intros i o l.
    rewrite (stock_of_get (edit_applied created_at index new_tx
                             (taken_back old data)))
      by (apply Hget; simpl; intuition discriminate).
    rewrite stock_of_edit_applied, stock_of_after_update_stock, stock_qty_stock_add.
    rewrite at_address_matches.
    rewrite (sub_dict_eq (taken_back old data))
      by (rewrite rebind_get by discriminate;
          now apply after_ensure_period_get).
    rewrite <- (is_document_stock_qty _ _ _ _ (is_document_taken_back old _ Hdoc)).
    unfold taken_back. rewrite (stock_qty_taken _ _ _ _ _ _ Hdoc).
    rewrite !contribution_movement by assumption.
    rewrite (old_effect_valid _ Hvo).
    destruct (entry_matches (JDict (to_dict old)) i o l);
      destruct (entry_matches (JDict (to_dict new_tx)) i o l); lia.
  - unfold existing_artist.
    rewrite (metadata_of_get_eq (edit_applied created_at index new_tx
                                   (taken_back old data)))
      by (apply Hget; simpl; intuition discriminate).
    apply existing_artist_edit_applied.
Qed.

Lemma edit_replaces_entry_witness :
  stock_qty
    (stock_of (edited (_apply_history_edit clock clock clock "operator" false 0
                         (mk_Transaction "in" "ArtistB" "Album X" "" "Busan" 12
                            march_5 "album" "" "" false "" false)
                         scenario_B)))
    "Album X" "" "Seoul" = -4
  /\ existing_artist
       (edited (_apply_history_edit clock clock clock "operator" false 0
                  (mk_Transaction "in" "ArtistB" "Album X" "" "Busan" 12
                     march_5 "album" "" "" false "" false)
                  scenario_B)) "Album X" = JStr "ArtistB".
Proof.
  destruct (edit_replaces_entry clock clock clock "operator" false 0%nat
              (movement "in" "ArtistA" 10 march_5)
              (mk_Transaction "in" "ArtistB" "Album X" "" "Busan" 12
                 march_5 "album" "" "" false "" false)
              scenario_B) as (_ & Hq & Ha);
    try (vm_compute; reflexivity).
  - discriminate.
  - split; [rewrite Hq; vm_compute; reflexivity|exact Ha].
Defined.

(** X24: an outbound edit with a description that the dialog declines,
    because the quantity on hand once the old entry is taken back is below
    the new quantity, returns normally, and leaves the history and every
    quantity as they were. *)
Theorem edit_declined created_at saved_at logged_at actor index old new_tx data :
  is_document data = true ->
  nth_error (history_of data) index = Some (JDict (to_dict old)) ->
  valid_type old = true ->
  type new_tx = "out" ->
  description new_tx <> EmptyString ->
  stock_qty (stock_of data) (item new_tx) (option new_tx) (location new_tx)
  - contribution (JDict (to_dict old)) (item new_tx) (option new_tx)
      (location new_tx)
  < quantity new_tx ->
  exists data',
    _apply_history_edit created_at saved_at logged_at actor false index new_tx data
    = Edited data'
    /\ history_of data' = history_of data
    /\ forall i o l,
         stock_qty (stock_of data') i o l = stock_qty (stock_of data) i o l.
Proof.
  intros Hdoc Hn Hvo Hout Hd Hlt.
  exists (put_back old (taken_back old data)).
  split; [|split].
  - unfold _apply_history_edit. rewrite (document_history _ Hdoc), Hn.
    apply truthy_JStr in Hd. rewrite Hd, andb_false_r.
    rewrite (edit_entry_document _ _ _ _ _ _ _ _ _ Hdoc).
    assert (Hs : edit_short new_tx (taken_back old data) = true).
    { unfold edit_short, taken_back. rewrite Hout, String.eqb_refl. cbn [andb].
      apply Z.ltb_lt. rewrite (stock_qty_taken _ _ _ _ _ _ Hdoc).
      rewrite contribution_movement, <- (old_effect_valid _ Hvo) in Hlt
        by assumption.
      destruct (entry_matches (JDict (to_dict old)) (item new_tx) (option new_tx)
                  (location new_tx)); lia. }
    now rewrite Hs.
  - unfold put_back, taken_back. now rewrite !history_after_update_stock.
  - intros i o l. unfold put_back.
    rewrite (stock_qty_taken _ _ _ _ _ _ (is_document_taken_back old _ Hdoc)).
    unfold taken_back. rewrite (stock_qty_taken _ _ _ _ _ _ Hdoc).
    destruct (entry_matches (JDict (to_dict old)) i o l); lia.
Qed.

Lemma edit_declined_witness :
  exists data',
    _apply_history_edit clock clock clock "operator" false 1
      (mk_Transaction "out" "ArtistA" "Album X" "" "Seoul" 11 march_5 "album"
         "" "sample" false "" false)
      scenario_B
    = Edited data'
    /\ history_of data' = history_of scenario_B.
Proof.
  destruct (edit_declined clock clock clock "operator" 1%nat
              (movement "out" "ArtistA" 4 march_5)
              (mk_Transaction "out" "ArtistA" "Album X" "" "Seoul" 11 march_5
                 "album" "" "sample" false "" false)
              scenario_B) as (data' & E & Hh & _);
    try (vm_compute; reflexivity).
  - discriminate.
  - exists data'. split; [exact E|exact Hh].
Defined.

(* ================================================================== *)
(** ** Summaries of searches *)
(* ================================================================== *)

(** X25: [summarize] returns on the entries of any list of inbound and
    outbound movements, whatever their order and whether or not they are the
    whole history: the summary is a stock map of the current schema in which
    every stored quantity is the net quantity of the entries of its key, and
    a key that is not stored has net quantity 0. *)
Theorem summarize_movements ts :
  Forall (fun t => valid_type t = true) ts ->
  exists summary,
    summarize (map (fun t => JDict (to_dict t)) ts) = Return summary
    /\ is_stock_map (JDict summary) = true
    /\ replays_to (map (fun t => JDict (to_dict t)) ts) summary.
Proof.
  induction ts as [|t ts IH] using rev_ind; intros Hv.
  - exists []. split; [reflexivity|]. split; [reflexivity|].
    intros i o l. reflexivity.
  - apply Forall_app in Hv as [Hts Ht]. inversion Ht as [|? ? Hvt _]; subst.
    destruct (IH Hts) as (stock & E & Hs & Hr).
    exists (stock_add stock (item t) (option t) (location t) (signed_quantity t)).
    rewrite map_app. cbn [map]. unfold summarize in *.
    rewrite summarize_from_app, E. cbn [obind].
    split; [now apply summarize_entry_movement|].
    split; [now apply stock_add_shape|now apply replays_to_step].
Qed.

Lemma summarize_movements_witness :
  exists summary,
    summarize [ JDict (to_dict (movement "out" "ArtistA" 4 march_5));
                JDict (to_dict (movement "in" "ArtistA" 10 march_5)) ]
    = Return summary
    /\ stock_qty (JDict summary) "Album X" "" "Seoul" = 6.
Proof.
  destruct (summarize_movements [ movement "out" "ArtistA" 4 march_5;
                                  movement "in" "ArtistA" 10 march_5 ])
    as (summary & E & _ & Hr).
  - repeat constructor.
  - exists summary. split; [exact E|].
    rewrite (stock_qty_replay _ _ _ _ _ Hr). reflexivity.
Defined.

(* ================================================================== *)
(** ** The activity log *)
(* ================================================================== *)



(* ================================================================== *)
(** ** What stops a pull *)
(* ================================================================== *)

Section PullStops.

Lemma pull_keys_stopped clock now actor ls gs keys :
  forall changes data e n data',
    is_document data = true ->
    pull_keys clock now actor ls gs keys changes data = Ok (Stopped e n) data' ->
    exists item existing, e = ValueError (ArtistMismatch item existing).
Proof.
  induction keys as [|k keys IH]; intros changes data e n data' Hdoc E;
    cbn [pull_keys] in E.
  - discriminate E.
  - destruct (snap_qty (snap_get_default gs k) - snap_qty (snap_get_default ls k)
              =? 0); [now apply (IH _ _ _ _ _ Hdoc E)|].
    unfold bind at 1 in E.
    destruct (choose_artist (snap_get_default gs k) (snap_get_default ls k) data)
      as [artist d|x d] eqn:Ec; [|discriminate E].
    assert (d = data) as ->.
    { unfold choose_artist in Ec.
      destruct (truthy _); [|discriminate Ec].
      destruct (if truthy (snap_artist (snap_get_default gs k))
                then snap_artist (snap_get_default gs k)
                else snap_artist (snap_get_default ls k));
        try discriminate Ec.
      now injection Ec. }
    set (t := correction now actor k artist _ _) in E.
    destruct (record_transaction (clock changes) t true data) as [[] d1|x d1] eqn:Er.
    + destruct (record_transaction_effect _ _ _ _ _ Hdoc Er) as (Hd1 & _).
      now apply (IH _ _ _ _ _ Hd1 E).
    + injection E as <- _ _.
      rewrite (record_transaction_document _ _ _ _ Hdoc) in Er.
      unfold after_record_transaction in Er.
      destruct (artist_mismatch _ _); [injection Er as <- _; eauto|].
      unfold insufficient in Er. rewrite andb_false_r in Er. discriminate Er.
Qed.

End PullStops.

(** X27: a pull between two documents of the current schema is stopped by
    nothing but the artist mismatch: its corrections override the stock
    check, so that no shortage of stock stops it. *)
Theorem pull_stops_only_on_artist_mismatch clock now actor google data e n data' :
  is_document data = true ->
  is_document google = true ->
  sync_google_drive clock now actor google data = Ok (Stopped e n) data' ->
  exists item existing, e = ValueError (ArtistMismatch item existing).
Proof.
  intros Hdoc Hgdoc E.
  destruct (document_metadata _ Hgdoc) as [Hm Hall].
  destruct (merge_artists_document _ Hall data Hdoc) as (d1 & E1 & Hd1 & _).
  unfold sync_google_drive in E.
  unfold bind at 1 in E. unfold get_data at 1 in E.
  destruct (_build_stock_snapshot data) as [ls|x]; [|discriminate E].
  unfold bind at 1 in E. cbn [lift] in E. unfold ret at 1 in E.
  destruct (_build_stock_snapshot google) as [gs|x]; [|discriminate E].
  unfold bind at 1 in E. cbn [lift] in E. unfold ret at 1 in E.
  unfold bind at 1 in E. rewrite (get_default_some _ _ _ _ Hm) in E.
  cbn [dict_of lift] in E. unfold ret at 1 in E.
  unfold bind at 1 in E. rewrite E1 in E.
  exact (pull_keys_stopped _ _ _ _ _ _ _ _ _ _ _ Hd1 E).
Qed.

Lemma pull_stops_only_on_artist_mismatch_witness :
  exists item existing,
    ValueError (ArtistMismatch "Album X" (JStr "ArtistB"))
    = ValueError (ArtistMismatch item existing).
Proof.
  apply (pull_stops_only_on_artist_mismatch sync_clock april_2 "operator"
           (sheet "ArtistB" "Busan" 2) scenario_B
           (ValueError (ArtistMismatch "Album X" (JStr "ArtistB"))) 1%nat
           (final (sync_google_drive sync_clock april_2 "operator"
                     (sheet "ArtistB" "Busan" 2) scenario_B)));
    vm_compute; reflexivity.
Defined.

(** X28: a pull runs to its end, without being stopped and without raising,
    when the two documents are of the current schema, their snapshots can be
    built, and the local metadata, the metadata of the sheet and the two
    snapshots agree on one artist per item, which the snapshots name for each
    of their keys. *)
Theorem pull_runs_to_end (A : string -> string) clock now actor google data ls gs :
  is_document data = true -> is_document google = true ->
  _build_stock_snapshot data = Return ls ->
  _build_stock_snapshot google = Return gs ->
  (forall i, bound_to A i (existing_artist data i)) ->
  (forall i meta, In (i, JDict meta) (metadata_of google) ->
                  bound_to A i (dict_get_default meta "artist" JNull)) ->
  snapshot_bound A ls -> snapshot_bound A gs ->
  exists n data',
    sync_google_drive clock now actor google data = Ok (Pulled n) data'.
Proof. exact (pull_completes A clock now actor google data ls gs). Qed.

Lemma pull_runs_to_end_witness :
  exists n data',
    sync_google_drive sync_clock april_2 "operator" (sheet "ArtistA" "Seoul" 9)
      scenario_B = Ok (Pulled n) data'.
Proof.
  apply (pull_runs_to_end (fun _ => "ArtistA") sync_clock april_2 "operator"
           (sheet "ArtistA" "Seoul" 9) scenario_B
           [ (("album", "Album X", "", "Seoul"),
              mk_info 6 (JStr "ArtistA") "album") ]
           [ (("album", "Album X", "", "Seoul"),
              mk_info 9 (JStr "ArtistA") "album") ]).
  - vm_compute; reflexivity.
  - vm_compute; reflexivity.
  - vm_compute; reflexivity.
  - vm_compute; reflexivity.
  - intros i. unfold bound_to, existing_artist.
    set (m := metadata_of scenario_B). vm_compute in m. subst m.
    unfold sub_dict. cbn [dict_get].
    destruct (String.eqb "Album X" i); [intros _; reflexivity|discriminate].
  - intros i meta Hin.
    set (m := metadata_of (sheet "ArtistA" "Seoul" 9)) in Hin.
    vm_compute in m. subst m.
    destruct Hin as [Hin|[]]. injection Hin as <- <-.
    unfold bound_to. intros _. reflexivity.
  - intros c i o l inf. cbn [snap_get].
    destruct (key_eqb _ _); [|discriminate].
    intros H. injection H as <-. split; [reflexivity|discriminate].
  - intros c i o l inf. cbn [snap_get].
    destruct (key_eqb _ _); [|discriminate].
    intros H. injection H as <-. split; [reflexivity|discriminate].
Defined.

(* ================================================================== *)
(** ** The snapshot of a document *)
(* ================================================================== *)

Section SnapshotReturns.

Lemma ofold_returns {A B} (f : B -> A -> outcome B) (l : list A) :
  (forall acc x, In x l -> exists acc', f acc x = Return acc') ->
  forall acc, exists r, ofold f l acc = Return r.
Proof.
  induction l as [|x l IH]; intros H acc; cbn [ofold].
  - eauto.
  - destruct (H acc x (or_introl eq_refl)) as [acc' E]. rewrite E. cbn [obind].
    apply IH. intros a y Hin. apply H. now right.
Qed.

Lemma snapshot_locations_returns category item option artist snapshot locations :
  all_values is_quantity locations = true ->
  exists s,
    snapshot_locations category item option artist snapshot locations = Return s.
Proof.
  intros H. unfold snapshot_locations. apply ofold_returns.
  intros acc [location qty] Hin.
  pose proof (all_values_In _ _ _ _ H Hin) as Hq.
  destruct qty; try discriminate. cbn. eauto.
Qed.

Lemma snapshot_options_returns category item artist snapshot options :
  all_values is_location_map options = true ->
  exists s, snapshot_options category item artist snapshot options = Return s.
Proof.
  intros H. unfold snapshot_options. apply ofold_returns.
  intros acc [option locations] Hin.
  pose proof (all_values_In _ _ _ _ H Hin) as Hl.
  destruct locations; try discriminate. cbn [dict_of obind].
  now apply snapshot_locations_returns.
Qed.

Lemma normalize_category_value_returns metadata item :
  all_values isinstance_dict metadata = true ->
  names_categories metadata = true ->
  exists c,
    normalize_category_value
      (dict_get_default (sub_dict metadata item) "category" (JStr "album"))
    = Return c.
Proof.
  intros Hd Hn. unfold sub_dict, dict_get_default.
  destruct (dict_get metadata item) as [v|] eqn:E; [|cbn; eauto].
  pose proof (all_values_get _ _ _ _ Hn E) as Hv. cbv beta in Hv.
  destruct v as [| | | | |info]; try discriminate.
  unfold normalize_category_value.
  destruct (dict_get info "category") as [c|]; [|cbn; eauto].
  destruct (negb (truthy c)) eqn:Et; [eauto|].
  destruct c; try discriminate; eauto.
Qed.

Lemma build_stock_snapshot_returns data :
  is_document data = true ->
  names_categories (metadata_of data) = true ->
  exists s, _build_stock_snapshot data = Return s.
Proof.
  intros Hdoc Hn. pose proof Hdoc as Hd. apply is_document_shape in Hd.
  destruct Hd as [stock metadata periods history current Hs Hs' Hm Hm' Hp Hp' Hh Hh' Hc Hc'].
  rewrite (metadata_of_get _ _ Hm) in Hn.
  unfold _build_stock_snapshot.
  rewrite (get_default_some _ _ _ _ Hs), (get_default_some _ _ _ _ Hm).
  assert (Hloop : exists s, ofold (snapshot_item (JDict metadata)) stock [] = Return s).
  { apply ofold_returns. intros acc [item options] Hin.
    pose proof (all_values_In _ _ _ _ Hs' Hin) as Ho.
    destruct options as [| | | | |om]; try discriminate.
    unfold snapshot_item. cbn [dict_of obind].
    rewrite (info_shape _ item Hm'). cbn [dict_of obind].
    destruct (normalize_category_value_returns metadata item Hm' Hn) as [c ->].
    cbn [obind]. now apply snapshot_options_returns. }
  destruct (truthy (JDict stock)) eqn:Et; cbn [dict_of obind]; [exact Hloop|].
  cbn [ofold]. eauto.
Qed.

End SnapshotReturns.

(** X29: [_build_stock_snapshot] returns on a document of the current schema
    whose categories are strings, and when the keys of the stock maps are
    unique the snapshot has, for every quantity of the stock, one key under
    the normalised category of its item, with that quantity and the artist
    of the item, and no other key. *)
Theorem build_stock_snapshot_spec data :
  is_document data = true ->
  well_keyed (stock_of data) = true ->
  names_categories (metadata_of data) = true ->
  exists s,
    _build_stock_snapshot data = Return s
    /\ forall c i o l,
         snap_get s (c, i, o, l)
         = match stock_lookup (stock_of data) i o l with
           | Some (JInt q) =>
               if has_category data i c
               then Some (mk_info q (snapshot_artist data i) c)
               else None
           | _ => None
           end.
Proof.
  intros Hdoc Hw Hn.
  destruct (build_stock_snapshot_returns _ Hdoc Hn) as [s E].
  exists s. split; [exact E|]. now apply snapshot_of_document.
Qed.

Lemma build_stock_snapshot_spec_witness :
  exists s,
    _build_stock_snapshot scenario_B = Return s
    /\ snap_get s ("album", "Album X", "", "Seoul")
       = Some (mk_info 6 (JStr "ArtistA") "album").
Proof.
  destruct (build_stock_snapshot_spec scenario_B) as (s & E & Hs);
    try (vm_compute; reflexivity).
  exists s. split; [exact E|]. rewrite Hs. vm_compute. reflexivity.
Defined.

(* ================================================================== *)
(** ** Receiving from the command line *)
(* ================================================================== *)

Section Receive.

Lemma is_document_write_back data item info :
  is_document data = true ->
  is_document (write_back (metadata_of data) item info data) = true.
Proof.
  intros H. unfold write_back. destruct (dict_mem (metadata_of data) item); auto.
  apply is_document_set_metadata; auto.
  apply all_values_set; auto. now apply is_document_metadata.
Qed.

Lemma existing_artist_write_back data item info :
  is_document data = true ->
  dict_get info "artist" = dict_get (sub_dict (metadata_of data) item) "artist" ->
  existing_artist (write_back (metadata_of data) item info data) item
  = existing_artist data item.
Proof.
  intros H Ha. unfold write_back.
  destruct (dict_mem (metadata_of data) item); [|reflexivity].
  rewrite existing_artist_set. unfold existing_artist, dict_get_default.
  now rewrite Ha.
Qed.

Lemma determine_category_document item provided data c data' :
  is_document data = true ->
  determine_category item provided data = Answer c data' ->
  is_document data' = true
  /\ (forall k, k <> "item_metadata" -> dict_get data' k = dict_get data k)
  /\ existing_artist data' item = existing_artist data item.
Proof.
  intros Hdoc. destruct (document_metadata _ Hdoc) as [Hm Hall].
  unfold determine_category. cbv zeta.
  rewrite (get_default_some _ _ _ _ Hm), (dict_setdefault_present _ _ _ _ Hm).
  rewrite (info_shape _ item Hall).
  set (i := sub_dict (metadata_of data) item).
  destruct (given provided) as [p|].
  - intros H. injection H as <- <-.
    split; [now apply is_document_write_back|].
    split; [intros k Hk; now apply write_back_get|].
    apply existing_artist_write_back; auto.
    rewrite dict_get_setdefault. fold i.
    destruct (dict_get i "artist"); reflexivity.
  - destruct (truthy (dict_get_default i "category" JNull)).
    + destruct (normalize_category_value _); [|discriminate].
      intros H. injection H as <- <-. auto.
    + intros H. injection H as <- <-.
      split; [now apply is_document_write_back|].
      split; [intros k Hk; now apply write_back_get|].
      apply existing_artist_write_back; auto.
      now rewrite dict_get_set_other by discriminate.
Qed.

End Receive.

(** X30: the three calls of [handle_receive] in a row. On a document of the
    current schema, once [determine_artist] and [determine_category] have
    answered, [record_transaction] of the inbound transaction built from
    their answers succeeds: it adds the quantity at the item's option and
    location, counted from the stock before the three calls, and appends the
    entry to the history as it was before them. *)
Theorem receive_records item artist_arg category_arg data d1 d2 category now t :
  is_document data = true ->
  determine_artist item artist_arg data = Answer (JStr (artist t)) d1 ->
  determine_category item category_arg d1 = Answer category d2 ->
  type t = "in" ->
  Inventory.item t = item ->
  Inventory.category t = category ->
  exists d3,
    record_transaction now t false d2 = Ok tt d3
    /\ stock_qty (stock_of d3) item (option t) (location t)
       = stock_qty (stock_of data) item (option t) (location t) + quantity t
    /\ history_of d3 = history_of data ++ [JDict (to_dict t)].
Proof.
  intros Hdoc Ea Ec Htype <- _.
  destruct (determine_artist_answer _ _ _ _ _ Hdoc Ea) as (Hd1 & _ & He1).
  destruct (determine_category_document _ _ _ _ _ Hd1 Ec) as (Hd2 & Hf2 & He2).
  assert (Hf1 : forall k, k <> "item_metadata" -> dict_get d1 k = dict_get data k).
  { intros k Hk. revert Ea. rewrite (determine_artist_document _ _ _ Hdoc).
    unfold after_determine_artist.
    destruct (given artist_arg) as [p|].
    - destruct (negb (truthy (JStr (strip p)))); [discriminate|].
      destruct (not_in_none_or _ _); [discriminate|].
      intros H. injection H as _ <-. unfold set_artist.
      now rewrite dict_get_set_other by congruence.
    - destruct (truthy (existing_artist data (item t))); [|discriminate].
      intros H. now injection H as _ <-. }
  assert (Hmis : artist_mismatch t d2 = false)
    by (apply artist_mismatch_bound; now rewrite He2).
  assert (Hins : insufficient t false d2 = false)
    by (unfold insufficient; now rewrite Htype).
  destruct (record_transaction_passes now t false d2 Hd2 Hmis Hins) as [d3 E].
  exists d3. split; [exact E|].
  destruct (record_transaction_effect _ _ _ _ _ Hd2 E) as (Hd3 & Hh & Hs).
  split.
  - rewrite (is_document_stock_qty _ _ _ _ Hd3), Hs, stock_qty_stock_add.
    rewrite <- (is_document_stock_qty _ _ _ _ Hd2).
    rewrite (stock_of_get data d2)
      by (rewrite Hf2, Hf1 by discriminate; reflexivity).
    unfold at_address, signed_quantity. rewrite !String.eqb_refl, Htype.
    reflexivity.
  - rewrite Hh. f_equal. apply history_of_get.
    now rewrite Hf2, Hf1 by discriminate.
Qed.

Lemma receive_records_witness :
  exists d3,
    record_transaction clock (movement "in" "ArtistA" 5 april_2) false
      (left_behind
         (determine_category "Album X" (Some "album")
            (left_behind (determine_artist "Album X" (Some "ArtistA") scenario_B))))
    = Ok tt d3
    /\ stock_qty (stock_of d3) "Album X" "" "Seoul" = 11.
Proof.
  destruct (receive_records "Album X" (Some "ArtistA") (Some "album") scenario_B
              (left_behind (determine_artist "Album X" (Some "ArtistA") scenario_B))
              (left_behind
                 (determine_category "Album X" (Some "album")
                    (left_behind
                       (determine_artist "Album X" (Some "ArtistA") scenario_B))))
              "album" clock (movement "in" "ArtistA" 5 april_2))
    as (d3 & E & Hq & _); try (vm_compute; reflexivity).
  exists d3. split; [exact E|].
  etransitivity; [exact Hq|vm_compute; reflexivity].
Defined.
